(** * Checkpoint and recovery core of the ClaudeCode project-management scripts

    A shallow embedding of
      - [checkpoint_recovery.py]  (class [CheckpointRecoveryManager]),
      - [auto_checkpoint.py]      (class [AutoCheckpointDaemon]),
      - the checkpoint-saving slice of [resume_progress.py]
        (class [ProgressManager]),
    followed by the properties of the specification that concern them.

    Modelling conventions.
      - JSON documents are trees ([Py.json]); [json.load] of what [json.dump]
        wrote gives the same tree back.  JSON numbers are integers.
      - Python exceptions are values of [Py.exn]; code that can raise returns
        [Py.res].  The text of an exception inside a message is a fixed
        rendering ([Py.exn_text]), not CPython's wording.
      - The file system is an association list from path strings to regular
        files, in directory-scan order.  Directories are implicit: [mkdir]
        never fails and [exists] is true of regular files only.  Two path
        strings name the same file exactly when they are equal.
      - Permissions are two kinds of fault: a file can be unreadable, and a
        path can be closed to writing and unlinking.
      - Every call reads the clock once; the reading is an argument.  The
        MD5 digest of the daemon is a parameter of the loops. *)

From Stdlib Require Import ZArith List String Ascii Bool Arith Lia.
From Stdlib Require Import DecimalString Sorted Permutation.
Import ListNotations.
Open Scope string_scope.
Open Scope list_scope.
Set Warnings "-register-all".

(** ** Python values and the operators the scripts apply to them *)

Module Py.

Inductive json : Type :=
| JNull
| JBool (b : bool)
| JNum (z : Z)
| JStr (s : string)
| JArr (items : list json)
| JObj (fields : list (string * json)).

Inductive exn : Type :=
| KeyError (key : string)
| TypeError
| AttributeError
| JSONDecodeError
| OSError (path : string)
| SameFileError (path : string).

Inductive res (A : Type) : Type :=
| Ok (a : A)
| Raise (e : exn).
Arguments Ok {A} a.
Arguments Raise {A} e.

Definition bind {A B : Type} (r : res A) (k : A -> res B) : res B :=
  match r with
  | Ok a => k a
  | Raise e => Raise e
  end.

Definition exn_text (e : exn) : string :=
  match e with
  | KeyError k => "'" ++ k ++ "'"
  | TypeError => "TypeError"
  | AttributeError => "AttributeError"
  | JSONDecodeError => "JSONDecodeError"
  | OSError p => "OSError: " ++ p
  | SameFileError p => "SameFileError: " ++ p
  end.

(** *** Dictionaries: insertion-ordered, one binding per key *)

Fixpoint lookup (k : string) (o : list (string * json)) : option json :=
  match o with
  | [] => None
  | (k', v) :: o' => if String.eqb k' k then Some v else lookup k o'
  end.

(** [d[k] = v]: an existing key keeps its position, a new key goes last. *)
Fixpoint update (k : string) (v : json) (o : list (string * json))
  : list (string * json) :=
  match o with
  | [] => [(k, v)]
  | (k', v') :: o' =>
      if String.eqb k' k then (k, v) :: o' else (k', v') :: update k v o'
  end.

Definition has_key (k : string) (o : list (string * json)) : bool :=
  match lookup k o with Some _ => true | None => false end.

(** [d.get(k, default)] *)
Definition get (d : json) (k : string) (default : json) : res json :=
  match d with
  | JObj o => Ok (match lookup k o with Some v => v | None => default end)
  | _ => Raise AttributeError
  end.

(** [d[k]] for a string key *)
Definition getitem (d : json) (k : string) : res json :=
  match d with
  | JObj o => match lookup k o with Some v => Ok v | None => Raise (KeyError k) end
  | _ => Raise TypeError
  end.

(** [d[k] = v] for a string key *)
Definition setitem (d : json) (k : string) (v : json) : res json :=
  match d with
  | JObj o => Ok (JObj (update k v o))
  | _ => Raise TypeError
  end.

(** [d[k1][k2] = v]: the inner object is mutated in place, so the outer one
    sees the change. *)
Definition setitem2 (d : json) (k1 k2 : string) (v : json) : res json :=
  bind (getitem d k1) (fun inner =>
  bind (setitem inner k2 v) (fun inner' =>
  setitem d k1 inner')).

(** [d[k].append(v)] *)
Definition append_at (d : json) (k : string) (v : json) : res json :=
  bind (getitem d k) (fun l =>
  match l with
  | JArr items => setitem d k (JArr (items ++ [v]))
  | _ => Raise AttributeError
  end).

Definition is_substring (k s : string) : bool :=
  match String.index 0 k s with Some _ => true | None => false end.

(** [k in c] for a string [k] *)
Definition contains (k : string) (c : json) : res bool :=
  match c with
  | JObj o => Ok (has_key k o)
  | JArr l =>
      Ok (existsb (fun x => match x with JStr s => String.eqb s k | _ => false end) l)
  | JStr s => Ok (is_substring k s)
  | _ => Raise TypeError
  end.

(** [d[k1][k2][k3] = v] *)
Definition setitem3 (d : json) (k1 k2 k3 : string) (v : json) : res json :=
  bind (getitem d k1) (fun inner =>
  bind (setitem2 inner k2 k3 v) (fun inner' =>
  setitem d k1 inner')).

(** [if k not in d: d[k] = v] *)
Definition setdefault (d : json) (k : string) (v : json) : res json :=
  bind (contains k d) (fun present =>
  if present then Ok d else setitem d k v).

(** [[k for k in keys if k not in c]] *)
Fixpoint missing_from (keys : list string) (c : json) : res (list string) :=
  match keys with
  | [] => Ok []
  | k :: ks =>
      bind (contains k c) (fun present =>
      bind (missing_from ks c) (fun rest =>
      Ok (if present then rest else k :: rest)))
  end.

(** [len(c)] *)
Definition len (c : json) : res nat :=
  match c with
  | JArr l => Ok (List.length l)
  | JObj o => Ok (List.length o)
  | JStr s => Ok (String.length s)
  | _ => Raise TypeError
  end.

Fixpoint chars (s : string) : list json :=
  match s with
  | EmptyString => []
  | String a s' => JStr (String a EmptyString) :: chars s'
  end.

(** The elements visited by [for x in a + b]. *)
Definition iter_concat (a b : json) : res (list json) :=
  match a, b with
  | JArr l1, JArr l2 => Ok (l1 ++ l2)
  | JStr s1, JStr s2 => Ok (chars (s1 ++ s2))
  | _, _ => Raise TypeError
  end.

(** Python truthiness of a value used as a condition. *)
Definition truthy (c : json) : bool :=
  match c with
  | JNull => false
  | JBool b => b
  | JNum z => negb (Z.eqb z 0)
  | JStr s => negb (String.eqb s "")
  | JArr l => negb (Nat.eqb (List.length l) 0)
  | JObj o => negb (Nat.eqb (List.length o) 0)
  end.

Definition num_of (a : json) : option Z :=
  match a with
  | JNum z => Some z
  | JBool b => Some (if b then 1%Z else 0%Z)
  | _ => None
  end.

(** [a == b]: deep equality; dictionaries compare regardless of key order and
    [True == 1]. *)
Fixpoint eq (a b : json) {struct a} : bool :=
  match a, b with
  | JNull, JNull => true
  | JStr s, JStr t => String.eqb s t
  | JNum x, JNum y => Z.eqb x y
  | JNum x, JBool c => Z.eqb x (if c then 1 else 0)
  | JBool c, JNum y => Z.eqb (if c then 1 else 0) y
  | JBool c, JBool d => Bool.eqb c d
  | JArr l, JArr l' =>
      (fix go (l l' : list json) : bool :=
         match l, l' with
         | [], [] => true
         | x :: xs, y :: ys => eq x y && go xs ys
         | _, _ => false
         end) l l'
  | JObj o, JObj o' =>
      Nat.eqb (List.length o) (List.length o') &&
      (fix all (o : list (string * json)) : bool :=
         match o with
         | [] => true
         | (k, v) :: r =>
             match lookup k o' with
             | Some v' => eq v v'
             | None => false
             end && all r
         end) o
  | _, _ => false
  end.

(** *** Strings *)

Definition digits (n : nat) : string := NilZero.string_of_uint (Nat.to_uint n).

Fixpoint zeros (n : nat) : string :=
  match n with O => "" | S n' => String "0" (zeros n') end.

(** [f"{n:03d}"] for a non-negative [n] *)
Definition fmt03 (n : nat) : string :=
  let d := digits n in zeros (3 - String.length d) ++ d.

(** [str(x)] inside an f-string; containers are not rendered. *)
Definition str (x : json) : string :=
  match x with
  | JNull => "None"
  | JBool true => "True"
  | JBool false => "False"
  | JNum z => if (z <? 0)%Z then "-" ++ digits (Z.abs_nat z) else digits (Z.abs_nat z)
  | JStr s => s
  | JArr _ => "[...]"
  | JObj _ => "{...}"
  end.

Definition lower_ascii (a : ascii) : ascii :=
  let n := nat_of_ascii a in
  if ((65 <=? n) && (n <=? 90))%nat then ascii_of_nat (n + 32) else a.

Fixpoint map_string (f : ascii -> ascii) (s : string) : string :=
  match s with
  | EmptyString => EmptyString
  | String a s' => String (f a) (map_string f s')
  end.

(** [s.lower()] on ASCII text *)
Definition lower (s : string) : string := map_string lower_ascii s.

(** [s.replace(a, b)] for single characters *)
Definition replace_char (a b : ascii) (s : string) : string :=
  map_string (fun c => if Ascii.eqb c a then b else c) s.

(** [sep.join(l)] *)
Definition join (sep : string) (l : list string) : string := String.concat sep l.

Definition starts_with (p s : string) : bool := String.prefix p s.

Definition ends_with (suffix s : string) : bool :=
  let n := String.length s in
  let k := String.length suffix in
  (k <=? n)%nat && String.eqb (String.substring (n - k) k s) suffix.

Fixpoint split_on (c : ascii) (s : string) : list string :=
  match s with
  | EmptyString => [EmptyString]
  | String a s' =>
      if Ascii.eqb a c then EmptyString :: split_on c s'
      else match split_on c s' with
           | [] => [String a EmptyString]
           | h :: t => String a h :: t
           end
  end.

(** *** Code that mutates a record and may raise half-way *)

Definition M (S A : Type) : Type := S -> res A * S.

Definition mret {S A : Type} (a : A) : M S A := fun s => (Ok a, s).

Definition mbind {S A B : Type} (c : M S A) (k : A -> M S B) : M S B :=
  fun s =>
    match c s with
    | (Ok a, s') => k a s'
    | (Raise e, s') => (Raise e, s')
    end.

Definition lift {S A : Type} (r : res A) : M S A := fun s => (r, s).

Definition modify {S : Type} (f : S -> S) : M S unit := fun s => (Ok tt, f s).

Fixpoint for_each {S A : Type} (body : A -> M S unit) (l : list A) : M S unit :=
  match l with
  | [] => mret tt
  | x :: xs => mbind (body x) (fun _ => for_each body xs)
  end.

(** Read the state with a computation that may raise. *)
Definition reading {S A : Type} (f : S -> res A) : M S A := fun s => (f s, s).

(** Replace the state by the result of a computation that may raise. *)
Definition updating {S : Type} (f : S -> res S) : M S unit :=
  fun s =>
    match f s with
    | Ok s' => (Ok tt, s')
    | Raise e => (Raise e, s)
    end.

Declare Scope py_scope.
Delimit Scope py_scope with py.
Notation "x <- e ;; k" := (bind e (fun x => k))
  (at level 61, e at next level, right associativity) : py_scope.
Notation "x <~ e ;; k" := (mbind e (fun x => k))
  (at level 61, e at next level, right associativity) : py_scope.
Notation "e ;;; k" := (mbind e (fun _ => k))
  (at level 61, right associativity) : py_scope.

End Py.

(** ** The file system and the clock *)

Module FS.
Import Py.
Open Scope py_scope.

(** A file is a sequence of chunks: a JSON document written by [json.dump] or
    one line of a JSON-lines log is a [Json] chunk; [Text] is any other text,
    none of it a JSON document. *)
Inductive chunk : Type :=
| Text (raw : string)
| Json (doc : json).

Record file : Type := mkFile {
  f_data : list chunk;
  f_mtime : Z;
  f_readable : bool
}.

(** [fs_denied] lists the paths on which creating, overwriting or unlinking
    raises [OSError]. *)
Record filesystem : Type := mkFS {
  fs_files : list (string * file);
  fs_denied : list string
}.

Record clock : Type := mkClock {
  now : Z;                 (* time.time(), in seconds *)
  utc_iso : string;        (* datetime.now(timezone.utc).isoformat() *)
  local_minute : string;   (* datetime.now().strftime('%Y%m%d_%H%M') *)
  local_second : string    (* datetime.now().strftime('%Y%m%d_%H%M%S') *)
}.

Fixpoint find_file (p : string) (l : list (string * file)) : option file :=
  match l with
  | [] => None
  | (q, f) :: l' => if String.eqb q p then Some f else find_file p l'
  end.

Fixpoint put_file (p : string) (f : file) (l : list (string * file))
  : list (string * file) :=
  match l with
  | [] => [(p, f)]
  | (q, g) :: l' =>
      if String.eqb q p then (p, f) :: l' else (q, g) :: put_file p f l'
  end.

Fixpoint remove_file (p : string) (l : list (string * file))
  : list (string * file) :=
  match l with
  | [] => []
  | (q, g) :: l' =>
      if String.eqb q p then l' else (q, g) :: remove_file p l'
  end.

Definition lookup_file (fs : filesystem) (p : string) : option file :=
  find_file p (fs_files fs).

(** [Path.exists()] *)
Definition exists_ (fs : filesystem) (p : string) : bool :=
  match lookup_file fs p with Some _ => true | None => false end.

(** [os.access(p, os.R_OK)] *)
Definition readable (fs : filesystem) (p : string) : bool :=
  match lookup_file fs p with Some f => f_readable f | None => false end.

Definition is_denied (fs : filesystem) (p : string) : bool :=
  existsb (String.eqb p) (fs_denied fs).

Definition data_of (fs : filesystem) (p : string) : list chunk :=
  match lookup_file fs p with Some f => f_data f | None => [] end.

(** [open(p, 'r')] followed by [f.read()] *)
Definition open_read (fs : filesystem) (p : string) : res (list chunk) :=
  match lookup_file fs p with
  | None => Raise (OSError p)
  | Some f => if f_readable f then Ok (f_data f) else Raise (OSError p)
  end.

(** [json.load] *)
Definition json_load (d : list chunk) : res json :=
  match d with
  | [Json j] => Ok j
  | _ => Raise JSONDecodeError
  end.

Definition load_json (fs : filesystem) (p : string) : res json :=
  d <- open_read fs p ;; json_load d.

Definition set_file (fs : filesystem) (p : string) (f : file) : filesystem :=
  mkFS (put_file p f (fs_files fs)) (fs_denied fs).

(** [open(p, 'w')] followed by writing [d]; an existing file keeps its
    permission bits. *)
Definition write_file (fs : filesystem) (p : string) (d : list chunk) (t : Z)
  : res filesystem :=
  if is_denied fs p then Raise (OSError p)
  else
    let r := match lookup_file fs p with Some f => f_readable f | None => true end in
    Ok (set_file fs p (mkFile d t r)).

(** [with open(p, 'w') as f: json.dump(doc, f, ...)] *)
Definition dump_json (fs : filesystem) (p : string) (doc : json) (t : Z)
  : res filesystem :=
  write_file fs p [Json doc] t.

(** [open(p, 'a')] followed by writing one line *)
Definition append_line (fs : filesystem) (p : string) (line : json) (t : Z)
  : res filesystem :=
  write_file fs p (data_of fs p ++ [Json line]) t.

(** [shutil.copy2(src, dst)]: contents, permission bits and times. *)
Definition copy2 (fs : filesystem) (src dst : string) : res filesystem :=
  match lookup_file fs src with
  | None => Raise (OSError src)
  | Some f =>
      if negb (f_readable f) then Raise (OSError src)
      else if String.eqb src dst then Raise (SameFileError src)
      else if is_denied fs dst then Raise (OSError dst)
      else Ok (set_file fs dst f)
  end.

(** [Path.unlink()] *)
Definition unlink (fs : filesystem) (p : string) : res filesystem :=
  if negb (exists_ fs p) then Raise (OSError p)
  else if is_denied fs p then Raise (OSError p)
  else Ok (mkFS (remove_file p (fs_files fs)) (fs_denied fs)).

(** [Path(a) / b] for strings *)
Definition path_join (a b : string) : string :=
  if starts_with "/" b then b
  else if String.eqb b "" then a
  else a ++ "/" ++ b.

(** [Path(a) / b] where [b] is any value: only strings are accepted. *)
Definition join_value (a : string) (b : json) : res string :=
  match b with
  | JStr s => Ok (path_join a s)
  | _ => Raise TypeError
  end.

(** The name of [p] inside directory [dir], when [p] lies directly in it. *)
Definition name_in (dir p : string) : option string :=
  if starts_with (dir ++ "/") p then
    let k := S (String.length dir) in
    let name := String.substring k (String.length p - k) p in
    if String.eqb name "" || is_substring "/" name then None else Some name
  else None.

Definition name_matches (prefix suffix name : string) : bool :=
  starts_with prefix name && ends_with suffix name &&
  (String.length prefix + String.length suffix <=? String.length name)%nat.

(** [dir.glob(prefix + '*' + suffix)], in directory-scan order *)
Definition glob (fs : filesystem) (dir prefix suffix : string) : list string :=
  filter
    (fun p => match name_in dir p with
              | Some name => name_matches prefix suffix name
              | None => false
              end)
    (map fst (fs_files fs)).

End FS.

(** ** checkpoint_recovery.py: class CheckpointRecoveryManager *)

Module CheckpointRecovery.
Import Py FS.
Open Scope py_scope.

Record CheckpointRecoveryManager : Type := mkManager {
  project_root : string;
  progress_dir : string;
  state_file : string;
  checkpoints_dir : string;
  snapshots_dir : string;
  backup_dir : string;
  recovery_log : string
}.

(** [__init__] *)
Definition init (root : string) : CheckpointRecoveryManager :=
  let progress := path_join root "progress-state" in
  {| project_root := root;
     progress_dir := progress;
     state_file := path_join progress "PROGRESS_STATE.json";
     checkpoints_dir := path_join progress "checkpoints";
     snapshots_dir := path_join progress "snapshots";
     backup_dir := path_join progress "backups";
     recovery_log := path_join progress "recovery.log" |}.

(** *** list_checkpoints *)

(** One entry of the listing ([file_size], a byte count, is not carried). *)
Record checkpoint_summary : Type := mkSummary {
  cs_id : json;
  cs_timestamp : json;
  cs_description : json;
  cs_type : json;
  cs_phase : json;
  cs_task : json;
  cs_progress : json;
  cs_file : string;
  cs_validation_status : json
}.

(** The body of the [for] loop of [list_checkpoints] for one file. *)
Definition summarize (fs : filesystem) (checkpoint_file : string)
  : res checkpoint_summary :=
  data <- load_json fs checkpoint_file ;;
  checkpoint_info <- get data "checkpoint" (JObj []) ;;
  id <- get checkpoint_info "checkpoint_id" (JStr "UNKNOWN") ;;
  timestamp <- get checkpoint_info "timestamp" (JStr "") ;;
  description <- get checkpoint_info "description" (JStr "") ;;
  type <- get checkpoint_info "type" (JStr "MANUAL") ;;
  phase <- get checkpoint_info "phase" (JNum 0) ;;
  task <- get checkpoint_info "task" (JStr "") ;;
  progress <- get checkpoint_info "completion_percentage" (JNum 0) ;;
  status <- get checkpoint_info "validation_status" (JStr "UNKNOWN") ;;
  Ok (mkSummary id timestamp description type phase task progress
        checkpoint_file status).

(** The [for] loop sits inside one [try]: the first file that raises ends the
    enumeration, and what was appended so far is kept. *)
Fixpoint gather (fs : filesystem) (files : list string)
  (checkpoints : list checkpoint_summary) : list checkpoint_summary :=
  match files with
  | [] => checkpoints
  | checkpoint_file :: rest =>
      match summarize fs checkpoint_file with
      | Ok entry => gather fs rest (checkpoints ++ [entry])
      | Raise _ => checkpoints
      end
  end.

(** [a < b] on sort keys: strings with strings, numbers with numbers. *)
Definition key_lt (a b : json) : res bool :=
  match a, b with
  | JStr s, JStr t => Ok (String.ltb s t)
  | _, _ =>
      match num_of a, num_of b with
      | Some x, Some y => Ok (x <? y)%Z
      | _, _ => Raise TypeError
      end
  end.

Definition key_ltb (a b : json) : bool :=
  match key_lt a b with Ok c => c | Raise _ => false end.

Definition is_str (a : json) : bool :=
  match a with JStr _ => true | _ => false end.

Definition is_num (a : json) : bool :=
  match num_of a with Some _ => true | None => false end.

Fixpoint insert_desc (x : checkpoint_summary) (l : list checkpoint_summary)
  : list checkpoint_summary :=
  match l with
  | [] => [x]
  | y :: l' =>
      if key_ltb (cs_timestamp x) (cs_timestamp y) then y :: insert_desc x l'
      else x :: l
  end.

(** [checkpoints.sort(key=lambda x: x['timestamp'], reverse=True)]: stable,
    newest first.  With two or more entries the keys must be mutually
    comparable, all strings or all numbers; anything else raises [TypeError]
    (keys that are JSON arrays are counted among these). *)
Definition sort_newest_first (l : list checkpoint_summary)
  : res (list checkpoint_summary) :=
  if (List.length l <=? 1)%nat then Ok l
  else if forallb (fun c => is_str (cs_timestamp c)) l
          || forallb (fun c => is_num (cs_timestamp c)) l
       then Ok (fold_right insert_desc [] l)
       else Raise TypeError.

Definition list_checkpoints (m : CheckpointRecoveryManager) (fs : filesystem)
  : res (list checkpoint_summary) :=
  sort_newest_first (gather fs (glob fs (checkpoints_dir m) "" ".json") []).

(** *** _find_checkpoint_file *)

(** The body of the loop of [_find_checkpoint_file] for one file: does the
    file hold the checkpoint [checkpoint_id]?  Any exception means "no". *)
Definition holds_checkpoint (fs : filesystem) (checkpoint_id : json)
  (checkpoint_file : string) : bool :=
  match (data <- load_json fs checkpoint_file ;;
         checkpoint_info <- get data "checkpoint" (JObj []) ;;
         get checkpoint_info "checkpoint_id" JNull) with
  | Ok v => Py.eq v checkpoint_id
  | Raise _ => false
  end.

Definition find_checkpoint_file (m : CheckpointRecoveryManager)
  (fs : filesystem) (checkpoint_id : json) : option string :=
  find (holds_checkpoint fs checkpoint_id) (glob fs (checkpoints_dir m) "" ".json").

(** *** validate_checkpoint *)

Record file_check : Type := mkCheck {
  fc_exists : bool;
  fc_readable : bool
}.

Record validation_result : Type := mkValidation {
  v_checkpoint_id : json;
  valid : bool;
  issues : list string;
  warnings : list string;
  file_checks : list (string * file_check);
  data_integrity : bool;
  recovery_feasible : bool
}.

Definition add_issue (msg : string) (v : validation_result) : validation_result :=
  mkValidation (v_checkpoint_id v) (valid v) (issues v ++ [msg]) (warnings v)
    (file_checks v) (data_integrity v) (recovery_feasible v).

Definition add_warning (msg : string) (v : validation_result) : validation_result :=
  mkValidation (v_checkpoint_id v) (valid v) (issues v) (warnings v ++ [msg])
    (file_checks v) (data_integrity v) (recovery_feasible v).

Definition set_data_integrity (b : bool) (v : validation_result) : validation_result :=
  mkValidation (v_checkpoint_id v) (valid v) (issues v) (warnings v)
    (file_checks v) b (recovery_feasible v).

Fixpoint put_check (p : string) (c : file_check) (l : list (string * file_check))
  : list (string * file_check) :=
  match l with
  | [] => [(p, c)]
  | (q, d) :: l' =>
      if String.eqb q p then (p, c) :: l' else (q, d) :: put_check p c l'
  end.

Definition record_check (p : string) (c : file_check) (v : validation_result)
  : validation_result :=
  mkValidation (v_checkpoint_id v) (valid v) (issues v) (warnings v)
    (put_check p c (file_checks v)) (data_integrity v) (recovery_feasible v).

(** Lines 133-140: the verdict. *)
Definition conclude (v : validation_result) : validation_result :=
  let has_critical_issues := negb (Nat.eqb (List.length (issues v)) 0) in
  let has_file_issues :=
    existsb (fun c => negb (fc_exists (snd c))) (file_checks v) in
  let valid' := negb has_critical_issues && data_integrity v in
  let feasible' := valid' && negb has_file_issues in
  mkValidation (v_checkpoint_id v) valid' (issues v)
    (if has_file_issues
     then warnings v ++ ["Some referenced files are missing or inaccessible"]
     else warnings v)
    (file_checks v) (data_integrity v) feasible'.

Definition required_fields : list string :=
  ["checkpoint_id"; "timestamp"; "description"; "phase"; "task"].

Definition required_state_sections : list string :=
  ["metadata"; "current_session"; "phases"].

(** The body of the loop over [all_files]. *)
Definition check_file (m : CheckpointRecoveryManager) (fs : filesystem)
  (file_path : json) : M validation_result unit :=
  full_path <~ lift (join_value (project_root m) file_path) ;;
  modify (record_check (Py.str file_path)
            (mkCheck (exists_ fs full_path)
                     (exists_ fs full_path && readable fs full_path))).

(** The [try] block of [validate_checkpoint]. *)
Definition validate_body (m : CheckpointRecoveryManager) (fs : filesystem)
  (checkpoint_id : json) : M validation_result unit :=
  match find_checkpoint_file m fs checkpoint_id with
  | None =>
      modify (add_issue ("Checkpoint file not found for " ++ Py.str checkpoint_id))
  | Some checkpoint_file =>
      checkpoint_data <~ lift (load_json fs checkpoint_file) ;;
      checkpoint_info <~ lift (get checkpoint_data "checkpoint" (JObj [])) ;;
      full_state <~ lift (get checkpoint_data "full_state" (JObj [])) ;;
      missing_fields <~ lift (missing_from required_fields checkpoint_info) ;;
      modify (match missing_fields with
              | [] => set_data_integrity true
              | _ => add_issue ("Missing required fields: " ++ join ", " missing_fields)
              end) ;;;
      missing_sections <~ lift (missing_from required_state_sections full_state) ;;
      modify (match missing_sections with
              | [] => fun v => v
              | _ => add_warning ("Missing state sections: " ++ join ", " missing_sections)
              end) ;;;
      files_modified <~ lift (get checkpoint_info "files_modified" (JArr [])) ;;
      files_created <~ lift (get checkpoint_info "files_created" (JArr [])) ;;
      all_files <~ lift (iter_concat files_modified files_created) ;;
      for_each (check_file m fs) all_files ;;;
      modify conclude
  end.

Definition initial_validation (checkpoint_id : json) : validation_result :=
  mkValidation checkpoint_id false [] [] [] false false.

Definition validate_checkpoint (m : CheckpointRecoveryManager) (fs : filesystem)
  (checkpoint_id : json) : validation_result :=
  match validate_body m fs checkpoint_id (initial_validation checkpoint_id) with
  | (Ok _, v) => v
  | (Raise JSONDecodeError, v) =>
      add_issue ("Checkpoint file is corrupted: " ++ exn_text JSONDecodeError) v
  | (Raise e, v) => add_issue ("Validation error: " ++ exn_text e) v
  end.

(** *** recover_from_checkpoint *)

Record recovery_result : Type := mkRecovery {
  r_checkpoint_id : json;
  success : bool;
  backup_created : bool;
  files_restored : list json;
  files_failed : list json;
  state_restored : bool;
  recovery_time : string;
  messages : list string
}.

Definition add_message (msg : string) (r : recovery_result) : recovery_result :=
  mkRecovery (r_checkpoint_id r) (success r) (backup_created r) (files_restored r)
    (files_failed r) (state_restored r) (recovery_time r) (messages r ++ [msg]).

Definition add_messages (msgs : list string) (r : recovery_result) : recovery_result :=
  mkRecovery (r_checkpoint_id r) (success r) (backup_created r) (files_restored r)
    (files_failed r) (state_restored r) (recovery_time r) (messages r ++ msgs).

Definition set_backup_created (b : bool) (r : recovery_result) : recovery_result :=
  mkRecovery (r_checkpoint_id r) (success r) b (files_restored r)
    (files_failed r) (state_restored r) (recovery_time r) (messages r).

Definition set_state_restored (b : bool) (r : recovery_result) : recovery_result :=
  mkRecovery (r_checkpoint_id r) (success r) (backup_created r) (files_restored r)
    (files_failed r) b (recovery_time r) (messages r).

Definition set_success (b : bool) (r : recovery_result) : recovery_result :=
  mkRecovery (r_checkpoint_id r) b (backup_created r) (files_restored r)
    (files_failed r) (state_restored r) (recovery_time r) (messages r).

Definition add_restored (p : json) (r : recovery_result) : recovery_result :=
  mkRecovery (r_checkpoint_id r) (success r) (backup_created r) (files_restored r ++ [p])
    (files_failed r) (state_restored r) (recovery_time r) (messages r).

Definition add_failed (p : json) (r : recovery_result) : recovery_result :=
  mkRecovery (r_checkpoint_id r) (success r) (backup_created r) (files_restored r)
    (files_failed r ++ [p]) (state_restored r) (recovery_time r) (messages r).

Definition initial_recovery (checkpoint_id : json) (clk : clock) : recovery_result :=
  mkRecovery checkpoint_id false false [] [] false (utc_iso clk) [].

(** [_create_recovery_backup] *)
Definition create_recovery_backup (m : CheckpointRecoveryManager)
  (fs : filesystem) (clk : clock) : filesystem * bool :=
  if negb (exists_ fs (state_file m)) then (fs, true)
  else
    let backup_filename := ("pre_recovery_" ++ local_second clk ++ ".json")%string in
    let backup_path := path_join (backup_dir m) backup_filename in
    match copy2 fs (state_file m) backup_path with
    | Ok fs' => (fs', true)
    | Raise _ => (fs, false)
    end.

(** Lines 188-200: the checkpoint's embedded state, stamped with the recovery
    metadata. *)
Definition stamp_recovery (clk : clock) (checkpoint_id : json)
  (recovery_time : string) (backup_success : bool) (full_state : json)
  : res json :=
  s1 <- setitem2 full_state "metadata" "last_updated" (JStr (utc_iso clk)) ;;
  s2 <- setitem2 s1 "current_session" "session_id"
          (JStr ("recovery_" ++ local_minute clk)) ;;
  s3 <- setitem2 s2 "current_session" "last_activity" (JStr (utc_iso clk)) ;;
  present <- contains "recovery_history" s3 ;;
  s4 <- (if present then Ok s3 else setitem s3 "recovery_history" (JArr [])) ;;
  append_at s4 "recovery_history"
    (JObj [("recovered_from", checkpoint_id);
           ("recovery_time", JStr recovery_time);
           ("previous_state_backed_up", JBool backup_success)]).

(** Lines 186-207, the inner [try]: stamp, then overwrite the live record. *)
Definition restore_progress_state (m : CheckpointRecoveryManager)
  (fs : filesystem) (clk : clock) (checkpoint_id : json)
  (recovery_time : string) (backup_success : bool) (full_state : json)
  : res filesystem :=
  stamped <- stamp_recovery clk checkpoint_id recovery_time backup_success full_state ;;
  dump_json fs (state_file m) stamped (now clk).

Inductive replay_outcome : Type :=
| Copied (fs' : filesystem)
| NoSnapshot.

(** Lines 217-225, the [try] part of the per-file loop body. *)
Definition try_replay (m : CheckpointRecoveryManager) (checkpoint_id : json)
  (fs : filesystem) (file_path : json) : res replay_outcome :=
  snapshot_root <- join_value (snapshots_dir m) checkpoint_id ;;
  snapshot_path <- join_value snapshot_root file_path ;;
  if exists_ fs snapshot_path then
    target_path <- join_value (project_root m) file_path ;;
    fs' <- copy2 fs snapshot_path target_path ;;
    Ok (Copied fs')
  else Ok NoSnapshot.

(** Lines 215-229: one iteration of the per-file loop, with its handler. *)
Definition replay_one (m : CheckpointRecoveryManager) (checkpoint_id : json)
  (st : filesystem * recovery_result) (file_path : json)
  : filesystem * recovery_result :=
  let (fs, r) := st in
  match try_replay m checkpoint_id fs file_path with
  | Ok (Copied fs') => (fs', add_restored file_path r)
  | Ok NoSnapshot =>
      (fs, add_message ("No snapshot found for " ++ Py.str file_path) r)
  | Raise e =>
      (fs, add_message ("Failed to restore " ++ Py.str file_path ++ ": " ++ exn_text e)
             (add_failed file_path r))
  end.

Definition replay_all (m : CheckpointRecoveryManager) (checkpoint_id : json)
  (files_to_restore : list json) (st : filesystem * recovery_result)
  : filesystem * recovery_result :=
  fold_left (replay_one m checkpoint_id) files_to_restore st.

(** What each iteration of the per-file loop met, in order: the outcome of
    the [try] part for every file, the file system being threaded through the
    copies that succeeded. *)
Fixpoint replay_trace (m : CheckpointRecoveryManager) (checkpoint_id : json)
  (fs : filesystem) (files_to_restore : list json)
  : list (json * res replay_outcome) :=
  match files_to_restore with
  | [] => []
  | file_path :: rest =>
      let outcome := try_replay m checkpoint_id fs file_path in
      (file_path, outcome) ::
      replay_trace m checkpoint_id
        (match outcome with Ok (Copied fs') => fs' | _ => fs end) rest
  end.

Definition raised {A : Type} (o : json * res A) : bool :=
  match snd o with Raise _ => true | Ok _ => false end.

Definition copied (o : json * res replay_outcome) : bool :=
  match snd o with Ok (Copied _) => true | _ => false end.

Definition log_entry (clk : clock) (checkpoint_id : json) (result : recovery_result)
  : json :=
  JObj [("timestamp", JStr (utc_iso clk));
        ("operation", JStr "CHECKPOINT_RECOVERY");
        ("checkpoint_id", checkpoint_id);
        ("success", JBool (success result));
        ("files_restored", JNum (Z.of_nat (List.length (files_restored result))));
        ("files_failed", JNum (Z.of_nat (List.length (files_failed result))));
        ("messages", JArr (map JStr (messages result)))].

(** [_log_recovery_operation]: a failed write is swallowed. *)
Definition log_recovery_operation (m : CheckpointRecoveryManager)
  (fs : filesystem) (clk : clock) (checkpoint_id : json)
  (result : recovery_result) : filesystem :=
  match append_line fs (recovery_log m) (log_entry clk checkpoint_id result) (now clk) with
  | Ok fs' => fs'
  | Raise _ => fs
  end.

(** Lines 171-176: the checkpoint record is read again. *)
Definition reload_checkpoint (m : CheckpointRecoveryManager) (fs : filesystem)
  (checkpoint_id : json) : res (json * json) :=
  checkpoint_file <- match find_checkpoint_file m fs checkpoint_id with
                     | Some f => Ok f
                     | None => Raise TypeError
                     end ;;
  checkpoint_data <- load_json fs checkpoint_file ;;
  checkpoint_info <- get checkpoint_data "checkpoint" (JObj []) ;;
  full_state <- get checkpoint_data "full_state" (JObj []) ;;
  Ok (checkpoint_info, full_state).

(** Line 213 *)
Definition files_to_restore (checkpoint_info : json) : res (list json) :=
  files_modified <- get checkpoint_info "files_modified" (JArr []) ;;
  files_created <- get checkpoint_info "files_created" (JArr []) ;;
  iter_concat files_modified files_created.

(** Lines 234-243 *)
Definition finish (checkpoint_id : json) (r : recovery_result) : recovery_result :=
  let ok := state_restored r && Nat.eqb (List.length (files_failed r)) 0 in
  add_message
    (if ok
     then "Recovery from " ++ Py.str checkpoint_id ++ " completed successfully"
     else "Recovery from " ++ Py.str checkpoint_id ++ " completed with issues")
    (set_success ok r).

(** Lines 178-210: backup, then the state restore with its own handler. *)
Definition backup_and_restore (m : CheckpointRecoveryManager) (fs : filesystem)
  (clk : clock) (checkpoint_id : json) (full_state : json) (r : recovery_result)
  : filesystem * recovery_result :=
  let (fs1, backup_success) := create_recovery_backup m fs clk in
  let r1 := set_backup_created backup_success r in
  let r2 := if backup_success then r1
            else add_message "Warning: Could not create recovery backup" r1 in
  match restore_progress_state m fs1 clk checkpoint_id (recovery_time r)
          backup_success full_state with
  | Ok fs2 =>
      (fs2, add_message "Progress state restored successfully"
              (set_state_restored true r2))
  | Raise e =>
      (fs1, add_message ("Failed to restore progress state: " ++ exn_text e) r2)
  end.

(** The handler of the outer [try]. *)
Definition recovery_failed (e : exn) (r : recovery_result) : recovery_result :=
  add_message ("Recovery failed: " ++ exn_text e) r.

Definition recover_from_checkpoint (m : CheckpointRecoveryManager)
  (fs : filesystem) (checkpoint_id : json) (clk : clock)
  : filesystem * recovery_result :=
  let recovery_result := initial_recovery checkpoint_id clk in
  let validation := validate_checkpoint m fs checkpoint_id in
  if negb (recovery_feasible validation) then
    (fs, add_messages (issues validation)
           (add_message "Checkpoint validation failed" recovery_result))
  else
    match reload_checkpoint m fs checkpoint_id with
    | Raise e => (fs, recovery_failed e recovery_result)
    | Ok (checkpoint_info, full_state) =>
        let (fs2, r2) :=
          backup_and_restore m fs clk checkpoint_id full_state recovery_result in
        match files_to_restore checkpoint_info with
        | Raise e => (fs2, recovery_failed e r2)
        | Ok files =>
            let (fs3, r3) := replay_all m checkpoint_id files (fs2, r2) in
            let fs4 := log_recovery_operation m fs3 clk checkpoint_id r3 in
            (fs4, finish checkpoint_id r3)
        end
    end.

(** *** emergency_recovery *)

Inductive emergency_result : Type :=
| NoCheckpointsAvailable      (* 'No checkpoints available for emergency recovery' *)
| NoValidCheckpoint           (* 'No valid checkpoints found for emergency recovery' *)
| Recovered (r : recovery_result).

(** The loop over the listing: the first feasible candidate is recovered. *)
Fixpoint try_candidates (m : CheckpointRecoveryManager) (fs : filesystem)
  (clk : clock) (checkpoints : list checkpoint_summary)
  : filesystem * emergency_result :=
  match checkpoints with
  | [] => (fs, NoValidCheckpoint)
  | checkpoint :: rest =>
      if recovery_feasible (validate_checkpoint m fs (cs_id checkpoint)) then
        let (fs', r) := recover_from_checkpoint m fs (cs_id checkpoint) clk in
        (fs', Recovered r)
      else try_candidates m fs clk rest
  end.

Definition emergency_recovery (m : CheckpointRecoveryManager) (fs : filesystem)
  (clk : clock) : res (filesystem * emergency_result) :=
  checkpoints <- list_checkpoints m fs ;;
  match checkpoints with
  | [] => Ok (fs, NoCheckpointsAvailable)
  | _ => Ok (try_candidates m fs clk checkpoints)
  end.

(** *** Reading a ProgressRecord and a stored checkpoint *)

(** [state[k1][k2]] when both levels are objects holding the keys. *)
Definition field2 (state : json) (k1 k2 : string) : option json :=
  match state with
  | JObj o =>
      match lookup k1 o with
      | Some (JObj inner) => lookup k2 inner
      | _ => None
      end
  | _ => None
  end.

Definition field1 (state : json) (k : string) : option json :=
  match state with
  | JObj o => lookup k o
  | _ => None
  end.

(** The business fields of a ProgressRecord. *)
Definition phase_of (state : json) : option json :=
  field2 state "metadata" "current_phase".
Definition active_task_of (state : json) : option json :=
  field2 state "current_session" "active_task".
Definition progress_of (state : json) : option json :=
  field2 state "metadata" "overall_progress".

(** The document stored under [checkpoint_id], as [validate_checkpoint] and
    [recover_from_checkpoint] read it. *)
Definition stored_document (m : CheckpointRecoveryManager) (fs : filesystem)
  (checkpoint_id : json) : option json :=
  match find_checkpoint_file m fs checkpoint_id with
  | Some checkpoint_file =>
      match load_json fs checkpoint_file with
      | Ok doc => Some doc
      | Raise _ => None
      end
  | None => None
  end.

(** Does the file named by an entry of the checkpoint's file lists exist? *)
Definition referenced_exists (m : CheckpointRecoveryManager) (fs : filesystem)
  (file_path : json) : bool :=
  match join_value (project_root m) file_path with
  | Ok full_path => exists_ fs full_path
  | Raise _ => false
  end.

(** The ids stored in the checkpoint files of the directory, in scan order. *)
Definition stored_ids (m : CheckpointRecoveryManager) (fs : filesystem)
  : list (string * json) :=
  flat_map
    (fun checkpoint_file =>
       match summarize fs checkpoint_file with
       | Ok entry => [(checkpoint_file, cs_id entry)]
       | Raise _ => []
       end)
    (glob fs (checkpoints_dir m) "" ".json").

End CheckpointRecovery.

(** ** auto_checkpoint.py: class AutoCheckpointDaemon *)

Module AutoCheckpoint.
Import Py FS.
Open Scope py_scope.

Record AutoCheckpointDaemon : Type := mkDaemon {
  project_root : string;
  progress_dir : string;
  state_file : string;
  checkpoints_dir : string;
  snapshots_dir : string;
  checkpoint_interval : Z;
  activity_threshold : nat;
  max_checkpoints : nat;
  running : bool;
  last_checkpoint_time : Z;
  last_state_hash : option string;
  file_change_count : nat;
  monitored_extensions : list string
}.

(** [sys.version] and [sys.platform] *)
Record host : Type := mkHost {
  sys_version : string;
  sys_platform : string
}.

(** [__init__], run at time [t0] *)
Definition init (root : string) (t0 : Z) : AutoCheckpointDaemon :=
  let progress := path_join root "progress-state" in
  {| project_root := root;
     progress_dir := progress;
     state_file := path_join progress "PROGRESS_STATE.json";
     checkpoints_dir := path_join progress "checkpoints";
     snapshots_dir := path_join progress "snapshots";
     checkpoint_interval := 30 * 60;
     activity_threshold := 3;
     max_checkpoints := 50;
     running := false;
     last_checkpoint_time := t0;
     last_state_hash := None;
     file_change_count := 0;
     monitored_extensions :=
       [".py"; ".md"; ".json"; ".yaml"; ".yml"; ".txt"; ".js"; ".ts"; ".go"; ".rs"] |}.

Definition set_counters (d : AutoCheckpointDaemon) (t : Z) (n : nat)
  : AutoCheckpointDaemon :=
  mkDaemon (project_root d) (progress_dir d) (state_file d) (checkpoints_dir d)
    (snapshots_dir d) (checkpoint_interval d) (activity_threshold d)
    (max_checkpoints d) (running d) t (last_state_hash d) n
    (monitored_extensions d).

Definition set_file_change_count (d : AutoCheckpointDaemon) (n : nat)
  : AutoCheckpointDaemon :=
  set_counters d (last_checkpoint_time d) n.

Definition set_last_state_hash (d : AutoCheckpointDaemon) (h : string)
  : AutoCheckpointDaemon :=
  mkDaemon (project_root d) (progress_dir d) (state_file d) (checkpoints_dir d)
    (snapshots_dir d) (checkpoint_interval d) (activity_threshold d)
    (max_checkpoints d) (running d) (last_checkpoint_time d) (Some h)
    (file_change_count d) (monitored_extensions d).

(** *** Scanning the project tree *)

Definition exclude_patterns : list string :=
  [".git"; "__pycache__"; ".pytest_cache"; "node_modules";
   ".venv"; "venv"; "env"; ".env"; "checkpoints"; "snapshots"].

(** [Path.parts], without the root marker *)
Definition parts (p : string) : list string :=
  filter (fun s => negb (String.eqb s "")) (split_on "/" p).

(** [_is_excluded_path] *)
Definition is_excluded_path (file_path : string) : bool :=
  existsb
    (fun part => existsb (String.eqb part) exclude_patterns || starts_with "." part)
    (parts file_path).

Fixpoint last_dot (s : string) (i : nat) (acc : option nat) : option nat :=
  match s with
  | EmptyString => acc
  | String a s' => last_dot s' (S i) (if Ascii.eqb a "." then Some i else acc)
  end.

(** [Path.suffix] *)
Definition suffix (p : string) : string :=
  let name := last (parts p) "" in
  match last_dot name 0 None with
  | Some i =>
      if ((0 <? i) && (i <? String.length name - 1))%nat
      then String.substring i (String.length name - i) name
      else ""
  | None => ""
  end.

(** [Path.relative_to(project_root)] for a path below the root *)
Definition relative_to (root p : string) : string :=
  let k := S (String.length root) in
  String.substring k (String.length p - k) p.

(** The files selected by the loops of [_scan_for_changes] and
    [_get_recently_modified_files]: below the root, monitored extension, not
    excluded, modified after [since]. *)
Definition modified_after (d : AutoCheckpointDaemon) (fs : filesystem) (since : Z)
  : list string :=
  map (fun e => relative_to (project_root d) (fst e))
    (filter
       (fun e =>
          starts_with (project_root d ++ "/") (fst e)
          && existsb (String.eqb (suffix (fst e))) (monitored_extensions d)
          && negb (is_excluded_path (fst e))
          && (since <? f_mtime (snd e))%Z)
       (fs_files fs)).

(** [_scan_for_changes] *)
Definition scan_for_changes (d : AutoCheckpointDaemon) (fs : filesystem)
  (since_time : Z) : list string :=
  modified_after d fs since_time.

(** [_get_recently_modified_files] *)
Definition get_recently_modified_files (d : AutoCheckpointDaemon)
  (fs : filesystem) (clk : clock) : list string :=
  firstn 20 (modified_after d fs (now clk - 3600)).

(** *** Retention *)

Definition mtime_of (fs : filesystem) (p : string) : Z :=
  match lookup_file fs p with Some f => f_mtime f | None => 0%Z end.

Fixpoint insert_by_mtime (fs : filesystem) (x : string) (l : list string)
  : list string :=
  match l with
  | [] => [x]
  | y :: l' =>
      if (mtime_of fs y <? mtime_of fs x)%Z then y :: insert_by_mtime fs x l'
      else x :: l
  end.

(** [auto_checkpoints.sort(key=lambda x: x.stat().st_mtime)]: stable, oldest
    first. *)
Definition sort_by_mtime (fs : filesystem) (l : list string) : list string :=
  fold_right (insert_by_mtime fs) [] l.

(** [l[:-k]] *)
Definition drop_last (k : nat) (l : list string) : list string :=
  if Nat.eqb k 0 then [] else firstn (List.length l - k) l.

(** The unlink loop: the first failure ends the clean-up. *)
Fixpoint unlink_all (fs : filesystem) (l : list string) : filesystem :=
  match l with
  | [] => fs
  | p :: rest =>
      match unlink fs p with
      | Ok fs' => unlink_all fs' rest
      | Raise _ => fs
      end
  end.

(** [_cleanup_old_checkpoints] *)
Definition cleanup_old_checkpoints (d : AutoCheckpointDaemon) (fs : filesystem)
  : filesystem :=
  let auto_checkpoints :=
    sort_by_mtime fs (glob fs (checkpoints_dir d) "AUTO_CP" ".json") in
  if (max_checkpoints d <? List.length auto_checkpoints)%nat then
    unlink_all fs (drop_last (max_checkpoints d) auto_checkpoints)
  else fs.

(** *** _create_auto_checkpoint *)

(** Lines 227-229 *)
Definition next_checkpoint_count (d : AutoCheckpointDaemon) (fs : filesystem) : nat :=
  List.length (glob fs (checkpoints_dir d) "AUTO_CP" ".json") + 1.

Definition auto_checkpoint_id (checkpoint_count : nat) : string :=
  "AUTO_CP" ++ fmt03 checkpoint_count.

(** Lines 232-247 *)
Definition checkpoint_record (d : AutoCheckpointDaemon) (fs : filesystem)
  (clk : clock) (reason : string) (state : json) (checkpoint_id : string)
  : res json :=
  metadata <- get state "metadata" (JObj []) ;;
  phase <- get metadata "current_phase" (JNum 1) ;;
  session <- get state "current_session" (JObj []) ;;
  task <- get session "active_task" (JStr "UNKNOWN") ;;
  completion <- get metadata "overall_progress" (JNum 0) ;;
  context <- get session "context_summary" (JStr "") ;;
  Ok (JObj
        [("checkpoint_id", JStr checkpoint_id);
         ("timestamp", JStr (utc_iso clk));
         ("type", JStr "AUTO");
         ("trigger", JStr reason);
         ("description",
          JStr ("Automatic checkpoint (" ++ replace_char "_" " " (lower reason) ++ ")"));
         ("phase", phase);
         ("task", task);
         ("completion_percentage", completion);
         ("files_modified", JArr (map JStr (get_recently_modified_files d fs clk)));
         ("context_snapshot", context);
         ("next_actions", JArr [JStr "Continue with current task"]);
         ("auto_generated", JBool true);
         ("file_change_count", JNum (Z.of_nat (file_change_count d)));
         ("validation_status", JStr "PENDING")]).

(** Lines 250-251 *)
Definition checkpoint_file_name (clk : clock) (reason checkpoint_id : string) : string :=
  checkpoint_id ++ "_" ++ local_minute clk ++ "_" ++ lower reason ++ ".json".

(** Lines 253-261 *)
Definition checkpoint_document (h : host) (checkpoint state : json) : json :=
  JObj [("checkpoint", checkpoint);
        ("full_state", state);
        ("system_info",
         JObj [("python_version", JStr (sys_version h));
               ("platform", JStr (sys_platform h));
               ("daemon_version", JStr "1.0")])].

(** Lines 266-284: the live record gains the checkpoint summary, the
    automation counters and the recovery pointer. *)
Definition note_checkpoint (checkpoint : json) (checkpoint_id : string)
  (checkpoint_count : nat) (timestamp : json) (state : json) : res json :=
  s1 <- setdefault state "checkpoints" (JArr []) ;;
  s2 <- append_at s1 "checkpoints" checkpoint ;;
  s3 <- setdefault s2 "automation" (JObj []) ;;
  automation <- getitem s3 "automation" ;;
  present <- contains "auto_checkpoint" automation ;;
  s4 <- (if present then Ok s3
         else setitem2 s3 "automation" "auto_checkpoint" (JObj [])) ;;
  s5 <- setitem3 s4 "automation" "auto_checkpoint" "last_auto_checkpoint" timestamp ;;
  s6 <- setitem3 s5 "automation" "auto_checkpoint" "total_auto_checkpoints"
          (JNum (Z.of_nat checkpoint_count)) ;;
  s7 <- setdefault s6 "recovery" (JObj []) ;;
  s8 <- setitem2 s7 "recovery" "last_known_good_state" (JStr checkpoint_id) ;;
  setitem2 s8 "recovery" "rollback_available" (JBool true).

(** Lines 224-264: load the record, allocate the id, build the checkpoint and
    write its file.  The state is the file system. *)
Definition write_checkpoint (h : host) (d : AutoCheckpointDaemon) (clk : clock)
  (reason : string) : M filesystem (json * json * nat) :=
  state <~ reading (fun fs => load_json fs (state_file d)) ;;
  checkpoint_count <~ reading (fun fs => Ok (next_checkpoint_count d fs)) ;;
  checkpoint <~ reading (fun fs =>
      checkpoint_record d fs clk reason state (auto_checkpoint_id checkpoint_count)) ;;
  updating (fun fs =>
      dump_json fs
        (path_join (checkpoints_dir d)
           (checkpoint_file_name clk reason (auto_checkpoint_id checkpoint_count)))
        (checkpoint_document h checkpoint state) (now clk)) ;;;
  mret (state, checkpoint, checkpoint_count).

(** Lines 266-293: update and save the live record, then prune. *)
Definition record_checkpoint (d : AutoCheckpointDaemon) (clk : clock)
  (written : json * json * nat) : M filesystem unit :=
  let '(state, checkpoint, checkpoint_count) := written in
  state' <~ lift (note_checkpoint checkpoint (auto_checkpoint_id checkpoint_count)
                    checkpoint_count (JStr (utc_iso clk)) state) ;;
  updating (fun fs => dump_json fs (state_file d) state' (now clk)) ;;;
  modify (cleanup_old_checkpoints d).

(** The [try] block of [_create_auto_checkpoint] below the existence test. *)
Definition create_body (h : host) (d : AutoCheckpointDaemon) (clk : clock)
  (reason : string) : M filesystem unit :=
  written <~ write_checkpoint h d clk reason ;;
  record_checkpoint d clk written.

(** [_create_auto_checkpoint]: every exception is logged and swallowed. *)
Definition create_auto_checkpoint (h : host) (d : AutoCheckpointDaemon)
  (fs : filesystem) (clk : clock) (reason : string) : filesystem :=
  if negb (exists_ fs (state_file d)) then fs
  else snd (create_body h d clk reason fs).

(** [force_checkpoint] *)
Definition force_checkpoint (h : host) (d : AutoCheckpointDaemon)
  (fs : filesystem) (clk : clock) : filesystem :=
  create_auto_checkpoint h d fs clk "MANUAL_TRIGGER".

(** *** The two polling loops, one cycle at a time *)

Section Loops.

(** [hashlib.md5(text.encode()).hexdigest()] *)
Variable md5 : list chunk -> string.

(** [_state_changed] *)
Definition state_changed (d : AutoCheckpointDaemon) (fs : filesystem)
  : bool * AutoCheckpointDaemon :=
  if negb (exists_ fs (state_file d)) then (false, d)
  else
    match open_read fs (state_file d) with
    | Raise _ => (false, d)
    | Ok current_state =>
        let current_hash := md5 current_state in
        match last_state_hash d with
        | None => (false, set_last_state_hash d current_hash)
        | Some h =>
            if negb (String.eqb current_hash h)
            then (true, set_last_state_hash d current_hash)
            else (false, d)
        end
    end.

(** Lines 113-128: which reason, if any, fires in this cycle. *)
Definition decide (d : AutoCheckpointDaemon) (fs : filesystem) (current_time : Z)
  : option string * AutoCheckpointDaemon :=
  let time_since_last := (current_time - last_checkpoint_time d)%Z in
  if (checkpoint_interval d <=? time_since_last)%Z then (Some "TIME_BASED", d)
  else if (activity_threshold d <=? file_change_count d)%nat
       then (Some "ACTIVITY_BASED", d)
       else
         let (changed, d') := state_changed d fs in
         if changed then (Some "STATE_CHANGE", d') else (None, d').

(** One pass through the body of the [while] loop of [_checkpoint_loop]
    (lines 112-133).  The third component is the reason of the checkpoint
    creation requested in this cycle, if any. *)
Definition checkpoint_cycle (h : host) (d : AutoCheckpointDaemon)
  (fs : filesystem) (clk : clock)
  : AutoCheckpointDaemon * filesystem * option string :=
  let current_time := now clk in
  let (checkpoint_reason, d1) := decide d fs current_time in
  match checkpoint_reason with
  | Some reason =>
      let fs' := create_auto_checkpoint h d1 fs clk reason in
      (set_counters d1 current_time 0, fs', Some reason)
  | None => (d1, fs, None)
  end.

(** One pass through the body of the [while] loop of [_monitor_loop]
    (lines 147-157); [last_check] is the loop's local watermark. *)
Definition monitor_cycle (d : AutoCheckpointDaemon) (fs : filesystem)
  (last_check : Z) (clk : clock) : AutoCheckpointDaemon * Z :=
  let current_time := now clk in
  let changes := scan_for_changes d fs last_check in
  let d' := match changes with
            | [] => d
            | _ => set_file_change_count d (file_change_count d + List.length changes)
            end in
  (d', current_time).

End Loops.

End AutoCheckpoint.

(** ** resume_progress.py: the checkpoint-saving slice of class ProgressManager *)

Module ResumeProgress.
Import Py FS.
Open Scope py_scope.

Record ProgressManager : Type := mkProgressManager {
  project_root : string;
  progress_dir : string;
  state_file : string;
  checkpoints_dir : string;
  snapshots_dir : string
}.

(** [__init__] *)
Definition init (root : string) : ProgressManager :=
  let progress := path_join root "progress-state" in
  {| project_root := root;
     progress_dir := progress;
     state_file := path_join progress "PROGRESS_STATE.json";
     checkpoints_dir := path_join progress "checkpoints";
     snapshots_dir := path_join progress "snapshots" |}.

(** [_create_default_state] *)
Definition create_default_state (clk : clock) : json :=
  JObj
    [("metadata",
      JObj [("version", JStr "1.0");
            ("created", JStr (utc_iso clk));
            ("last_updated", JStr (utc_iso clk));
            ("updated_by", JStr "ProgressManager");
            ("project_name", JStr "ClaudeCode Enhancement");
            ("total_phases", JNum 5);
            ("current_phase", JNum 1);
            ("overall_progress", JNum 0)]);
     ("current_session",
      JObj [("session_id", JStr ("session_" ++ local_minute clk));
            ("started", JStr (utc_iso clk));
            ("last_activity", JStr (utc_iso clk));
            ("active_task", JStr "P1.1.1");
            ("context_summary", JStr "Project initialization");
            ("next_planned_action", JStr "Begin project setup");
            ("estimated_time_remaining", JStr "Unknown");
            ("checkpoint_frequency", JNum 30)]);
     ("phases", JObj []);
     ("blockers", JObj [("active", JArr []); ("resolved", JArr [])]);
     ("decisions", JObj [("pending", JArr []); ("made", JArr [])]);
     ("metrics",
      JObj [("total_tasks", JNum 0);
            ("completed_tasks", JNum 0);
            ("in_progress_tasks", JNum 0);
            ("blocked_tasks", JNum 0);
            ("total_estimated_hours", JNum 0);
            ("hours_completed", JNum 0);
            ("current_velocity", JNum 0);
            ("projected_completion", JStr "TBD")]);
     ("checkpoints", JArr []);
     ("recovery",
      JObj [("last_known_good_state", JNull);
            ("rollback_available", JBool false);
            ("recovery_instructions", JStr "No recovery points available");
            ("emergency_contacts", JArr []);
            ("backup_locations", JArr [JStr "ClaudeCode/progress-state/backups/"])])].

(** [load_progress_state]: a missing or unparsable record gives the default
    state; any other failure to open propagates. *)
Definition load_progress_state (m : ProgressManager) (fs : filesystem) (clk : clock)
  : res json :=
  if negb (exists_ fs (state_file m)) then Ok (create_default_state clk)
  else
    data <- open_read fs (state_file m) ;;
    match json_load data with
    | Ok state => Ok state
    | Raise _ => Ok (create_default_state clk)
    end.

(** [save_progress_state]: failures are reported by the returned flag. *)
Definition save_progress_state (m : ProgressManager) (fs : filesystem) (clk : clock)
  (state : json) : filesystem * bool :=
  match (stamped <- setitem2 state "metadata" "last_updated" (JStr (utc_iso clk)) ;;
         dump_json fs (state_file m) stamped (now clk)) with
  | Ok fs' => (fs', true)
  | Raise _ => (fs, false)
  end.

(** [d.items()] *)
Definition items (d : json) : res (list (string * json)) :=
  match d with
  | JObj o => Ok o
  | _ => Raise AttributeError
  end.

Definition search_subtasks (task_id : json) (subtasks : list (string * json))
  : option json :=
  option_map snd (find (fun kv => Py.eq (JStr (fst kv)) task_id) subtasks).

Fixpoint search_tasks (task_id : json) (tasks : list (string * json))
  : res (option json) :=
  match tasks with
  | [] => Ok None
  | (task_key, task_data) :: rest =>
      if Py.eq (JStr task_key) task_id then Ok (Some task_data)
      else
        subtasks <- get task_data "subtasks" (JObj []) ;;
        subs <- items subtasks ;;
        match search_subtasks task_id subs with
        | Some subtask_data => Ok (Some subtask_data)
        | None => search_tasks task_id rest
        end
  end.

Fixpoint search_phases (task_id : json) (phases : list (string * json))
  : res (option json) :=
  match phases with
  | [] => Ok None
  | (_, phase_data) :: rest =>
      tasks <- get phase_data "tasks" (JObj []) ;;
      ts <- items tasks ;;
      found <- search_tasks task_id ts ;;
      match found with
      | Some d => Ok (Some d)
      | None => search_phases task_id rest
      end
  end.

(** [_find_task_details] *)
Definition find_task_details (state task_id : json) : res json :=
  phases <- get state "phases" (JObj []) ;;
  ps <- items phases ;;
  found <- search_phases task_id ps ;;
  Ok (match found with Some d => d | None => JObj [] end).

(** [_generate_next_actions] *)
Definition generate_next_actions (task_details : json) : res (list string) :=
  if negb (truthy task_details) then
    Ok ["Review current task status"; "Update progress state";
        "Continue with planned work"]
  else
    status <- get task_details "status" (JStr "UNKNOWN") ;;
    if Py.eq status (JStr "IN_PROGRESS") then
      name <- get task_details "name" (JStr "current task") ;;
      Ok [("Continue working on " ++ Py.str name)%string;
          "Update progress as work proceeds";
          "Create checkpoint after significant progress"]
    else if Py.eq status (JStr "PENDING") then
      name <- get task_details "name" (JStr "planned task") ;;
      Ok [("Begin work on " ++ Py.str name)%string;
          "Review acceptance criteria";
          "Create initial checkpoint"]
    else Ok ["Review task status"; "Determine next steps"; "Update progress state"].

(** Character classes of [_slugify], on ASCII; bytes of other characters are
    kept as word characters. *)
Definition is_space (a : ascii) : bool :=
  let n := nat_of_ascii a in
  (Nat.eqb n 32 || ((9 <=? n) && (n <=? 13)) || ((28 <=? n) && (n <=? 31)))%nat.

Definition is_word (a : ascii) : bool :=
  let n := nat_of_ascii a in
  (((48 <=? n) && (n <=? 57)) || ((65 <=? n) && (n <=? 90))
   || ((97 <=? n) && (n <=? 122)) || Nat.eqb n 95 || (128 <=? n))%nat.

Definition is_hyphen (a : ascii) : bool := Ascii.eqb a "-".

Fixpoint drop_while (f : ascii -> bool) (l : list ascii) : list ascii :=
  match l with
  | [] => []
  | a :: l' => if f a then drop_while f l' else l
  end.

(** [s.strip()] *)
Definition strip (l : list ascii) : list ascii :=
  rev (drop_while is_space (rev (drop_while is_space l))).

(** [re.sub(r'[\s_-]+', '-', text)]; [in_run] tells whether the previous
    character belonged to a separator run. *)
Fixpoint squeeze (in_run : bool) (l : list ascii) : list ascii :=
  match l with
  | [] => []
  | a :: l' =>
      if is_space a || Ascii.eqb a "_" || is_hyphen a
      then (if in_run then squeeze true l' else "-"%char :: squeeze true l')
      else a :: squeeze false l'
  end.

(** [_slugify] *)
Definition slugify (text : string) : string :=
  let kept := filter (fun a => is_word a || is_space a || is_hyphen a)
                (list_ascii_of_string text) in
  let lowered := map lower_ascii (strip kept) in
  string_of_list_ascii (firstn 50 (squeeze false lowered)).

(** Lines 155-157 *)
Definition next_checkpoint_count (state : json) : res nat :=
  checkpoints <- get state "checkpoints" (JArr []) ;;
  n <- len checkpoints ;;
  Ok (n + 1).

Definition manual_checkpoint_id (checkpoint_count : nat) : string :=
  "CP" ++ fmt03 checkpoint_count.

(** Lines 160-170 *)
Definition checkpoint_record (clk : clock) (description : string) (state : json)
  (checkpoint_id : string) : res json :=
  metadata <- getitem state "metadata" ;;
  phase <- get metadata "current_phase" (JNum 1) ;;
  session <- getitem state "current_session" ;;
  task <- get session "active_task" (JStr "UNKNOWN") ;;
  completion <- get metadata "overall_progress" (JNum 0) ;;
  files_modified <- get session "files_modified" (JArr []) ;;
  context <- get session "context_summary" (JStr "") ;;
  active <- get session "active_task" (JStr "") ;;
  task_details <- find_task_details state active ;;
  next_actions <- generate_next_actions task_details ;;
  Ok (JObj
        [("checkpoint_id", JStr checkpoint_id);
         ("timestamp", JStr (utc_iso clk));
         ("description", JStr description);
         ("phase", phase);
         ("task", task);
         ("completion_percentage", completion);
         ("files_modified", files_modified);
         ("context_snapshot", context);
         ("next_actions", JArr (map JStr next_actions))]).

(** Lines 183-189: the live record gains the checkpoint summary and the
    recovery pointer. *)
Definition note_checkpoint (checkpoint : json) (checkpoint_id : string)
  (state : json) : res json :=
  s1 <- setdefault state "checkpoints" (JArr []) ;;
  s2 <- append_at s1 "checkpoints" checkpoint ;;
  s3 <- setitem2 s2 "recovery" "last_known_good_state" (JStr checkpoint_id) ;;
  task <- getitem checkpoint "task" ;;
  setitem2 s3 "recovery" "recovery_instructions"
    (JStr ("Load checkpoint " ++ checkpoint_id ++ " and resume from " ++ Py.str task)).

Inductive save_result : Type :=
| SaveSuccess (checkpoint_id : string) (checkpoint : json)
| SaveError (message : string).

(** The [try] block of [checkpoint_save] (lines 175-192); the state is the
    file system. *)
Definition save_body (m : ProgressManager) (clk : clock) (checkpoint_file : string)
  (checkpoint : json) (checkpoint_id : string) (state : json)
  : M filesystem unit :=
  updating (fun fs =>
      dump_json fs checkpoint_file
        (JObj [("checkpoint", checkpoint); ("full_state", state)]) (now clk)) ;;;
  state' <~ lift (note_checkpoint checkpoint checkpoint_id state) ;;
  modify (fun fs => fst (save_progress_state m fs clk state')).

(** [checkpoint_save]: what is raised before the [try] propagates. *)
Definition checkpoint_save (m : ProgressManager) (fs : filesystem) (clk : clock)
  (description : string) : res (filesystem * save_result) :=
  state <- load_progress_state m fs clk ;;
  checkpoint_count <- next_checkpoint_count state ;;
  let checkpoint_id := manual_checkpoint_id checkpoint_count in
  checkpoint <- checkpoint_record clk description state checkpoint_id ;;
  let checkpoint_file :=
    path_join (checkpoints_dir m)
      (checkpoint_id ++ "_" ++ local_minute clk ++ "_" ++ slugify description ++ ".json") in
  match save_body m clk checkpoint_file checkpoint checkpoint_id state fs with
  | (Ok _, fs') => Ok (fs', SaveSuccess checkpoint_id checkpoint)
  | (Raise e, fs') =>
      Ok (fs', SaveError ("Failed to create checkpoint: " ++ exn_text e))
  end.

End ResumeProgress.

(** ** The two loops as threads over the shared change counter

    [_monitor_loop] and [_checkpoint_loop] run in two threads started by
    [start]; the only field both write is [file_change_count].  The daemon
    holds no lock, so the steps below are the individual accesses to that
    field, taken in any order:
      - line 153, [self.file_change_count += len(changes)], is a load
        followed by a store;
      - lines 120-128 decide whether to fire, lines 131-133 create the
        checkpoint and then store [0].
    [detected] and [covered] are bookkeeping, not program state: the changes
    the scan loop has added so far, and the counter values that resets have
    accounted for, namely the value the decision cycle saw when it fired. *)

Module TriggerThreads.

Inductive monitor_pc : Type :=
| MonitorIdle
| MonitorLoaded (loaded found : nat).      (* between the load and the store of [+=] *)

Inductive decision_pc : Type :=
| DecisionIdle
| DecisionFiring (seen : nat).             (* fired; the reset is still to come *)

Record state : Type := mkState {
  file_change_count : nat;
  monitor : monitor_pc;
  decision : decision_pc;
  detected : nat;
  covered : nat
}.

Inductive action : Type :=
| MonitorLoad (found : nat)    (* [changes] is non-empty, the field is read *)
| MonitorStore                 (* the field is written with loaded + found *)
| DecisionFire                 (* the cycle decides to fire *)
| DecisionReset.               (* [self.file_change_count = 0] *)

Definition step (a : action) (s : state) : option state :=
  match a, monitor s, decision s with
  | MonitorLoad (S n), MonitorIdle, _ =>
      Some (mkState (file_change_count s)
              (MonitorLoaded (file_change_count s) (S n))
              (decision s) (detected s) (covered s))
  | MonitorStore, MonitorLoaded loaded found, _ =>
      Some (mkState (loaded + found) MonitorIdle (decision s)
              (detected s + found) (covered s))
  | DecisionFire, _, DecisionIdle =>
      Some (mkState (file_change_count s) (monitor s)
              (DecisionFiring (file_change_count s)) (detected s) (covered s))
  | DecisionReset, _, DecisionFiring seen =>
      Some (mkState 0 (monitor s) DecisionIdle (detected s) (covered s + seen))
  | _, _, _ => None
  end.

Fixpoint run (schedule : list action) (s : state) : option state :=
  match schedule with
  | [] => Some s
  | a :: rest =>
      match step a s with
      | Some s' => run rest s'
      | None => None
      end
  end.

Definition initial : state := mkState 0 MonitorIdle DecisionIdle 0 0.

Definition quiescent (s : state) : Prop :=
  monitor s = MonitorIdle /\ decision s = DecisionIdle.

(** No increment is lost: every change the scan loop added is still in the
    counter or was seen by the cycle that reset it. *)
Definition nothing_lost (s : state) : Prop :=
  detected s = file_change_count s + covered s.

(** A schedule in which the loops take turns, each running its accesses to
    the counter without the other in between. *)
Inductive cycle : Type :=
| MonitorCycle (found : nat)
| DecisionCycle.

Definition actions_of (c : cycle) : list action :=
  match c with
  | MonitorCycle 0 => []
  | MonitorCycle (S n) => [MonitorLoad (S n); MonitorStore]
  | DecisionCycle => [DecisionFire; DecisionReset]
  end.

Definition serial (cycles : list cycle) : list action :=
  flat_map actions_of cycles.

End TriggerThreads.

(** ** auto_checkpoint.py: starting and stopping the daemon

    [start], [stop] and [_signal_handler] act on the flag [running] and on
    the event [shutdown_event], which [__init__] creates unset; the guard of
    both [while] loops reads the two. *)

Module DaemonControl.

Record control : Type := mkControl {
  running : bool;
  shutdown_event : bool
}.

(** [__init__] *)
Definition created : control := mkControl false false.

(** [start]; the second component tells whether the two threads were
    started by this call. *)
Definition start (c : control) : control * bool :=
  if running c then (c, false)
  else (mkControl true (shutdown_event c), true).

(** [stop]: the event is set and never cleared. *)
Definition stop (c : control) : control :=
  if negb (running c) then c
  else mkControl false true.

(** [_signal_handler] *)
Definition signal_handler (c : control) : control := stop c.

(** The guard [self.running and not self.shutdown_event.is_set()] of
    [_checkpoint_loop] and [_monitor_loop]. *)
Definition loop_continues (c : control) : bool :=
  running c && negb (shutdown_event c).

Inductive command : Type :=
| Start
| Stop
| Signal.

Definition apply (c : control) (cmd : command) : control :=
  match cmd with
  | Start => fst (start c)
  | Stop => stop c
  | Signal => signal_handler c
  end.

End DaemonControl.

(** ** checkpoint_recovery.py: rebuild_from_files *)

Module Rebuild.
Import Py FS CheckpointRecovery.
Open Scope py_scope.

Record rebuild_result : Type := mkRebuild {
  rb_success : bool;
  confidence : string;
  estimated_progress : nat;
  detected_phase : nat;
  probable_task : string;
  files_analyzed : nat;
  reconstruction_notes : list string
}.

Definition add_note (note : string) (r : rebuild_result) : rebuild_result :=
  mkRebuild (rb_success r) (confidence r) (estimated_progress r) (detected_phase r)
    (probable_task r) (files_analyzed r) (reconstruction_notes r ++ [note]).

Definition set_confidence (c : string) (r : rebuild_result) : rebuild_result :=
  mkRebuild (rb_success r) c (estimated_progress r) (detected_phase r)
    (probable_task r) (files_analyzed r) (reconstruction_notes r).

Definition set_estimate (progress phase : nat) (task : string) (r : rebuild_result)
  : rebuild_result :=
  mkRebuild (rb_success r) (confidence r) progress phase task
    (files_analyzed r) (reconstruction_notes r).

Definition set_progress (progress : nat) (r : rebuild_result) : rebuild_result :=
  mkRebuild (rb_success r) (confidence r) progress (detected_phase r)
    (probable_task r) (files_analyzed r) (reconstruction_notes r).

Definition set_files_analyzed (n : nat) (r : rebuild_result) : rebuild_result :=
  mkRebuild (rb_success r) (confidence r) (estimated_progress r) (detected_phase r)
    (probable_task r) n (reconstruction_notes r).

Definition set_rb_success (b : bool) (r : rebuild_result) : rebuild_result :=
  mkRebuild b (confidence r) (estimated_progress r) (detected_phase r)
    (probable_task r) (files_analyzed r) (reconstruction_notes r).

Definition initial_rebuild : rebuild_result :=
  mkRebuild false "LOW" 0 1 "UNKNOWN" 0 [].

(** Lines 287-290 *)
Definition look_at_config (m : CheckpointRecoveryManager) (fs : filesystem)
  (r : rebuild_result) : rebuild_result :=
  if exists_ fs (path_join (project_root m) "config.yaml") then
    set_confidence "MEDIUM"
      (add_note "Found config.yaml - project structure intact" r)
  else r.

(** Lines 293-296 *)
Definition look_at_documents (m : CheckpointRecoveryManager) (fs : filesystem)
  (r : rebuild_result) : rebuild_result :=
  match glob fs (progress_dir m) "" ".md" with
  | [] => r
  | progress_files =>
      set_confidence "MEDIUM"
        (add_note ("Found " ++ digits (List.length progress_files)
                   ++ " progress documentation files") r)
  end.

(** Lines 299-308; a [scripts] directory that does not exist and one that
    holds no [.py] file give the same empty list. *)
Definition look_at_scripts (m : CheckpointRecoveryManager) (fs : filesystem)
  (r : rebuild_result) : rebuild_result :=
  match glob fs (path_join (project_root m) "scripts") "" ".py" with
  | [] => r
  | script_files =>
      let n := List.length script_files in
      let r1 := set_files_analyzed n
                  (add_note ("Found " ++ digits n ++ " implementation scripts") r) in
      if (3 <=? n)%nat then set_estimate (Nat.min 25 (n * 5)) 1 "P1.1.3" r1
      else r1
  end.

(** Lines 311-315 *)
Definition look_at_marker (m : CheckpointRecoveryManager) (fs : filesystem)
  (r : rebuild_result) : rebuild_result :=
  if exists_ fs (path_join (project_root m) "resume.py") then
    set_confidence "HIGH"
      (set_progress (Nat.max (estimated_progress r) 15)
         (add_note "Found resume.py - progress system partially implemented" r))
  else r.

(** Lines 287-315: what the project tree tells. *)
Definition analyze (m : CheckpointRecoveryManager) (fs : filesystem)
  : rebuild_result :=
  look_at_marker m fs
    (look_at_scripts m fs
       (look_at_documents m fs
          (look_at_config m fs initial_rebuild))).

(** Lines 318-346 *)
Definition reconstructed_state (clk : clock) (r : rebuild_result) : json :=
  JObj
    [("metadata",
      JObj [("version", JStr "1.0");
            ("created", JStr (utc_iso clk));
            ("last_updated", JStr (utc_iso clk));
            ("updated_by", JStr "Recovery System");
            ("project_name", JStr "ClaudeCode Enhancement");
            ("total_phases", JNum 5);
            ("current_phase", JNum (Z.of_nat (detected_phase r)));
            ("overall_progress", JNum (Z.of_nat (estimated_progress r)));
            ("reconstruction_source", JStr "FILE_ANALYSIS")]);
     ("current_session",
      JObj [("session_id", JStr ("rebuilt_" ++ local_minute clk));
            ("started", JStr (utc_iso clk));
            ("last_activity", JStr (utc_iso clk));
            ("active_task", JStr (probable_task r));
            ("context_summary",
             JStr ("State rebuilt from file analysis. Confidence: " ++ confidence r));
            ("next_planned_action",
             JStr "Validate reconstructed state and continue development");
            ("estimated_time_remaining", JStr "Unknown - verify progress");
            ("checkpoint_frequency", JNum 30)]);
     ("rebuild_info",
      JObj [("rebuild_timestamp", JStr (utc_iso clk));
            ("confidence_level", JStr (confidence r));
            ("files_analyzed", JNum (Z.of_nat (files_analyzed r)));
            ("reconstruction_notes", JArr (map JStr (reconstruction_notes r)))])].

Definition corrupted_state_path (m : CheckpointRecoveryManager) (clk : clock)
  : string :=
  path_join (backup_dir m) ("corrupted_state_" ++ local_second clk ++ ".json").

(** Lines 349-354: archive the record that is there, then write the new one.
    The state is the file system: an archive already made stays when the
    write raises. *)
Definition archive_and_write (m : CheckpointRecoveryManager) (clk : clock)
  (state : json) : M filesystem unit :=
  updating (fun fs =>
      if exists_ fs (state_file m)
      then copy2 fs (state_file m) (corrupted_state_path m clk)
      else Ok fs) ;;;
  updating (fun fs => dump_json fs (state_file m) state (now clk)).

(** [rebuild_from_files] *)
Definition rebuild_from_files (m : CheckpointRecoveryManager) (fs : filesystem)
  (clk : clock) : filesystem * rebuild_result :=
  let r := analyze m fs in
  match archive_and_write m clk (reconstructed_state clk r) fs with
  | (Ok _, fs') =>
      (fs', add_note "Reconstructed state saved successfully" (set_rb_success true r))
  | (Raise e, fs') => (fs', add_note ("Rebuild failed: " ++ exn_text e) r)
  end.

End Rebuild.

(** ** Concrete project trees used to exercise the statements *)

Module Examples.
Import Py FS.

Definition root : string := "proj".
Definition manager := CheckpointRecovery.init root.
Definition clk0 : clock :=
  mkClock 1000 "2026-01-01T00:00:00+00:00" "20260101_0000" "20260101_000000".

Definition doc (j : json) : file := mkFile [Json j] 0 true.
Definition blob (s : string) : file := mkFile [Text s] 0 true.

Definition progress_record (phase : Z) (task : string) (progress : Z) : json :=
  JObj [("metadata", JObj [("current_phase", JNum phase);
                           ("overall_progress", JNum progress)]);
        ("current_session", JObj [("active_task", JStr task)]);
        ("phases", JObj [])].

Definition checkpoint_doc (id timestamp : string) (files : list string)
  (full_state : json) : json :=
  JObj [("checkpoint",
         JObj [("checkpoint_id", JStr id);
               ("timestamp", JStr timestamp);
               ("description", JStr "work in progress");
               ("phase", JNum 2);
               ("task", JStr "P2.1");
               ("files_modified", JArr (map JStr files))]);
        ("full_state", full_state)].

(** A checkpoint that references [src/app.py], which is not on disk. *)
Definition fs_missing_file : filesystem :=
  mkFS
    [("proj/progress-state/PROGRESS_STATE.json", doc (progress_record 3 "P3.1" 60));
     ("proj/progress-state/checkpoints/CP001_20251231_2300_wip.json",
      doc (checkpoint_doc "CP001" "2025-12-31T23:00:00" ["src/app.py"]
             (progress_record 2 "P2.1" 40)))]
    [].

(** A checkpoint whose one referenced file exists and has a snapshot. *)
Definition fs_feasible : filesystem :=
  mkFS
    [("proj/progress-state/PROGRESS_STATE.json", doc (progress_record 3 "P3.1" 60));
     ("proj/progress-state/checkpoints/CP001_20251231_2300_wip.json",
      doc (checkpoint_doc "CP001" "2025-12-31T23:00:00" ["src/app.py"]
             (progress_record 2 "P2.1" 40)));
     ("proj/src/app.py", blob "print('new')");
     ("proj/progress-state/snapshots/CP001/src/app.py", blob "print('old')")]
    [].

(** The same tree with a corrupt file first in the scan of the checkpoint
    directory. *)
Definition fs_corrupt_first : filesystem :=
  mkFS
    (("proj/progress-state/checkpoints/AUTO_CP001_20251231_2200_time_based.json",
      blob "{ truncated")
     :: fs_files fs_feasible)
    [].

(** A feasible checkpoint whose embedded state has no [metadata] section,
    with three referenced files: the live copy of the first cannot be
    overwritten, the second has a snapshot, the third has none. *)
Definition fs_partial : filesystem :=
  mkFS
    [("proj/progress-state/PROGRESS_STATE.json", doc (progress_record 3 "P3.1" 60));
     ("proj/progress-state/checkpoints/CP007_20251231_2300_wip.json",
      doc (checkpoint_doc "CP007" "2025-12-31T23:00:00"
             ["src/lib.py"; "src/app.py"; "docs/readme.md"]
             (JObj [("current_session", JObj [("active_task", JStr "P2.1")])])));
     ("proj/src/lib.py", blob "def f(): pass");
     ("proj/src/app.py", blob "print('new')");
     ("proj/docs/readme.md", blob "# readme");
     ("proj/progress-state/snapshots/CP007/src/lib.py", blob "def f(): return 1");
     ("proj/progress-state/snapshots/CP007/src/app.py", blob "print('old')")]
    ["proj/src/lib.py"].

(** A checkpoint taken by the daemon, after which work went on. *)
Definition daemon := AutoCheckpoint.init root 0.
Definition this_host := AutoCheckpoint.mkHost "3.11.4 (main)" "linux".
Definition clk_capture : clock :=
  mkClock 600 "2025-12-31T22:00:00+00:00" "20251231_2200" "20251231_220000".

Definition fs_start : filesystem :=
  mkFS
    [("proj/progress-state/PROGRESS_STATE.json", doc (progress_record 2 "P2.1" 40));
     ("proj/src/app.py", blob "print('v1')")]
    [].

Definition fs_checkpointed : filesystem :=
  AutoCheckpoint.create_auto_checkpoint this_host daemon fs_start clk_capture "TIME_BASED".

Definition fs_later : filesystem :=
  set_file fs_checkpointed "proj/progress-state/PROGRESS_STATE.json"
    (mkFile [Json (progress_record 3 "P3.1" 60)] 900 true).

Definition stored_later : json :=
  match CheckpointRecovery.stored_document manager fs_later (JStr "AUTO_CP001") with
  | Some d => d
  | None => JNull
  end.

(** The daemon creating one checkpoint a minute, [n] times in a row. *)
Definition clk_at (i : nat) : clock :=
  mkClock (Z.of_nat (60 * i)) ("2026-01-01T00:00:00+00:00 +" ++ digits i ++ "min")
    ("20260101_m" ++ digits i) ("20260101_m" ++ digits i ++ "_00").

Definition after_creations (n : nat) : filesystem :=
  fold_left
    (fun fs i =>
       AutoCheckpoint.create_auto_checkpoint this_host daemon fs (clk_at i) "TIME_BASED")
    (seq 1 n) fs_start.

Definition progress_manager := ResumeProgress.init root.

(** A digest to run the decision loop with. *)
Definition digest (data : list chunk) : string :=
  String.concat "|"
    (map (fun c => match c with
                   | Text raw => raw
                   | Json j => Py.str j
                   end) data).

(** One interval after the daemon was started at time 0, and a minute later. *)
Definition clk_interval : clock :=
  mkClock 1800 "2026-01-01T00:30:00+00:00" "20260101_0030" "20260101_003000".
Definition clk_minute_later : clock :=
  mkClock 1860 "2026-01-01T00:31:00+00:00" "20260101_0031" "20260101_003100".

(** A daemon set to keep two automatic checkpoints, and a checkpoint
    directory holding three of them (written at 300, 100 and 200) beside a
    manual one. *)
Definition daemon_keeping_two : AutoCheckpoint.AutoCheckpointDaemon :=
  AutoCheckpoint.mkDaemon
    (AutoCheckpoint.project_root daemon) (AutoCheckpoint.progress_dir daemon)
    (AutoCheckpoint.state_file daemon) (AutoCheckpoint.checkpoints_dir daemon)
    (AutoCheckpoint.snapshots_dir daemon) (AutoCheckpoint.checkpoint_interval daemon)
    (AutoCheckpoint.activity_threshold daemon) 2 false 0 None 0
    (AutoCheckpoint.monitored_extensions daemon).

Definition fs_three_automatic : filesystem :=
  mkFS
    [("proj/progress-state/PROGRESS_STATE.json", doc (progress_record 2 "P2.1" 40));
     ("proj/progress-state/checkpoints/AUTO_CP003_20260101_0005_time_based.json",
      mkFile [Json (checkpoint_doc "AUTO_CP003" "2026-01-01T00:05:00" []
                      (progress_record 2 "P2.1" 40))] 300 true);
     ("proj/progress-state/checkpoints/AUTO_CP001_20260101_0001_time_based.json",
      mkFile [Json (checkpoint_doc "AUTO_CP001" "2026-01-01T00:01:00" []
                      (progress_record 2 "P2.1" 30))] 100 true);
     ("proj/progress-state/checkpoints/CP001_20260101_0002_wip.json",
      mkFile [Json (checkpoint_doc "CP001" "2026-01-01T00:02:00" []
                      (progress_record 2 "P2.1" 35))] 150 true);
     ("proj/progress-state/checkpoints/AUTO_CP002_20260101_0003_time_based.json",
      mkFile [Json (checkpoint_doc "AUTO_CP002" "2026-01-01T00:03:00" []
                      (progress_record 2 "P2.1" 38))] 200 true)]
    [].

(** Two checkpoints, one stamped with ISO text and one with epoch seconds. *)
Definition fs_mixed_timestamps : filesystem :=
  mkFS
    [("proj/progress-state/checkpoints/CP001_20251231_2300_wip.json",
      doc (checkpoint_doc "CP001" "2025-12-31T23:00:00" [] (progress_record 2 "P2.1" 40)));
     ("proj/progress-state/checkpoints/CP002_20260101_0000_wip.json",
      doc (JObj [("checkpoint",
                  JObj [("checkpoint_id", JStr "CP002");
                        ("timestamp", JNum 1767225600);
                        ("description", JStr "imported");
                        ("phase", JNum 2);
                        ("task", JStr "P2.1")]);
                 ("full_state", progress_record 2 "P2.1" 45)]))]
    [].

(** Three checkpoints scanned oldest, newest, middle. *)
Definition fs_three_manual : filesystem :=
  mkFS
    [("proj/progress-state/checkpoints/CP001_20251231_2100_a.json",
      doc (checkpoint_doc "CP001" "2025-12-31T21:00:00" [] (progress_record 1 "P1.1" 10)));
     ("proj/progress-state/checkpoints/CP003_20251231_2300_c.json",
      doc (checkpoint_doc "CP003" "2025-12-31T23:00:00" [] (progress_record 2 "P2.1" 40)));
     ("proj/progress-state/checkpoints/CP002_20251231_2200_b.json",
      doc (checkpoint_doc "CP002" "2025-12-31T22:00:00" [] (progress_record 1 "P1.2" 20)))]
    [].

End Examples.

(** * Properties *)

(** ** Auxiliary facts about dictionaries, files and paths *)

Section Auxiliary.
Import Py FS.

Lemma lookup_update (k k' : string) (v : json) (o : list (string * json)) :
  lookup k (update k' v o) = if String.eqb k' k then Some v else lookup k o.
Proof.
  induction o as [|[q w] o IH]; simpl.
  - destruct (String.eqb k' k); reflexivity.
  - destruct (String.eqb q k') eqn:E; simpl.
    + apply String.eqb_eq in E; subst q.
      destruct (String.eqb k' k); reflexivity.
    + rewrite IH. destruct (String.eqb q k) eqn:E2; [|reflexivity].
      apply String.eqb_eq in E2; subst q. rewrite String.eqb_sym, E. reflexivity.
Qed.

Lemma find_file_put (p q : string) (f : file) (l : list (string * file)) :
  find_file q (put_file p f l) = if String.eqb p q then Some f else find_file q l.
Proof.
  induction l as [|[a g] l IH]; simpl.
  - destruct (String.eqb p q); reflexivity.
  - destruct (String.eqb a p) eqn:E; simpl.
    + apply String.eqb_eq in E; subst a.
      destruct (String.eqb p q); reflexivity.
    + rewrite IH. destruct (String.eqb a q) eqn:E2; [|reflexivity].
      apply String.eqb_eq in E2; subst a. rewrite String.eqb_sym, E. reflexivity.
Qed.

Lemma data_of_set_file_other (fs : filesystem) (p q : string) (f : file) :
  p <> q -> data_of (set_file fs p f) q = data_of fs q.
Proof.
  intros Hne. unfold data_of, lookup_file, set_file; simpl.
  rewrite find_file_put.
  destruct (String.eqb p q) eqn:E; [apply String.eqb_eq in E; contradiction|reflexivity].
Qed.

Lemma data_of_set_file_same (fs : filesystem) (p : string) (f : file) :
  data_of (set_file fs p f) p = f_data f.
Proof.
  unfold data_of, lookup_file, set_file; simpl.
  rewrite find_file_put, String.eqb_refl. reflexivity.
Qed.

Lemma write_file_data (fs fs' : filesystem) (p : string) (d : list chunk) (t : Z) :
  write_file fs p d t = Ok fs' ->
  data_of fs' p = d /\ forall q, p <> q -> data_of fs' q = data_of fs q.
Proof.
  unfold write_file. destruct (is_denied fs p); [discriminate|].
  intros H; inversion H; subst; clear H. split.
  - apply data_of_set_file_same.
  - intros q Hq. apply data_of_set_file_other; assumption.
Qed.

Lemma copy2_data_other (fs fs' : filesystem) (src dst q : string) :
  copy2 fs src dst = Ok fs' -> dst <> q -> data_of fs' q = data_of fs q.
Proof.
  unfold copy2. destruct (lookup_file fs src) as [f|]; [|discriminate].
  destruct (negb (f_readable f)); [discriminate|].
  destruct (String.eqb src dst); [discriminate|].
  destruct (is_denied fs dst); [discriminate|].
  intros H Hne; inversion H; subst. apply data_of_set_file_other; assumption.
Qed.

Lemma append_same_prefix (p a b : string) : (p ++ a = p ++ b)%string -> a = b.
Proof.
  induction p as [|c p IH]; simpl; intros H; [assumption|].
  inversion H. auto.
Qed.

Lemma path_join_relative (a b : string) :
  starts_with "/" b = false -> b <> "" -> path_join a b = (a ++ "/" ++ b)%string.
Proof.
  intros H1 H2. unfold path_join. rewrite H1.
  destruct (String.eqb b "") eqn:E; [apply String.eqb_eq in E; contradiction|reflexivity].
Qed.

End Auxiliary.

(** ** The recovery manager *)

Section RecoveryProperties.
Import Py FS CheckpointRecovery.

Ltac split_res :=
  repeat match goal with
         | |- context [match ?x with Ok _ => _ | Raise _ => _ end] =>
             destruct x eqn:?; simpl
         | H : context [match ?x with Ok _ => _ | Raise _ => _ end] |- _ =>
             destruct x eqn:?; simpl in H
         end.

(** *** Listing, lookup and emergency recovery *)

Lemma summarize_file (fs : filesystem) (f : string) (entry : checkpoint_summary) :
  summarize fs f = Ok entry -> cs_file entry = f.
Proof.
  unfold summarize, bind. intros H. split_res; try discriminate.
  inversion H; reflexivity.
Qed.

Lemma summarize_needs_load (fs : filesystem) (f : string) (e : exn) :
  load_json fs f = Raise e -> summarize fs f = Raise e.
Proof. intros H. unfold summarize, bind. rewrite H. reflexivity. Qed.

Lemma holds_checkpoint_needs_load (fs : filesystem) (id : json) (f : string) (e : exn) :
  load_json fs f = Raise e -> holds_checkpoint fs id f = false.
Proof. intros H. unfold holds_checkpoint, bind. rewrite H. reflexivity. Qed.

Lemma gather_stops (fs : filesystem) (pre : list string) (bad : string)
  (post : list string) (e : exn) :
  summarize fs bad = Raise e ->
  Forall (fun f => exists entry, summarize fs f = Ok entry) pre ->
  forall acc, exists entries,
    Forall2 (fun f entry => summarize fs f = Ok entry) pre entries /\
    gather fs (pre ++ bad :: post) acc = acc ++ entries.
Proof.
  intros Hbad Hpre. induction Hpre as [|f pre [entry Hf] _ IH]; intros acc; simpl.
  - exists []. split; [constructor|]. rewrite Hbad, app_nil_r. reflexivity.
  - rewrite Hf. destruct (IH (acc ++ [entry])) as (entries & HF & Hg).
    exists (entry :: entries). split; [constructor; assumption|].
    rewrite Hg, <- app_assoc. reflexivity.
Qed.

Lemma find_skips (A : Type) (p : A -> bool) (pre : list A) (bad : A) (post : list A) :
  p bad = false -> find p (pre ++ bad :: post) = find p (pre ++ post).
Proof.
  intros Hbad. induction pre as [|x pre IH]; simpl.
  - rewrite Hbad. reflexivity.
  - destruct (p x); [reflexivity|assumption].
Qed.

Lemma In_insert_desc (x y : checkpoint_summary) (l : list checkpoint_summary) :
  In y (insert_desc x l) -> y = x \/ In y l.
Proof.
  induction l as [|z l IH]; simpl.
  - intros [H|[]]; auto.
  - destruct (key_ltb (cs_timestamp x) (cs_timestamp z)); simpl.
    + intros [H|H]; auto. destruct (IH H); auto.
    + intros [H|[H|H]]; auto.
Qed.

Lemma sort_newest_first_In (l sorted : list checkpoint_summary) (c : checkpoint_summary) :
  sort_newest_first l = Ok sorted -> In c sorted -> In c l.
Proof.
  unfold sort_newest_first. destruct (List.length l <=? 1)%nat.
  - intros H; inversion H; auto.
  - destruct (_ || _); [|discriminate]. intros H; inversion H; subst; clear H.
    induction l as [|x l IH]; simpl; [auto|].
    intros Hin. apply In_insert_desc in Hin. destruct Hin; auto.
Qed.

Lemma replay_all_keeps_id (m : CheckpointRecoveryManager) (id : json)
  (files : list json) (st : filesystem * recovery_result) :
  r_checkpoint_id (snd (replay_all m id files st)) = r_checkpoint_id (snd st).
Proof.
  revert st. induction files as [|p files IH]; intros [fs r]; simpl; [reflexivity|].
  unfold replay_all in *. simpl. rewrite IH.
  destruct (try_replay m id fs p) as [[fs'|]|e]; reflexivity.
Qed.

Lemma recover_keeps_id (m : CheckpointRecoveryManager) (fs : filesystem)
  (id : json) (clk : clock) :
  r_checkpoint_id (snd (recover_from_checkpoint m fs id clk)) = id.
Proof.
  unfold recover_from_checkpoint.
  destruct (negb _); [reflexivity|].
  destruct (reload_checkpoint m fs id) as [[info full_state]|e]; [|reflexivity].
  destruct (backup_and_restore m fs clk id full_state (initial_recovery id clk))
    as [fs2 r2] eqn:Eb.
  assert (Hr2 : r_checkpoint_id r2 = id).
  { unfold backup_and_restore in Eb.
    destruct (create_recovery_backup m fs clk) as [fs1 b].
    destruct (restore_progress_state _ _ _ _ _ _ _); destruct b;
      inversion Eb; reflexivity. }
  destruct (files_to_restore info) as [files|e]; [|exact Hr2].
  pose proof (replay_all_keeps_id m id files (fs2, r2)) as Hk.
  destruct (replay_all m id files (fs2, r2)) as [fs3 r3]. simpl in *.
  rewrite Hk. exact Hr2.
Qed.

Lemma try_candidates_recovered (m : CheckpointRecoveryManager) (fs fs' : filesystem)
  (clk : clock) (cs : list checkpoint_summary) (r : recovery_result) :
  try_candidates m fs clk cs = (fs', Recovered r) ->
  exists c, In c cs /\ r_checkpoint_id r = cs_id c.
Proof.
  induction cs as [|c cs IH]; simpl; [discriminate|].
  destruct (recovery_feasible _).
  - pose proof (recover_keeps_id m fs (cs_id c) clk) as Hk.
    destruct (recover_from_checkpoint m fs (cs_id c) clk) as [fs1 r1].
    intros H; inversion H; subst. exists c. auto.
  - intros H. destruct (IH H) as (c' & Hin & Hid). exists c'. auto.
Qed.

(** C10.  When a file of the checkpoint directory cannot be opened or parsed,
    [list_checkpoints] returns the (sorted) entries of the files scanned
    before it and nothing from that file or the files after it; so every
    checkpoint [emergency_recovery] recovers from was listed before the bad
    file, and when the bad file comes first it reports that no checkpoint is
    available.  [_find_checkpoint_file] skips the bad file and goes on
    through the files after it. *)
Theorem list_checkpoints_stops_at_bad_file
  (m : CheckpointRecoveryManager) (fs : filesystem) (clk : clock)
  (pre : list string) (bad : string) (post : list string) (e : exn) :
  glob fs (checkpoints_dir m) "" ".json" = pre ++ bad :: post ->
  Forall (fun f => exists entry, summarize fs f = Ok entry) pre ->
  load_json fs bad = Raise e ->
  (exists entries,
      Forall2 (fun f entry => summarize fs f = Ok entry) pre entries /\
      list_checkpoints m fs = sort_newest_first entries) /\
  (forall listing c,
      list_checkpoints m fs = Ok listing -> In c listing -> In (cs_file c) pre) /\
  (forall fs' r,
      emergency_recovery m fs clk = Ok (fs', Recovered r) ->
      exists f entry,
        In f pre /\ summarize fs f = Ok entry /\ r_checkpoint_id r = cs_id entry) /\
  (pre = [] -> emergency_recovery m fs clk = Ok (fs, NoCheckpointsAvailable)) /\
  (forall id,
      find_checkpoint_file m fs id = find (holds_checkpoint fs id) (pre ++ post)).
Proof.
  intros Hglob Hpre Hbad.
  destruct (gather_stops fs pre bad post e (summarize_needs_load _ _ _ Hbad) Hpre [])
    as (entries & HF & Hg). simpl in Hg.
  assert (Hlist : list_checkpoints m fs = sort_newest_first entries).
  { unfold list_checkpoints. rewrite Hglob, Hg. reflexivity. }
  assert (Hfrom : forall c, In c entries ->
            In (cs_file c) pre /\ summarize fs (cs_file c) = Ok c).
  { clear Hg Hlist Hglob Hpre.
    induction HF as [|f entry pre' entries' Hs _ IH]; [intros c []|].
    intros c [Hc|Hc].
    - subst c. rewrite (summarize_file _ _ _ Hs). split; [left; reflexivity|assumption].
    - destruct (IH c Hc). split; [right|]; assumption. }
  repeat split.
  - exists entries. split; assumption.
  - intros listing c Hl Hin. rewrite Hlist in Hl.
    apply (Hfrom c). eapply sort_newest_first_In; eassumption.
  - intros fs' r. unfold emergency_recovery, bind. rewrite Hlist.
    destruct (sort_newest_first entries) as [cs|] eqn:Hs; [|discriminate].
    destruct cs as [|c0 cs]; [discriminate|].
    intros H.
    assert (Ht : try_candidates m fs clk (c0 :: cs) = (fs', Recovered r))
      by (inversion H; reflexivity).
    apply try_candidates_recovered in Ht.
    destruct Ht as (c & Hin & Hid).
    destruct (Hfrom c (sort_newest_first_In _ _ _ Hs Hin)) as [Hp Hsum].
    exists (cs_file c), c. auto.
  - intros ->.
    assert (He : entries = []) by (inversion HF; reflexivity).
    unfold emergency_recovery, bind. rewrite Hlist, He. reflexivity.
  - intros id. unfold find_checkpoint_file. rewrite Hglob.
    apply find_skips. eapply holds_checkpoint_needs_load; eassumption.
Qed.

Lemma list_checkpoints_stops_at_bad_file_witness :
  emergency_recovery Examples.manager Examples.fs_corrupt_first Examples.clk0
    = Ok (Examples.fs_corrupt_first, NoCheckpointsAvailable) /\
  find_checkpoint_file Examples.manager Examples.fs_corrupt_first (JStr "CP001")
    = Some "proj/progress-state/checkpoints/CP001_20251231_2300_wip.json" /\
  recovery_feasible
    (validate_checkpoint Examples.manager Examples.fs_corrupt_first (JStr "CP001"))
    = true.
Proof.
  destruct (list_checkpoints_stops_at_bad_file
              Examples.manager Examples.fs_corrupt_first Examples.clk0
              []
              "proj/progress-state/checkpoints/AUTO_CP001_20251231_2200_time_based.json"
              ["proj/progress-state/checkpoints/CP001_20251231_2300_wip.json"]
              JSONDecodeError eq_refl (Forall_nil _) eq_refl)
    as (_ & _ & _ & Hnone & Hfind).
  split; [apply Hnone; reflexivity|].
  split; [rewrite Hfind; reflexivity|reflexivity].
Defined.

(** *** Rejected recoveries *)

(** The path through the gate of lines 165-168. *)
Lemma recover_rejected (m : CheckpointRecoveryManager) (fs : filesystem)
  (id : json) (clk : clock) :
  recovery_feasible (validate_checkpoint m fs id) = false ->
  recover_from_checkpoint m fs id clk
  = (fs, add_messages (issues (validate_checkpoint m fs id))
           (add_message "Checkpoint validation failed" (initial_recovery id clk))).
Proof.
  intros H. unfold recover_from_checkpoint. rewrite H. reflexivity.
Qed.

(** C1.  When [validate_checkpoint] reports [recovery_feasible = false],
    [recover_from_checkpoint] returns the file system it was given, unchanged
    in every file (the live ProgressRecord, the backups, the project files),
    with [success = false], [state_restored = false], and messages made of
    the rejection notice followed by the validator's issues. *)
Theorem recover_rejected_changes_nothing
  (m : CheckpointRecoveryManager) (fs : filesystem) (id : json) (clk : clock) :
  recovery_feasible (validate_checkpoint m fs id) = false ->
  exists r,
    recover_from_checkpoint m fs id clk = (fs, r) /\
    success r = false /\
    state_restored r = false /\
    backup_created r = false /\
    files_restored r = [] /\
    messages r = "Checkpoint validation failed" :: issues (validate_checkpoint m fs id).
Proof.
  intros H. rewrite (recover_rejected m fs id clk H).
  eexists. split; [reflexivity|]. repeat split.
Qed.

Lemma recover_rejected_changes_nothing_witness :
  exists r,
    recover_from_checkpoint Examples.manager Examples.fs_missing_file
      (JStr "CP001") Examples.clk0 = (Examples.fs_missing_file, r) /\
    success r = false /\
    state_restored r = false /\
    backup_created r = false /\
    files_restored r = [] /\
    messages r = "Checkpoint validation failed"
                 :: issues (validate_checkpoint Examples.manager
                              Examples.fs_missing_file (JStr "CP001")).
Proof.
  apply recover_rejected_changes_nothing. reflexivity.
Defined.

End RecoveryProperties.

(** ** The validator *)

Section ValidationProperties.
Import Py FS CheckpointRecovery.

Lemma missing_from_obj (keys : list string) (o : list (string * json)) :
  missing_from keys (JObj o) = Ok (filter (fun k => negb (has_key k o)) keys).
Proof.
  induction keys as [|k ks IH]; simpl; [reflexivity|].
  rewrite IH. simpl. destruct (has_key k o); reflexivity.
Qed.

Lemma missing_from_raises (keys : list string) (c : json) (e : exn) :
  missing_from keys c = Raise e -> e = TypeError.
Proof.
  induction keys as [|k ks IH]; simpl; [discriminate|].
  unfold bind. destruct (contains k c) eqn:Ec.
  - destruct (missing_from ks c); [discriminate|]. intros H; inversion H; subst. auto.
  - intros H; inversion H; subst. destruct c; simpl in Ec; congruence.
Qed.

Lemma files_to_restore_raises (o : list (string * json)) (e : exn) :
  files_to_restore (JObj o) = Raise e -> e = TypeError.
Proof.
  unfold files_to_restore, bind; simpl. unfold iter_concat.
  repeat match goal with
         | |- context [match ?x with _ => _ end] => destruct x
         end; congruence.
Qed.

Lemma holds_checkpoint_document (fs : filesystem) (id : json) (f : string) :
  holds_checkpoint fs id f = true ->
  exists o info,
    load_json fs f = Ok (JObj o) /\ get (JObj o) "checkpoint" (JObj []) = Ok (JObj info).
Proof.
  unfold holds_checkpoint, bind.
  destruct (load_json fs f) as [data|]; [|discriminate].
  destruct data; simpl; try discriminate.
  destruct (match lookup "checkpoint" fields with Some v => v | None => JObj [] end)
    eqn:E; simpl; try discriminate.
  intros _. exists fields, fields0. rewrite E. auto.
Qed.

Lemma existsb_put_check (m : CheckpointRecoveryManager) (fs : filesystem)
  (p : string) (chk : file_check) (c : list (string * file_check)) :
  Forall (fun e => fc_exists (snd e) = exists_ fs (path_join (project_root m) (fst e))) c ->
  fc_exists chk = exists_ fs (path_join (project_root m) p) ->
  Forall (fun e => fc_exists (snd e) = exists_ fs (path_join (project_root m) (fst e)))
    (put_check p chk c) /\
  existsb (fun e => negb (fc_exists (snd e))) (put_check p chk c)
  = existsb (fun e => negb (fc_exists (snd e))) c || negb (fc_exists chk).
Proof.
  intros Hc Hchk. induction Hc as [|[q d] c Hd Hc IH]; simpl.
  - split; [constructor; [assumption|constructor]|].
    destruct (fc_exists chk); reflexivity.
  - destruct (String.eqb q p) eqn:E; simpl in *.
    + apply String.eqb_eq in E; subst q. split.
      * constructor; assumption.
      * rewrite Hd, Hchk. destruct (exists_ fs _), (existsb _ c); reflexivity.
    + destruct IH as [IH1 IH2]. split.
      * constructor; assumption.
      * rewrite IH2. rewrite orb_assoc. reflexivity.
Qed.

Lemma check_files_run (m : CheckpointRecoveryManager) (fs : filesystem) (l : list json) :
  forall v,
    Forall (fun e => fc_exists (snd e) = exists_ fs (path_join (project_root m) (fst e)))
      (file_checks v) ->
    exists v',
      for_each (check_file m fs) l v
      = (if forallb is_str l then Ok tt else Raise TypeError, v') /\
      issues v' = issues v /\ warnings v' = warnings v /\
      data_integrity v' = data_integrity v /\ valid v' = valid v /\
      recovery_feasible v' = recovery_feasible v /\
      (forallb is_str l = true ->
       existsb (fun e => negb (fc_exists (snd e))) (file_checks v')
       = existsb (fun e => negb (fc_exists (snd e))) (file_checks v)
         || negb (forallb (referenced_exists m fs) l)).
Proof.
  induction l as [|x l IH]; intros v Hv; simpl.
  - exists v. repeat split; auto. intros _. rewrite orb_false_r. reflexivity.
  - unfold mbind at 1. destruct x; simpl;
      try (exists v; repeat split; auto; discriminate).
    set (chk := mkCheck _ _).
    destruct (existsb_put_check m fs s chk (file_checks v) Hv eq_refl) as [Hs He].
    destruct (IH (record_check s chk v) Hs) as (v' & Hrun & Hi & Hw & Hd & Hva & Hf & Hex).
    exists v'. rewrite Hrun. repeat split; auto.
    intros Hall. rewrite (Hex Hall). simpl. rewrite He. simpl.
    unfold referenced_exists at 2. simpl.
    destruct (exists_ fs (path_join (project_root m) s)); simpl;
      rewrite ?orb_true_r, ?orb_false_r; reflexivity.
Qed.



Lemma validate_found (m : CheckpointRecoveryManager) (fs : filesystem) (id : json)
  (checkpoint_file : string) (o info : list (string * json)) :
  find_checkpoint_file m fs id = Some checkpoint_file ->
  load_json fs checkpoint_file = Ok (JObj o) ->
  get (JObj o) "checkpoint" (JObj []) = Ok (JObj info) ->
  validate_checkpoint m fs id
  = let v1 :=
      match filter (fun k => negb (has_key k info)) required_fields with
      | [] => set_data_integrity true
      | _ =>
          add_issue ("Missing required fields: "
                     ++ join ", " (filter (fun k => negb (has_key k info)) required_fields))
      end (initial_validation id) in
    match missing_from required_state_sections
            (match lookup "full_state" o with Some s => s | None => JObj [] end) with
    | Raise _ => add_issue "Validation error: TypeError" v1
    | Ok sections =>
        let v2 :=
          match sections with
          | [] => fun v => v
          | _ => add_warning ("Missing state sections: " ++ join ", " sections)
          end v1 in
        match files_to_restore (JObj info) with
        | Raise _ => add_issue "Validation error: TypeError" v2
        | Ok files =>
            let v3 := snd (for_each (check_file m fs) files v2) in
            if forallb is_str files then conclude v3
            else add_issue "Validation error: TypeError" v3
        end
    end.
Proof.
  intros Hfind Hload Hget.
  unfold validate_checkpoint, validate_body. rewrite Hfind.
  unfold mbind, lift, modify. rewrite Hload, Hget. simpl get.
  rewrite missing_from_obj. cbv zeta.
  destruct (missing_from required_state_sections _) as [ms|e] eqn:Es.
  - destruct (files_to_restore (JObj info)) as [files|e] eqn:Ef;
      unfold files_to_restore, bind in Ef; simpl get in Ef; rewrite Ef.
    + match goal with
      | |- context [for_each (check_file m fs) files ?v] => set (v2 := v)
      end.
      assert (Hchk : file_checks v2 = []).
      { subst v2. destruct ms; destruct (filter _ _); reflexivity. }
      destruct (check_files_run m fs files v2) as (v' & Hrun & _);
        [rewrite Hchk; constructor|].
      rewrite Hrun. simpl. destruct (forallb is_str files); reflexivity.
    + assert (e = TypeError) as ->.
      { apply (files_to_restore_raises info). unfold files_to_restore, bind.
        simpl get. exact Ef. }
      reflexivity.
  - apply missing_from_raises in Es. subst e. reflexivity.
Qed.

Lemma filter_missing_nil (f : string -> bool) (l : list string) :
  match filter (fun k => negb (f k)) l with [] => true | _ => false end = forallb f l.
Proof.
  induction l as [|k l IH]; simpl; [reflexivity|].
  destruct (f k); simpl; [assumption|reflexivity].
Qed.

Lemma verdict_after_exception (v : validation_result) (msg : string) (rest : bool) :
  valid v = false -> recovery_feasible v = false ->
  let v' := add_issue msg v in
  valid v' = Nat.eqb (List.length (issues v')) 0 && data_integrity v' /\
  recovery_feasible v' = valid v' && rest /\
  (valid v' = true -> recovery_feasible v' = false ->
   In "Some referenced files are missing or inaccessible" (warnings v')).
Proof.
  intros Hv Hf. simpl. rewrite Hv, Hf, length_app. simpl.
  rewrite Nat.add_1_r. simpl. repeat split. discriminate.
Qed.

Lemma validate_issues_found (m : CheckpointRecoveryManager) (fs : filesystem)
  (id : json) (checkpoint_file : string) (o info : list (string * json)) :
  find_checkpoint_file m fs id = Some checkpoint_file ->
  load_json fs checkpoint_file = Ok (JObj o) ->
  get (JObj o) "checkpoint" (JObj []) = Ok (JObj info) ->
  issues (validate_checkpoint m fs id)
  = issues
      (let v1 :=
         match filter (fun k => negb (has_key k info)) required_fields with
         | [] => set_data_integrity true
         | _ =>
             add_issue ("Missing required fields: "
                        ++ join ", " (filter (fun k => negb (has_key k info)) required_fields))
         end (initial_validation id) in
       match missing_from required_state_sections
               (match lookup "full_state" o with Some s => s | None => JObj [] end),
             files_to_restore (JObj info) with
       | Ok _, Ok files =>
           if forallb is_str files then v1
           else add_issue "Validation error: TypeError" v1
       | _, _ => add_issue "Validation error: TypeError" v1
       end).
Proof.
  intros Hfind Hload Hget.
  rewrite (validate_found m fs id checkpoint_file o info Hfind Hload Hget). cbv zeta.
  set (v1 := match filter _ required_fields with [] => _ | _ => _ end (initial_validation id)).
  destruct (missing_from required_state_sections _) as [sections|e]; [|reflexivity].
  set (v2 := match sections with [] => _ | _ => _ end v1).
  assert (H2 : issues v2 = issues v1 /\ file_checks v2 = []).
  { subst v2 v1. destruct sections; destruct (filter _ required_fields); split; reflexivity. }
  destruct H2 as [Hi2 Hc2].
  destruct (files_to_restore (JObj info)) as [files|e].
  2:{ cbn [issues add_issue]. rewrite Hi2. reflexivity. }
  destruct (check_files_run m fs files v2) as (v3 & Hrun & Hi3 & _);
    [rewrite Hc2; constructor|].
  rewrite Hrun. simpl snd.
  destruct (forallb is_str files); cbn [issues add_issue conclude]; congruence.
Qed.

(** The verdict on a checkpoint whose document is at hand. *)
Lemma verdict_of_found (m : CheckpointRecoveryManager) (fs : filesystem) (id : json)
  (checkpoint_file : string) (o info : list (string * json)) :
  find_checkpoint_file m fs id = Some checkpoint_file ->
  load_json fs checkpoint_file = Ok (JObj o) ->
  get (JObj o) "checkpoint" (JObj []) = Ok (JObj info) ->
  let v := validate_checkpoint m fs id in
  data_integrity v = forallb (fun k => has_key k info) required_fields /\
  valid v = Nat.eqb (List.length (issues v)) 0 && data_integrity v /\
  recovery_feasible v
  = valid v && match files_to_restore (JObj info) with
               | Ok files => forallb (referenced_exists m fs) files
               | Raise _ => false
               end /\
  (valid v = true -> recovery_feasible v = false ->
   In "Some referenced files are missing or inaccessible" (warnings v)).
Proof.
  intros Hfind Hload Hget. cbv zeta.
  rewrite (validate_found m fs id checkpoint_file o info Hfind Hload Hget).
  cbv zeta.
  set (v1 := match filter _ required_fields with [] => _ | _ => _ end (initial_validation id)).
  assert (H1 : data_integrity v1 = forallb (fun k => has_key k info) required_fields
               /\ Nat.eqb (List.length (issues v1)) 0 = data_integrity v1
               /\ valid v1 = false /\ recovery_feasible v1 = false
               /\ file_checks v1 = []).
  { subst v1. rewrite <- filter_missing_nil.
    destruct (filter _ required_fields); simpl; repeat split. }
  destruct H1 as (Hd1 & Hi1 & Hv1 & Hf1 & Hc1).
  destruct (missing_from required_state_sections _) as [sections|e].
  2:{ split; [exact Hd1|]. apply verdict_after_exception; assumption. }
  set (v2 := match sections with [] => _ | _ => _ end v1).
  assert (H2 : data_integrity v2 = data_integrity v1 /\ issues v2 = issues v1
               /\ valid v2 = false /\ recovery_feasible v2 = false
               /\ file_checks v2 = []).
  { subst v2. destruct sections; simpl; repeat split; assumption. }
  destruct H2 as (Hd2 & Hi2 & Hv2 & Hf2 & Hc2).
  destruct (files_to_restore (JObj info)) as [files|e].
  2:{ split; [exact (eq_trans Hd2 Hd1)|]. apply verdict_after_exception; assumption. }
  destruct (check_files_run m fs files v2) as (v3 & Hrun & Hi3 & Hw3 & Hd3 & Hv3 & Hf3 & Hex);
    [rewrite Hc2; constructor|].
  rewrite Hrun. simpl snd.
  destruct (forallb is_str files) eqn:Hstr.
  2:{ split; [exact (eq_trans Hd3 (eq_trans Hd2 Hd1))|].
      assert (Hnot : forallb (referenced_exists m fs) files = false).
      { clear -Hstr. induction files as [|x l IH]; simpl in *; [discriminate|].
        destruct x; simpl in *; try reflexivity.
        rewrite (IH Hstr). apply andb_false_r. }
      rewrite Hnot. apply verdict_after_exception; congruence. }
  specialize (Hex eq_refl). rewrite Hc2 in Hex. simpl in Hex.
  split; [exact (eq_trans Hd3 (eq_trans Hd2 Hd1))|].
  unfold conclude; cbn [valid issues data_integrity recovery_feasible warnings].
  rewrite Hex, !negb_involutive.
  split; [reflexivity|]. split; [reflexivity|].
  destruct (forallb (referenced_exists m fs) files); cbn [negb].
  - rewrite andb_true_r. congruence.
  - intros _ _. apply in_or_app. right. left. reflexivity.
Qed.

(** C3.  For a checkpoint whose file is found (and therefore parses):
    [data_integrity] says that the five required fields are present; [valid]
    is "no critical issue and [data_integrity]"; [recovery_feasible] is
    "[valid] and every file of the modified/created lists exists".  A missing
    referenced file adds no issue: a valid checkpoint that is not feasible
    carries the missing-files warning, and [valid] stays true. *)
Theorem validate_verdict
  (m : CheckpointRecoveryManager) (fs : filesystem) (id : json)
  (checkpoint_file : string) :
  find_checkpoint_file m fs id = Some checkpoint_file ->
  exists doc info,
    load_json fs checkpoint_file = Ok doc /\
    get doc "checkpoint" (JObj []) = Ok (JObj info) /\
    let v := validate_checkpoint m fs id in
    data_integrity v = forallb (fun k => has_key k info) required_fields /\
    valid v = Nat.eqb (List.length (issues v)) 0 && data_integrity v /\
    recovery_feasible v
    = valid v && match files_to_restore (JObj info) with
                 | Ok files => forallb (referenced_exists m fs) files
                 | Raise _ => false
                 end /\
    (valid v = true -> recovery_feasible v = false ->
     In "Some referenced files are missing or inaccessible" (warnings v)) /\
    (forall fs2 file2,
        find_checkpoint_file m fs2 id = Some file2 ->
        load_json fs2 file2 = Ok doc ->
        issues (validate_checkpoint m fs2 id) = issues v).
Proof.
  intros Hfind.
  pose proof (find_some _ _ Hfind) as [_ Hholds].
  destruct (holds_checkpoint_document _ _ _ Hholds) as (o & info & Hload & Hget).
  exists (JObj o), info. split; [assumption|]. split; [assumption|].
  destruct (verdict_of_found m fs id checkpoint_file o info Hfind Hload Hget)
    as (A & B & C & D).
  cbv zeta. repeat split; try assumption.
  intros fs2 file2 Hfind2 Hload2.
  rewrite (validate_issues_found m fs2 id file2 o info Hfind2 Hload2 Hget).
  rewrite (validate_issues_found m fs id checkpoint_file o info Hfind Hload Hget).
  reflexivity.
Qed.

Lemma validate_verdict_witness :
  valid (validate_checkpoint Examples.manager Examples.fs_missing_file (JStr "CP001"))
    = true /\
  recovery_feasible
    (validate_checkpoint Examples.manager Examples.fs_missing_file (JStr "CP001"))
    = false /\
  issues (validate_checkpoint Examples.manager Examples.fs_missing_file (JStr "CP001"))
    = [] /\
  In "Some referenced files are missing or inaccessible"
    (warnings (validate_checkpoint Examples.manager Examples.fs_missing_file
                 (JStr "CP001"))).
Proof.
  destruct (validate_verdict Examples.manager Examples.fs_missing_file (JStr "CP001")
              "proj/progress-state/checkpoints/CP001_20251231_2300_wip.json" eq_refl)
    as (doc & info & _ & _ & _ & _ & _ & Hwarn & _).
  split; [reflexivity|]. split; [reflexivity|]. split; [reflexivity|].
  apply Hwarn; reflexivity.
Defined.

End ValidationProperties.
(** ** Recoveries that pass validation *)

Section ReplayProperties.
Import Py FS CheckpointRecovery.

Lemma referenced_exists_is_str (m : CheckpointRecoveryManager) (fs : filesystem)
  (files : list json) :
  forallb (referenced_exists m fs) files = true -> forallb is_str files = true.
Proof.
  induction files as [|x l IH]; simpl; [reflexivity|].
  intros H. apply andb_prop in H. destruct H as [Hx Hl].
  rewrite (IH Hl), andb_true_r.
  destruct x; try reflexivity; unfold referenced_exists, join_value in Hx; discriminate.
Qed.

Lemma feasible_found (m : CheckpointRecoveryManager) (fs : filesystem) (id : json) :
  recovery_feasible (validate_checkpoint m fs id) = true ->
  exists checkpoint_file o info files,
    find_checkpoint_file m fs id = Some checkpoint_file /\
    load_json fs checkpoint_file = Ok (JObj o) /\
    get (JObj o) "checkpoint" (JObj []) = Ok (JObj info) /\
    files_to_restore (JObj info) = Ok files /\
    forallb (referenced_exists m fs) files = true.
Proof.
  intros Hfeasible.
  destruct (find_checkpoint_file m fs id) as [checkpoint_file|] eqn:Hfind.
  - pose proof (find_some _ _ Hfind) as [_ Hholds].
    destruct (holds_checkpoint_document _ _ _ Hholds) as (o & info & Hload & Hget).
    destruct (verdict_of_found m fs id checkpoint_file o info Hfind Hload Hget)
      as (_ & _ & Hf & _).
    cbv zeta in Hf. rewrite Hfeasible in Hf. symmetry in Hf.
    apply andb_prop in Hf. destruct Hf as [_ Hf].
    destruct (files_to_restore (JObj info)) as [files|] eqn:Hfiles; [|discriminate].
    exists checkpoint_file, o, info, files. auto.
  - unfold validate_checkpoint, validate_body in Hfeasible.
    rewrite Hfind in Hfeasible. discriminate.
Qed.

Lemma replay_trace_files (m : CheckpointRecoveryManager) (id : json)
  (files : list json) :
  forall fs, map fst (replay_trace m id fs files) = files.
Proof.
  induction files as [|p files IH]; intros fs; simpl; [reflexivity|].
  rewrite IH. reflexivity.
Qed.

Lemma replay_all_trace (m : CheckpointRecoveryManager) (id : json)
  (files : list json) :
  forall fs r,
    let r' := snd (replay_all m id files (fs, r)) in
    files_restored r'
    = files_restored r ++ map fst (filter copied (replay_trace m id fs files)) /\
    files_failed r'
    = files_failed r ++ map fst (filter raised (replay_trace m id fs files)) /\
    state_restored r' = state_restored r /\
    success r' = success r /\
    (forall msg, In msg (messages r) -> In msg (messages r')).
Proof.
  induction files as [|p files IH]; intros fs r.
  - simpl. rewrite !app_nil_r. repeat split; auto.
  - unfold replay_all in *. cbn [fold_left replay_trace filter map].
    unfold copied at 1, raised at 1. cbn [snd fst].
    unfold replay_one at 2 4 6 8 10.
    destruct (try_replay m id fs p) as [[fs'|]|e]; cbn [map fst].
    + destruct (IH fs' (add_restored p r)) as (A & B & C & D & E).
      rewrite A, B, C, D. cbn [add_restored files_restored files_failed
                                 state_restored success messages] in *.
      rewrite <- app_assoc. repeat split; auto.
    + destruct (IH fs (add_message ("No snapshot found for " ++ Py.str p) r))
        as (A & B & C & D & E).
      rewrite A, B, C, D. cbn [add_message files_restored files_failed
                                 state_restored success messages] in *.
      repeat split; auto.
      intros msg Hin. apply E. apply in_or_app. auto.
    + destruct (IH fs (add_message ("Failed to restore " ++ Py.str p ++ ": " ++ exn_text e)
                         (add_failed p r))) as (A & B & C & D & E).
      rewrite A, B, C, D. cbn [add_message add_failed files_restored files_failed
                                 state_restored success messages] in *.
      rewrite <- app_assoc. repeat split; auto.
      intros msg Hin. apply E. apply in_or_app. auto.
Qed.

(** C4.  For a recovery that passes validation: [success] is
    "[state_restored] and [files_failed] is empty"; [state_restored] tells
    whether the overwrite of the ProgressRecord went through, and when it
    raised the exception is recorded in the messages; whatever it did, the
    replay loop then meets every file of the checkpoint's lists, in order,
    and [files_restored] / [files_failed] are exactly the files whose copy
    succeeded / raised. *)
Theorem recover_isolates_failures
  (m : CheckpointRecoveryManager) (fs : filesystem) (id : json) (clk : clock) :
  recovery_feasible (validate_checkpoint m fs id) = true ->
  exists info full_state files fs1 backup_success,
    reload_checkpoint m fs id = Ok (info, full_state) /\
    files_to_restore info = Ok files /\
    create_recovery_backup m fs clk = (fs1, backup_success) /\
    let restore :=
      restore_progress_state m fs1 clk id (utc_iso clk) backup_success full_state in
    let fs2 := match restore with Ok fs2 => fs2 | Raise _ => fs1 end in
    let trace := replay_trace m id fs2 files in
    let r := snd (recover_from_checkpoint m fs id clk) in
    success r = state_restored r && Nat.eqb (List.length (files_failed r)) 0 /\
    state_restored r = match restore with Ok _ => true | Raise _ => false end /\
    (forall e, restore = Raise e ->
       In ("Failed to restore progress state: " ++ exn_text e)%string (messages r)) /\
    map fst trace = files /\
    files_restored r = map fst (filter copied trace) /\
    files_failed r = map fst (filter raised trace).
Proof.
  intros Hfeasible.
  destruct (feasible_found m fs id Hfeasible)
    as (checkpoint_file & o & info & files & Hfind & Hload & Hget & Hfiles & _).
  assert (Hreload : reload_checkpoint m fs id
                    = Ok (JObj info,
                          match lookup "full_state" o with Some s => s | None => JObj [] end)).
  { unfold reload_checkpoint, bind. rewrite Hfind, Hload, Hget. reflexivity. }
  destruct (create_recovery_backup m fs clk) as [fs1 backup_success] eqn:Hbackup.
  exists (JObj info), (match lookup "full_state" o with Some s => s | None => JObj [] end),
    files, fs1, backup_success.
  split; [assumption|]. split; [assumption|]. split; [reflexivity|].
  cbv zeta. unfold recover_from_checkpoint.
  rewrite Hfeasible, Hreload. cbn [negb].
  unfold backup_and_restore. rewrite Hbackup, Hfiles.
  cbn [recovery_time initial_recovery].
  set (restore := restore_progress_state _ _ _ _ _ _ _).
  destruct restore as [fs2|e] eqn:Hrestore.
  - destruct (replay_all_trace m id files fs2
                (add_message "Progress state restored successfully"
                   (set_state_restored true
                      (if backup_success
                       then set_backup_created backup_success (initial_recovery id clk)
                       else add_message "Warning: Could not create recovery backup"
                              (set_backup_created backup_success (initial_recovery id clk))))))
      as (A & B & C & D & E).
    destruct (replay_all m id files _) as [fs3 r3].
    cbn [snd fst finish success state_restored files_failed files_restored
         add_message set_success messages] in *.
    rewrite A, B, C. destruct backup_success; cbn.
    all: repeat split; try apply replay_trace_files; intros; discriminate.
  - destruct (replay_all_trace m id files fs1
                (add_message ("Failed to restore progress state: " ++ exn_text e)
                   (if backup_success
                    then set_backup_created backup_success (initial_recovery id clk)
                    else add_message "Warning: Could not create recovery backup"
                           (set_backup_created backup_success (initial_recovery id clk)))))
      as (A & B & C & D & E).
    destruct (replay_all m id files _) as [fs3 r3].
    cbn [snd fst finish success state_restored files_failed files_restored
         add_message set_success messages] in *.
    rewrite A, B, C.
    assert (Hmsg : In ("Failed to restore progress state: " ++ exn_text e)%string
                     (messages r3)).
    { apply E. apply in_or_app. right. left. reflexivity. }
    destruct backup_success; cbn.
    all: repeat split; try apply replay_trace_files.
    all: intros e' He'; inversion He'; subst e'; apply in_or_app; left; exact Hmsg.
Qed.

Lemma recover_isolates_failures_witness :
  let r := snd (recover_from_checkpoint Examples.manager Examples.fs_partial
                  (JStr "CP007") Examples.clk0) in
  success r = false /\
  state_restored r = false /\
  In "Failed to restore progress state: 'metadata'" (messages r) /\
  files_failed r = [JStr "src/lib.py"] /\
  files_restored r = [JStr "src/app.py"] /\
  In "No snapshot found for docs/readme.md" (messages r).
Proof.
  destruct (recover_isolates_failures Examples.manager Examples.fs_partial
              (JStr "CP007") Examples.clk0 eq_refl)
    as (info & full_state & files & fs1 & b & _ & _ & Hb & Hs & Hr & Hm & _ & Hok & Hfail).
  clear. vm_compute. tauto.
Defined.

End ReplayProperties.

(** ** The recovery log and the restored record *)

Section EffectsOfRecovery.
Import Py FS CheckpointRecovery.

Lemma string_app_assoc (a b c : string) : ((a ++ b) ++ c = a ++ (b ++ c))%string.
Proof. induction a as [|x a IH]; simpl; [reflexivity|]. rewrite IH. reflexivity. Qed.

Lemma init_log_not_state (root : string) :
  state_file (init root) <> recovery_log (init root).
Proof.
  cbn. intros H. apply append_same_prefix in H. discriminate.
Qed.

Lemma init_log_not_backup (root stamp : string) :
  path_join (backup_dir (init root)) ("pre_recovery_" ++ stamp ++ ".json")
  <> recovery_log (init root).
Proof.
  cbn. rewrite !string_app_assoc. intros H.
  do 2 apply append_same_prefix in H. discriminate.
Qed.

Lemma write_file_denied (fs fs' : filesystem) (p : string) (d : list chunk) (t : Z) :
  write_file fs p d t = Ok fs' -> fs_denied fs' = fs_denied fs.
Proof.
  unfold write_file. destruct (is_denied fs p); [discriminate|].
  intros H; inversion H; reflexivity.
Qed.

Lemma copy2_denied (fs fs' : filesystem) (src dst : string) :
  copy2 fs src dst = Ok fs' -> fs_denied fs' = fs_denied fs.
Proof.
  unfold copy2. destruct (lookup_file fs src) as [f|]; [|discriminate].
  destruct (negb (f_readable f)); [discriminate|].
  destruct (String.eqb src dst); [discriminate|].
  destruct (is_denied fs dst); [discriminate|].
  intros H; inversion H; reflexivity.
Qed.

Lemma try_replay_copied (m : CheckpointRecoveryManager) (id : json)
  (fs fs' : filesystem) (p : json) :
  try_replay m id fs p = Ok (Copied fs') ->
  exists snapshot target,
    join_value (project_root m) p = Ok target /\ copy2 fs snapshot target = Ok fs'.
Proof.
  unfold try_replay, bind.
  destruct (join_value (snapshots_dir m) id) as [d|]; [|discriminate].
  destruct (join_value d p) as [snapshot|]; [|discriminate].
  destruct (exists_ fs snapshot); [|discriminate].
  destruct (join_value (project_root m) p) as [target|]; [|discriminate].
  destruct (copy2 fs snapshot target) as [fs2|] eqn:Hc; [|discriminate].
  intros H; inversion H; subst. eauto.
Qed.

(** The replay leaves alone every path that is not the target of a copy. *)
Lemma replay_all_elsewhere (m : CheckpointRecoveryManager) (id : json) (q : string)
  (files : list json) :
  forall fs r,
    (forall p, In p (map fst (filter copied (replay_trace m id fs files))) ->
               join_value (project_root m) p <> Ok q) ->
    data_of (fst (replay_all m id files (fs, r))) q = data_of fs q /\
    fs_denied (fst (replay_all m id files (fs, r))) = fs_denied fs.
Proof.
  induction files as [|p files IH]; intros fs r Hq; [split; reflexivity|].
  unfold replay_all in *. cbn [fold_left]. unfold replay_one at 2 4.
  cbn [replay_trace filter] in Hq. unfold copied at 1 in Hq. cbn [snd] in Hq.
  destruct (try_replay m id fs p) as [[fs'|]|e] eqn:Ht.
  - destruct (try_replay_copied _ _ _ _ _ Ht) as (snapshot & target & Hj & Hc).
    destruct (IH fs' (add_restored p r)) as [A B].
    { intros p' Hin. apply Hq. right. exact Hin. }
    rewrite A, B. split.
    + eapply copy2_data_other; [eassumption|].
      intros ->. apply (Hq p); [left; reflexivity|assumption].
    + eapply copy2_denied; eassumption.
  - apply IH. exact Hq.
  - apply IH. exact Hq.
Qed.

Lemma replay_all_denied (m : CheckpointRecoveryManager) (id : json)
  (files : list json) :
  forall fs r, fs_denied (fst (replay_all m id files (fs, r))) = fs_denied fs.
Proof.
  induction files as [|p files IH]; intros fs r; [reflexivity|].
  unfold replay_all in *. cbn [fold_left]. unfold replay_one at 2.
  destruct (try_replay m id fs p) as [[fs'|]|e] eqn:Ht; rewrite IH; [|reflexivity..].
  destruct (try_replay_copied _ _ _ _ _ Ht) as (snapshot & target & _ & Hc).
  eapply copy2_denied; eassumption.
Qed.

Lemma log_recovery_operation_appends (m : CheckpointRecoveryManager)
  (fs : filesystem) (clk : clock) (id : json) (r : recovery_result) :
  is_denied fs (recovery_log m) = false ->
  append_line fs (recovery_log m) (log_entry clk id r) (now clk)
  = Ok (log_recovery_operation m fs clk id r).
Proof.
  intros Hd. unfold log_recovery_operation, append_line, write_file.
  rewrite Hd. reflexivity.
Qed.

Lemma backup_and_restore_effects (m : CheckpointRecoveryManager) (fs : filesystem)
  (clk : clock) (id full_state : json) (r : recovery_result) :
  let fs2 := fst (backup_and_restore m fs clk id full_state r) in
  let r2 := snd (backup_and_restore m fs clk id full_state r) in
  fs_denied fs2 = fs_denied fs /\
  files_restored r2 = files_restored r /\
  (forall q,
      q <> state_file m ->
      q <> path_join (backup_dir m) ("pre_recovery_" ++ local_second clk ++ ".json") ->
      data_of fs2 q = data_of fs q) /\
  (state_restored r = false -> state_restored r2 = true ->
   exists stamped b,
     stamp_recovery clk id (recovery_time r) b full_state = Ok stamped /\
     data_of fs2 (state_file m) = [Json stamped]).
Proof.
  cbv zeta. unfold backup_and_restore.
  assert (Hb : fs_denied (fst (create_recovery_backup m fs clk)) = fs_denied fs /\
               forall q,
                 q <> path_join (backup_dir m)
                        ("pre_recovery_" ++ local_second clk ++ ".json") ->
                 data_of (fst (create_recovery_backup m fs clk)) q = data_of fs q).
  { unfold create_recovery_backup. destruct (negb _); [split; reflexivity|].
    destruct (copy2 fs _ _) as [fs'|] eqn:Hc; [|split; reflexivity]. split.
    - eapply copy2_denied; eassumption.
    - intros q Hq. eapply copy2_data_other; [eassumption|]. congruence. }
  destruct (create_recovery_backup m fs clk) as [fs1 b]. cbn [fst] in Hb.
  destruct Hb as [Hd Hdata].
  unfold restore_progress_state, bind, dump_json.
  destruct (stamp_recovery clk id (recovery_time r) b full_state) as [stamped|e] eqn:Hs.
  - destruct (write_file fs1 (state_file m) [Json stamped] (now clk)) as [fs2|e] eqn:Hw.
    + destruct (write_file_data _ _ _ _ _ Hw) as [Hsame Hother].
      cbn [fst snd]. split; [rewrite (write_file_denied _ _ _ _ _ Hw); exact Hd|].
      split; [destruct b; reflexivity|]. split.
      * intros q Hq1 Hq2. rewrite Hother; [apply Hdata; assumption|congruence].
      * intros _ _. exists stamped, b. auto.
    + cbn [fst snd]. split; [exact Hd|]. split; [destruct b; reflexivity|]. split.
      * intros q _ Hq2. apply Hdata; assumption.
      * intros H0 H1. destruct b; cbn in H1; congruence.
  - cbn [fst snd]. split; [exact Hd|]. split; [destruct b; reflexivity|]. split.
    + intros q _ Hq2. apply Hdata; assumption.
    + intros H0 H1. destruct b; cbn in H1; congruence.
Qed.

Lemma recover_feasible_steps (m : CheckpointRecoveryManager) (fs : filesystem)
  (id : json) (clk : clock) :
  recovery_feasible (validate_checkpoint m fs id) = true ->
  exists o info files,
    stored_document m fs id = Some (JObj o) /\
    get (JObj o) "checkpoint" (JObj []) = Ok (JObj info) /\
    files_to_restore (JObj info) = Ok files /\
    recover_from_checkpoint m fs id clk
    = let st2 := backup_and_restore m fs clk id
                   (match lookup "full_state" o with Some s => s | None => JObj [] end)
                   (initial_recovery id clk) in
      let st3 := replay_all m id files st2 in
      (log_recovery_operation m (fst st3) clk id (snd st3), finish id (snd st3)).
Proof.
  intros Hfeasible.
  destruct (feasible_found m fs id Hfeasible)
    as (checkpoint_file & o & info & files & Hfind & Hload & Hget & Hfiles & _).
  exists o, info, files.
  split; [unfold stored_document; rewrite Hfind, Hload; reflexivity|].
  split; [assumption|]. split; [assumption|].
  unfold recover_from_checkpoint, reload_checkpoint, bind.
  rewrite Hfeasible, Hfind, Hload, Hget. cbn [negb get].
  destruct (backup_and_restore _ _ _ _ _ _) as [fs2 r2]. rewrite Hfiles. cbv zeta.
  destruct (replay_all m id files (fs2, r2)) as [fs3 r3]. reflexivity.
Qed.

Lemma log_recovery_operation_effects (m : CheckpointRecoveryManager)
  (fs : filesystem) (clk : clock) (id : json) (r : recovery_result) :
  (forall q, q <> recovery_log m ->
     data_of (log_recovery_operation m fs clk id r) q = data_of fs q) /\
  (is_denied fs (recovery_log m) = false ->
   data_of (log_recovery_operation m fs clk id r) (recovery_log m)
   = data_of fs (recovery_log m) ++ [Json (log_entry clk id r)]).
Proof.
  unfold log_recovery_operation, append_line.
  destruct (write_file fs (recovery_log m) _ (now clk)) as [fs'|e] eqn:Hw.
  - destruct (write_file_data _ _ _ _ _ Hw) as [Hsame Hother]. split.
    + intros q Hq. apply Hother. congruence.
    + intros _. exact Hsame.
  - split; [reflexivity|]. intros Hd. unfold write_file in Hw.
    rewrite Hd in Hw. discriminate.
Qed.

(** C5, as the code has it.  A call that passes the feasibility gate ends
    with one append to the recovery log, of one record naming the operation
    and the checkpoint, provided the log can be written; the records that
    were in the log when the call started are still in front of it unless a
    replayed snapshot was copied over the log file itself.  A call rejected
    by the gate returns before the logging step and leaves the log, like
    every other file, as it was. *)
Theorem recovery_log_grows_by_one
  (root : string) (fs : filesystem) (id : json) (clk : clock) :
  let m := init root in
  let fs' := fst (recover_from_checkpoint m fs id clk) in
  let r := snd (recover_from_checkpoint m fs id clk) in
  (recovery_feasible (validate_checkpoint m fs id) = false -> fs' = fs) /\
  (recovery_feasible (validate_checkpoint m fs id) = true ->
   is_denied fs (recovery_log m) = false ->
   exists before entry,
     append_line before (recovery_log m) entry (now clk) = Ok fs' /\
     data_of fs' (recovery_log m) = data_of before (recovery_log m) ++ [Json entry] /\
     field1 entry "operation" = Some (JStr "CHECKPOINT_RECOVERY") /\
     field1 entry "checkpoint_id" = Some id /\
     ((forall p, In p (files_restored r) -> join_value root p <> Ok (recovery_log m)) ->
      data_of before (recovery_log m) = data_of fs (recovery_log m))).
Proof.
  cbv zeta. split.
  - intros Hrej.
    rewrite (recover_rejected (init root) fs id clk Hrej). reflexivity.
  - intros Hfeasible Hdenied.
    destruct (recover_feasible_steps (init root) fs id clk Hfeasible)
      as (o & info & files & _ & _ & _ & Hsteps).
    rewrite Hsteps in *. cbv zeta in *. cbn [fst snd] in *.
    set (full_state := match lookup "full_state" o with Some s => s | None => JObj [] end) in *.
    destruct (backup_and_restore_effects (init root) fs clk id full_state
                (initial_recovery id clk)) as (Hden2 & Hrest2 & Hdata2 & _).
    destruct (backup_and_restore (init root) fs clk id full_state (initial_recovery id clk))
      as [fs2 r2]. cbn [fst snd] in *.
    destruct (replay_all_trace (init root) id files fs2 r2) as (Hrest3 & _).
    pose proof (replay_all_denied (init root) id files fs2 r2) as Hden3.
    assert (Hd3 : is_denied (fst (replay_all (init root) id files (fs2, r2)))
                    (recovery_log (init root)) = false).
    { unfold is_denied in *. rewrite Hden3, Hden2. exact Hdenied. }
    destruct (log_recovery_operation_effects (init root)
                (fst (replay_all (init root) id files (fs2, r2))) clk id
                (snd (replay_all (init root) id files (fs2, r2)))) as [_ Hlog].
    exists (fst (replay_all (init root) id files (fs2, r2))),
      (log_entry clk id (snd (replay_all (init root) id files (fs2, r2)))).
    split; [apply log_recovery_operation_appends; exact Hd3|].
    split; [apply Hlog; exact Hd3|].
    split; [reflexivity|]. split; [reflexivity|].
    intros Htargets.
    destruct (replay_all_elsewhere (init root) id (recovery_log (init root)) files fs2 r2)
      as [Hdata3 _].
    { intros p Hin. apply Htargets. cbn [finish files_restored add_message set_success].
      rewrite Hrest3, Hrest2. cbn. exact Hin. }
    rewrite Hdata3, Hdata2; [reflexivity| |].
    + intros H. symmetry in H. exact (init_log_not_state root H).
    + intros H. symmetry in H. exact (init_log_not_backup root _ H).
Qed.

Lemma recovery_log_grows_by_one_witness :
  exists entry,
    data_of (fst (recover_from_checkpoint Examples.manager Examples.fs_feasible
                    (JStr "CP001") Examples.clk0))
      (recovery_log Examples.manager)
    = data_of Examples.fs_feasible (recovery_log Examples.manager) ++ [Json entry] /\
    field1 entry "operation" = Some (JStr "CHECKPOINT_RECOVERY") /\
    field1 entry "checkpoint_id" = Some (JStr "CP001").
Proof.
  destruct (recovery_log_grows_by_one Examples.root Examples.fs_feasible
              (JStr "CP001") Examples.clk0) as [_ H].
  destruct (H eq_refl eq_refl) as (before & entry & _ & Hdata & Hop & Hid & Hsame).
  exists entry. split; [|split; assumption].
  refine (eq_trans Hdata _). f_equal. apply Hsame.
  intros p Hin. vm_compute in Hin. destruct Hin as [<-|[]]. vm_compute. discriminate.
Defined.

(** The claim C5 as the specification states it fails: a recovery that the
    feasibility gate rejects adds no record to the recovery log. *)
Lemma rejected_recovery_is_not_logged :
  recovery_feasible
    (validate_checkpoint Examples.manager Examples.fs_missing_file (JStr "CP001"))
    = false /\
  ~ exists entry,
      data_of (fst (recover_from_checkpoint Examples.manager Examples.fs_missing_file
                      (JStr "CP001") Examples.clk0))
        (recovery_log Examples.manager)
      = data_of Examples.fs_missing_file (recovery_log Examples.manager) ++ [entry].
Proof.
  split; [reflexivity|]. intros [entry H]. vm_compute in H. discriminate.
Qed.

(** *** The round trip through a checkpoint *)

Lemma setitem2_shape (d d' : json) (k1 k2 : string) (v : json) :
  setitem2 d k1 k2 v = Ok d' ->
  exists o inner,
    d = JObj o /\ lookup k1 o = Some (JObj inner) /\
    d' = JObj (update k1 (JObj (update k2 v inner)) o).
Proof.
  unfold setitem2, bind, getitem, setitem.
  destruct d as [| | | | |o]; try discriminate.
  destruct (lookup k1 o) as [inner|] eqn:Hl; [|discriminate].
  destruct inner as [| | | | |i]; try discriminate.
  intros H; inversion H; subst. eauto.
Qed.

Lemma field1_update (o : list (string * json)) (k k' : string) (v : json) :
  k' <> k -> field1 (JObj (update k' v o)) k = field1 (JObj o) k.
Proof.
  intros Hne. simpl. rewrite lookup_update.
  destruct (String.eqb k' k) eqn:E; [apply String.eqb_eq in E; contradiction|reflexivity].
Qed.

Lemma field2_update_other (o : list (string * json)) (k1 k2 k' : string) (v : json) :
  k' <> k1 -> field2 (JObj (update k' v o)) k1 k2 = field2 (JObj o) k1 k2.
Proof.
  intros Hne. unfold field2. rewrite lookup_update.
  destruct (String.eqb k' k1) eqn:E; [apply String.eqb_eq in E; contradiction|reflexivity].
Qed.

Lemma field2_update_inner (o inner : list (string * json)) (k1 k2 k : string) (v : json) :
  lookup k1 o = Some (JObj inner) -> k2 <> k ->
  field2 (JObj (update k1 (JObj (update k2 v inner)) o)) k1 k = field2 (JObj o) k1 k.
Proof.
  intros Hl Hne. unfold field2. rewrite lookup_update, String.eqb_refl, Hl, lookup_update.
  destruct (String.eqb k2 k) eqn:E; [apply String.eqb_eq in E; contradiction|reflexivity].
Qed.

(** Stamping touches [metadata.last_updated], [current_session.session_id],
    [current_session.last_activity] and [recovery_history], nothing else. *)
Lemma stamp_recovery_keeps (clk : clock) (id : json) (t : string) (b : bool)
  (captured stamped : json) :
  stamp_recovery clk id t b captured = Ok stamped ->
  (forall k, k <> "metadata" -> k <> "current_session" -> k <> "recovery_history" ->
             field1 stamped k = field1 captured k) /\
  (forall k, k <> "last_updated" ->
             field2 stamped "metadata" k = field2 captured "metadata" k) /\
  (forall k, k <> "session_id" -> k <> "last_activity" ->
             field2 stamped "current_session" k = field2 captured "current_session" k).
Proof.
  unfold stamp_recovery, bind.
  destruct (setitem2 captured _ _ _) as [s1|] eqn:E1; [|discriminate].
  destruct (setitem2 s1 _ _ _) as [s2|] eqn:E2; [|discriminate].
  destruct (setitem2 s2 _ _ _) as [s3|] eqn:E3; [|discriminate].
  destruct (setitem2_shape _ _ _ _ _ E1) as (o0 & i0 & -> & L0 & ->).
  destruct (setitem2_shape _ _ _ _ _ E2) as (o1 & i1 & H1 & L1 & ->).
  destruct (setitem2_shape _ _ _ _ _ E3) as (o2 & i2 & H2 & L2 & ->).
  injection H1 as <-. injection H2 as <-.
  set (o3 := update "current_session" _ (update "current_session" _ _)) in *.
  cbn [contains].
  assert (Hfinal : forall s4,
            (if has_key "recovery_history" o3 then Ok (JObj o3)
             else setitem (JObj o3) "recovery_history" (JArr [])) = Ok s4 ->
            forall entry,
              append_at s4 "recovery_history" entry = Ok stamped ->
              exists o5, stamped = JObj o5 /\
                         forall k, k <> "recovery_history" -> lookup k o5 = lookup k o3).
  { intros s4 Hs4 entry Ha.
    assert (exists o4, s4 = JObj o4 /\
                       forall k, k <> "recovery_history" -> lookup k o4 = lookup k o3)
      as (o4 & -> & Ho4).
    { destruct (has_key "recovery_history" o3); cbn in Hs4; inversion Hs4; subst.
      - exists o3. auto.
      - eexists. split; [reflexivity|]. intros k Hk. rewrite lookup_update.
        destruct (String.eqb "recovery_history" k) eqn:E;
          [apply String.eqb_eq in E; congruence|reflexivity]. }
    unfold append_at, bind, getitem, setitem in Ha.
    destruct (lookup "recovery_history" o4) as [l|]; [|discriminate].
    destruct l; try discriminate. inversion Ha; subst.
    eexists. split; [reflexivity|]. intros k Hk. rewrite lookup_update.
    destruct (String.eqb "recovery_history" k) eqn:E;
      [apply String.eqb_eq in E; congruence|apply Ho4; assumption]. }
  destruct (if has_key "recovery_history" o3 then _ else _) as [s4|] eqn:E4;
    [|discriminate].
  intros Ha. destruct (Hfinal s4 eq_refl _ Ha) as (o5 & -> & Ho5).
  assert (Hcs : lookup "current_session" o0 = Some (JObj i1)).
  { rewrite lookup_update in L1. cbn in L1. exact L1. }
  assert (Hi2 : i2 = update "session_id" (JStr ("recovery_" ++ local_minute clk)) i1).
  { rewrite lookup_update, String.eqb_refl in L2. injection L2 as L2.
    symmetry. exact L2. }
  split; [|split].
  - intros k Hm Hc Hr. cbn [field1]. rewrite (Ho5 k Hr). subst o3.
    rewrite !lookup_update.
    destruct (String.eqb "current_session" k) eqn:E;
      [apply String.eqb_eq in E; congruence|].
    destruct (String.eqb "metadata" k) eqn:E';
      [apply String.eqb_eq in E'; congruence|reflexivity].
  - intros k Hk. unfold field2. rewrite (Ho5 "metadata") by discriminate. subst o3.
    rewrite !lookup_update. cbn. rewrite L0, lookup_update.
    destruct (String.eqb "last_updated" k) eqn:E;
      [apply String.eqb_eq in E; congruence|reflexivity].
  - intros k Hk1 Hk2. unfold field2.
    rewrite (Ho5 "current_session") by discriminate. subst o3.
    rewrite lookup_update, String.eqb_refl, Hcs, Hi2, !lookup_update.
    destruct (String.eqb "last_activity" k) eqn:E;
      [apply String.eqb_eq in E; congruence|].
    destruct (String.eqb "session_id" k) eqn:E';
      [apply String.eqb_eq in E'; congruence|reflexivity].
Qed.

(** C8.  When the checkpoint stored under [id] embeds the ProgressRecord
    [captured], a recovery from it that reports [state_restored] has written
    over the live ProgressRecord a record with the phase, the active task and
    the progress percentage of [captured]; the two records differ only in
    [metadata.last_updated], [current_session.session_id],
    [current_session.last_activity] and [recovery_history].  That record is
    the live one when the call returns, unless the replay that follows the
    restore copied a snapshot over the ProgressRecord file itself. *)
Theorem recover_round_trip
  (root : string) (fs : filesystem) (id : json) (clk : clock) (doc captured : json) :
  let m := init root in
  let fs' := fst (recover_from_checkpoint m fs id clk) in
  let r := snd (recover_from_checkpoint m fs id clk) in
  let restored_fs :=
    fst (backup_and_restore m fs clk id captured (initial_recovery id clk)) in
  stored_document m fs id = Some doc ->
  field1 doc "full_state" = Some captured ->
  state_restored r = true ->
  exists restored,
    data_of restored_fs (state_file m) = [Json restored] /\
    phase_of restored = phase_of captured /\
    active_task_of restored = active_task_of captured /\
    progress_of restored = progress_of captured /\
    (forall k, k <> "metadata" -> k <> "current_session" -> k <> "recovery_history" ->
               field1 restored k = field1 captured k) /\
    (forall k, k <> "last_updated" ->
               field2 restored "metadata" k = field2 captured "metadata" k) /\
    (forall k, k <> "session_id" -> k <> "last_activity" ->
               field2 restored "current_session" k = field2 captured "current_session" k) /\
    ((forall p, In p (files_restored r) -> join_value root p <> Ok (state_file m)) ->
     data_of fs' (state_file m) = [Json restored]).
Proof.
  cbv zeta. intros Hdoc Hcaptured Hrestored.
  destruct (recovery_feasible (validate_checkpoint (init root) fs id)) eqn:Hfeasible.
  2:{ rewrite (recover_rejected (init root) fs id clk Hfeasible) in Hrestored.
      cbn in Hrestored. congruence. }
  destruct (recover_feasible_steps (init root) fs id clk Hfeasible)
    as (o & info & files & Hdoc' & _ & _ & Hsteps).
  rewrite Hdoc in Hdoc'. injection Hdoc' as ->. cbn [field1] in Hcaptured.
  rewrite Hsteps in *. rewrite Hcaptured in *. cbv zeta in *. cbn [fst snd] in *.
  destruct (backup_and_restore_effects (init root) fs clk id captured
              (initial_recovery id clk)) as (_ & Hrest2 & _ & Hstate2).
  destruct (backup_and_restore (init root) fs clk id captured (initial_recovery id clk))
    as [fs2 r2]. cbn [fst snd] in *.
  destruct (replay_all_trace (init root) id files fs2 r2) as (Hrest3 & _ & Hsr3 & _).
  destruct (log_recovery_operation_effects (init root)
              (fst (replay_all (init root) id files (fs2, r2))) clk id
              (snd (replay_all (init root) id files (fs2, r2)))) as [Hlog _].
  cbn [finish state_restored add_message set_success] in Hrestored.
  rewrite Hsr3 in Hrestored.
  destruct (Hstate2 eq_refl Hrestored) as (stamped & b & Hstamp & Hdata2).
  destruct (stamp_recovery_keeps _ _ _ _ _ _ Hstamp) as (K1 & K2 & K3).
  exists stamped. split; [exact Hdata2|].
  unfold phase_of, active_task_of, progress_of.
  split; [apply K2; discriminate|]. split; [apply K3; discriminate|].
  split; [apply K2; discriminate|].
  split; [exact K1|]. split; [exact K2|]. split; [exact K3|].
  intros Htargets.
  destruct (replay_all_elsewhere (init root) id (state_file (init root)) files fs2 r2)
    as [Hdata3 _].
  { intros p Hin. apply Htargets. cbn [finish files_restored add_message set_success].
    rewrite Hrest3, Hrest2. cbn. exact Hin. }
  rewrite Hlog by apply init_log_not_state. rewrite Hdata3. exact Hdata2.
Qed.

Lemma recover_round_trip_witness :
  exists restored,
    data_of (fst (recover_from_checkpoint Examples.manager Examples.fs_later
                    (JStr "AUTO_CP001") Examples.clk0))
      (state_file Examples.manager) = [Json restored] /\
    phase_of restored = Some (JNum 2) /\
    active_task_of restored = Some (JStr "P2.1") /\
    progress_of restored = Some (JNum 40).
Proof.
  destruct (recover_round_trip Examples.root Examples.fs_later (JStr "AUTO_CP001")
              Examples.clk0 Examples.stored_later
              (Examples.progress_record 2 "P2.1" 40))
    as (restored & _ & Hphase & Htask & Hprogress & _ & _ & _ & Hlive).
  - vm_compute. reflexivity.
  - vm_compute. reflexivity.
  - vm_compute. reflexivity.
  - exists restored. split; [|repeat split; assumption].
    apply Hlive. intros p Hin. vm_compute in Hin. tauto.
Defined.

End EffectsOfRecovery.

(** ** The trigger daemon *)

Section DaemonProperties.
Import Py FS AutoCheckpoint.

Lemma names_put_file (P : string -> bool) (p : string) (f : file)
  (l : list (string * file)) :
  (List.length (filter P (map fst (put_file p f l)))
   <= S (List.length (filter P (map fst l))))%nat.
Proof.
  induction l as [|[q g] l IH]; simpl.
  - destruct (P p); simpl; lia.
  - destruct (String.eqb q p) eqn:E; simpl.
    + apply String.eqb_eq in E; subst q. lia.
    + destruct (P q); simpl; lia.
Qed.

Lemma names_put_existing (p : string) (f : file) (l : list (string * file)) :
  find_file p l <> None -> map fst (put_file p f l) = map fst l.
Proof.
  induction l as [|[q g] l IH]; simpl; [congruence|].
  destruct (String.eqb q p) eqn:E; simpl.
  - intros _. apply String.eqb_eq in E; subst q. reflexivity.
  - intros H. rewrite (IH H). reflexivity.
Qed.

Lemma names_remove_file (P : string -> bool) (p : string) (l : list (string * file)) :
  (List.length (filter P (map fst (remove_file p l)))
   <= List.length (filter P (map fst l)))%nat.
Proof.
  induction l as [|[q g] l IH]; simpl; [lia|].
  destruct (String.eqb q p); simpl.
  - destruct (P q); simpl; lia.
  - destruct (P q); simpl; lia.
Qed.

Lemma names_unlink_all (P : string -> bool) (l : list string) :
  forall fs,
    (List.length (filter P (map fst (fs_files (unlink_all fs l))))
     <= List.length (filter P (map fst (fs_files fs))))%nat.
Proof.
  induction l as [|p l IH]; intros fs; simpl; [lia|].
  unfold unlink. destruct (negb (exists_ fs p)); [lia|].
  destruct (is_denied fs p); [lia|].
  etransitivity; [apply IH|]. simpl. apply names_remove_file.
Qed.

Lemma names_cleanup (P : string -> bool) (d : AutoCheckpointDaemon) (fs : filesystem) :
  (List.length (filter P (map fst (fs_files (cleanup_old_checkpoints d fs))))
   <= List.length (filter P (map fst (fs_files fs))))%nat.
Proof.
  unfold cleanup_old_checkpoints. destruct (_ <? _)%nat; [|lia].
  apply names_unlink_all.
Qed.

Lemma write_file_exists (fs fs' : filesystem) (p q : string) (c : list chunk) (t : Z) :
  write_file fs p c t = Ok fs' -> exists_ fs q = true -> exists_ fs' q = true.
Proof.
  unfold write_file. destruct (is_denied fs p); [discriminate|].
  intros H; inversion H; subst; clear H.
  unfold exists_, lookup_file, set_file. simpl. rewrite find_file_put.
  destruct (String.eqb p q); auto.
Qed.

(** One call of [_create_auto_checkpoint] adds at most one name to any set of
    files picked by name, in particular to the checkpoint directory. *)
Lemma create_adds_at_most_one (P : string -> bool) (h : host)
  (d : AutoCheckpointDaemon) (fs : filesystem) (clk : clock) (reason : string) :
  (List.length (filter P (map fst (fs_files (create_auto_checkpoint h d fs clk reason))))
   <= S (List.length (filter P (map fst (fs_files fs)))))%nat.
Proof.
  unfold create_auto_checkpoint.
  destruct (exists_ fs (state_file d)) eqn:Hex; simpl; [|lia].
  unfold create_body, write_checkpoint, record_checkpoint,
    mbind, reading, updating, lift, modify, mret.
  destruct (load_json fs (state_file d)) as [state|]; simpl; [|lia].
  destruct (checkpoint_record _ _ _ _ _ _) as [checkpoint|]; simpl; [|lia].
  unfold dump_json.
  destruct (write_file fs _ _ _) as [fs1|] eqn:Hw1; simpl; [|lia].
  assert (H1 : (List.length (filter P (map fst (fs_files fs1)))
                <= S (List.length (filter P (map fst (fs_files fs)))))%nat).
  { unfold write_file in Hw1. destruct (is_denied fs _); [discriminate|].
    inversion Hw1; subst. simpl. apply names_put_file. }
  pose proof (write_file_exists _ _ _ (state_file d) _ _ Hw1 Hex) as Hex1.
  destruct (note_checkpoint _ _ _ _ _) as [state'|]; simpl; [|exact H1].
  destruct (write_file fs1 _ _ _) as [fs2|] eqn:Hw2; simpl; [|exact H1].
  etransitivity; [apply names_cleanup|].
  unfold write_file in Hw2. destruct (is_denied fs1 _); [discriminate|].
  inversion Hw2; subst. simpl. rewrite names_put_existing; [exact H1|].
  unfold exists_, lookup_file in Hex1.
  destruct (find_file (state_file d) (fs_files fs1)); congruence.
Qed.

Section Cycle.
Variable md5 : list chunk -> string.

(** C6.  One decision cycle requests at most one checkpoint creation, with
    the reason chosen in the order TIME_BASED, ACTIVITY_BASED, STATE_CHANGE,
    and that creation adds at most one file to the checkpoint directory; on
    firing, the timer is set to the cycle's clock reading and the change
    counter to 0.  In particular a cycle run exactly one interval after the
    last checkpoint fires TIME_BASED whatever the counter and the record are,
    and no later cycle fires TIME_BASED before another interval has
    elapsed. *)
Theorem checkpoint_cycle_fires_at_most_once
  (h : host) (d : AutoCheckpointDaemon) (fs : filesystem) (clk : clock)
  (d' : AutoCheckpointDaemon) (fs' : filesystem) (fired : option string) :
  checkpoint_cycle md5 h d fs clk = (d', fs', fired) ->
  let elapsed := (now clk - last_checkpoint_time d)%Z in
  ((checkpoint_interval d <= elapsed)%Z -> fired = Some "TIME_BASED") /\
  ((elapsed < checkpoint_interval d)%Z ->
   (activity_threshold d <= file_change_count d)%nat ->
   fired = Some "ACTIVITY_BASED") /\
  ((elapsed < checkpoint_interval d)%Z ->
   (file_change_count d < activity_threshold d)%nat ->
   fired = if fst (state_changed md5 d fs) then Some "STATE_CHANGE" else None) /\
  (forall reason,
      fired = Some reason ->
      fs' = create_auto_checkpoint h d fs clk reason /\
      last_checkpoint_time d' = now clk /\
      file_change_count d' = 0%nat) /\
  (fired = None ->
   fs' = fs /\
   last_checkpoint_time d' = last_checkpoint_time d /\
   file_change_count d' = file_change_count d) /\
  (List.length (glob fs' (checkpoints_dir d) "" ".json")
   <= S (List.length (glob fs (checkpoints_dir d) "" ".json")))%nat /\
  (elapsed = checkpoint_interval d ->
   fired = Some "TIME_BASED" /\
   forall fs2 clk2,
     (now clk2 - now clk < checkpoint_interval d)%Z ->
     snd (checkpoint_cycle md5 h d' fs2 clk2) <> Some "TIME_BASED").
Proof.
  intros Hcycle. cbv zeta.
  unfold checkpoint_cycle, decide in Hcycle. cbv zeta in Hcycle.
  assert (Hlater : forall d1,
            last_checkpoint_time d1 = now clk ->
            checkpoint_interval d1 = checkpoint_interval d ->
            forall fs2 clk2,
              (now clk2 - now clk < checkpoint_interval d)%Z ->
              snd (checkpoint_cycle md5 h d1 fs2 clk2) <> Some "TIME_BASED").
  { intros d1 Hl Hi fs2 clk2 Hlt. unfold checkpoint_cycle, decide. cbv zeta.
    rewrite Hl, Hi.
    destruct (Z.leb_spec (checkpoint_interval d) (now clk2 - now clk)); [lia|].
    destruct (activity_threshold d1 <=? file_change_count d1)%nat; [simpl; discriminate|].
    destruct (state_changed md5 d1 fs2) as [[|] d2]; simpl; discriminate. }
  assert (Hone : forall reason,
            (List.length (glob (create_auto_checkpoint h d fs clk reason)
                            (checkpoints_dir d) "" ".json")
             <= S (List.length (glob fs (checkpoints_dir d) "" ".json")))%nat).
  { intros reason. apply create_adds_at_most_one. }
  destruct (Z.leb_spec (checkpoint_interval d) (now clk - last_checkpoint_time d))
    as [Htime|Htime].
  - inversion Hcycle; subst; clear Hcycle.
    repeat split; intros; try reflexivity; try lia; try discriminate;
      try (match goal with H : Some _ = Some _ |- _ => inversion H; reflexivity end).
    + apply Hone.
    + apply Hlater; [reflexivity|reflexivity|assumption].
  - destruct (Nat.leb_spec (activity_threshold d) (file_change_count d)) as [Hact|Hact].
    + inversion Hcycle; subst; clear Hcycle.
      repeat split; intros; try reflexivity; try lia; try discriminate;
        try (match goal with H : Some _ = Some _ |- _ => inversion H; reflexivity end).
      apply Hone.
    + assert (Hsame : forall x reason,
                create_auto_checkpoint h (set_last_state_hash d x) fs clk reason
                = create_auto_checkpoint h d fs clk reason) by reflexivity.
      assert (Hd1 : forall reason,
                create_auto_checkpoint h (snd (state_changed md5 d fs)) fs clk reason
                = create_auto_checkpoint h d fs clk reason).
      { intros reason. unfold state_changed.
        destruct (negb (exists_ fs (state_file d))); [reflexivity|].
        destruct (open_read fs (state_file d)); [|reflexivity].
        destruct (last_state_hash d); [|apply Hsame].
        destruct (negb (String.eqb _ _)); [apply Hsame|reflexivity]. }
      assert (Hkeep : last_checkpoint_time (snd (state_changed md5 d fs))
                      = last_checkpoint_time d /\
                      file_change_count (snd (state_changed md5 d fs))
                      = file_change_count d).
      { unfold state_changed.
        destruct (negb (exists_ fs (state_file d))); [split; reflexivity|].
        destruct (open_read fs (state_file d)); [|split; reflexivity].
        destruct (last_state_hash d); [|split; reflexivity].
        destruct (negb (String.eqb _ _)); split; reflexivity. }
      destruct (state_changed md5 d fs) as [[|] d1]; cbn [fst snd] in *;
        inversion Hcycle; subst; clear Hcycle.
      * repeat split; intros; try reflexivity; try lia; try discriminate;
          try (match goal with H : Some _ = Some _ |- _ => inversion H; subst end);
          try apply Hd1.
        rewrite Hd1. apply Hone.
      * repeat split; intros; try reflexivity; try lia; try discriminate; apply Hkeep.
Qed.

End Cycle.

Lemma checkpoint_cycle_fires_at_most_once_witness :
  let cycle := checkpoint_cycle Examples.digest Examples.this_host Examples.daemon
                 Examples.fs_start Examples.clk_interval in
  file_change_count Examples.daemon = 0%nat /\
  snd cycle = Some "TIME_BASED" /\
  last_checkpoint_time (fst (fst cycle)) = 1800%Z /\
  snd (checkpoint_cycle Examples.digest Examples.this_host (fst (fst cycle))
         (snd (fst cycle)) Examples.clk_minute_later) <> Some "TIME_BASED".
Proof.
  cbv zeta.
  set (cycle := checkpoint_cycle Examples.digest Examples.this_host Examples.daemon
                  Examples.fs_start Examples.clk_interval).
  destruct (checkpoint_cycle_fires_at_most_once Examples.digest Examples.this_host
              Examples.daemon Examples.fs_start Examples.clk_interval
              (fst (fst cycle)) (snd (fst cycle)) (snd cycle) eq_refl)
    as (_ & _ & _ & Hfire & _ & _ & Hscenario).
  destruct (Hscenario eq_refl) as [Hreason Hnext].
  destruct (Hfire _ Hreason) as (_ & Hlast & _).
  split; [reflexivity|]. split; [exact Hreason|]. split; [exact Hlast|].
  apply Hnext. reflexivity.
Defined.

End DaemonProperties.

(** ** Checkpoint identifiers *)

Section Identifiers.
Import Py FS.

Lemma string_length_app (a b : string) :
  String.length (a ++ b) = (String.length a + String.length b)%nat.
Proof. induction a as [|x a IH]; simpl; [reflexivity|]. rewrite IH. reflexivity. Qed.

Lemma zeros_length (n : nat) : String.length (zeros n) = n.
Proof. induction n as [|n IH]; simpl; [reflexivity|]. rewrite IH. reflexivity. Qed.

Lemma fmt03_length (n : nat) :
  String.length (fmt03 n) = Nat.max 3 (String.length (digits n)).
Proof. unfold fmt03. rewrite string_length_app, zeros_length. lia. Qed.

Lemma digits_short (n : nat) : (n < 1000)%nat -> (String.length (digits n) <= 3)%nat.
Proof.
  intros Hn.
  assert (Hall : forallb (fun k => String.length (digits k) <=? 3)%nat (seq 0 1000) = true)
    by (vm_compute; reflexivity).
  rewrite forallb_forall in Hall.
  apply Nat.leb_le. apply Hall. apply in_seq. lia.
Qed.

Lemma auto_record_id (d : AutoCheckpoint.AutoCheckpointDaemon) (fs : filesystem)
  (clk : clock) (reason : string) (state : json) (id : string) (checkpoint : json) :
  AutoCheckpoint.checkpoint_record d fs clk reason state id = Ok checkpoint ->
  CheckpointRecovery.field1 checkpoint "checkpoint_id" = Some (JStr id).
Proof.
  unfold AutoCheckpoint.checkpoint_record, bind.
  repeat match goal with
         | |- context [match ?x with Ok _ => _ | Raise _ => _ end] =>
             destruct x; try discriminate
         end.
  intros H; inversion H; reflexivity.
Qed.

Lemma manual_record_id (clk : clock) (description : string) (state : json)
  (id : string) (checkpoint : json) :
  ResumeProgress.checkpoint_record clk description state id = Ok checkpoint ->
  CheckpointRecovery.field1 checkpoint "checkpoint_id" = Some (JStr id).
Proof.
  unfold ResumeProgress.checkpoint_record, bind.
  repeat match goal with
         | |- context [match ?x with Ok _ => _ | Raise _ => _ end] =>
             destruct x; try discriminate
         end.
  intros H; inversion H; reflexivity.
Qed.

(** C7, as the code has it.  Both creations allocate "count plus one",
    zero-padded to (at least) three digits.  An automatic creation counts the
    [AUTO_CP*.json] files of the checkpoint directory and writes its record,
    carrying the [AUTO_CP###] id, to a file named after it.  A manual
    creation counts the entries of the ProgressRecord's [checkpoints] list,
    whatever their prefix, and gives its record the [CP###] id. *)
Theorem checkpoint_ids_are_count_plus_one :
  (forall (h : AutoCheckpoint.host) (d : AutoCheckpoint.AutoCheckpointDaemon)
          (clk : clock) (reason : string) (fs fs1 : filesystem)
          (state checkpoint : json) (n : nat),
      AutoCheckpoint.write_checkpoint h d clk reason fs
      = (Ok (state, checkpoint, n), fs1) ->
      n = (List.length (glob fs (AutoCheckpoint.checkpoints_dir d) "AUTO_CP" ".json") + 1)%nat /\
      CheckpointRecovery.field1 checkpoint "checkpoint_id"
      = Some (JStr ("AUTO_CP" ++ fmt03 n)) /\
      data_of fs1
        (path_join (AutoCheckpoint.checkpoints_dir d)
           (AutoCheckpoint.checkpoint_file_name clk reason ("AUTO_CP" ++ fmt03 n)))
      = [Json (AutoCheckpoint.checkpoint_document h checkpoint state)]) /\
  (forall (m : ResumeProgress.ProgressManager) (fs fs' : filesystem) (clk : clock)
          (description id : string) (checkpoint : json),
      ResumeProgress.checkpoint_save m fs clk description
      = Ok (fs', ResumeProgress.SaveSuccess id checkpoint) ->
      exists state entries n,
        ResumeProgress.load_progress_state m fs clk = Ok state /\
        get state "checkpoints" (JArr []) = Ok entries /\
        len entries = Ok n /\
        id = ("CP" ++ fmt03 (n + 1))%string /\
        CheckpointRecovery.field1 checkpoint "checkpoint_id" = Some (JStr id)) /\
  (forall n, (3 <= String.length (fmt03 n))%nat) /\
  (forall n, (n < 1000)%nat -> String.length (fmt03 n) = 3%nat).
Proof.
  split; [|split; [|split]].
  - intros h d clk reason fs fs1 state checkpoint n.
    unfold AutoCheckpoint.write_checkpoint, mbind, reading, updating, mret.
    destruct (load_json fs (AutoCheckpoint.state_file d)) as [state0|]; [|discriminate].
    destruct (AutoCheckpoint.checkpoint_record d fs clk reason state0 _)
      as [checkpoint0|] eqn:Hrec; [|discriminate].
    unfold dump_json.
    destruct (write_file fs _ _ _) as [fs2|] eqn:Hw; [|discriminate].
    intros H; inversion H; subst; clear H.
    split; [reflexivity|]. split.
    + exact (auto_record_id _ _ _ _ _ _ _ Hrec).
    + exact (proj1 (write_file_data _ _ _ _ _ Hw)).
  - intros m fs fs' clk description id checkpoint.
    unfold ResumeProgress.checkpoint_save, bind.
    destruct (ResumeProgress.load_progress_state m fs clk) as [state|] eqn:Hload;
      [|discriminate].
    unfold ResumeProgress.next_checkpoint_count, bind.
    destruct (get state "checkpoints" (JArr [])) as [entries|] eqn:Hget; [|discriminate].
    destruct (len entries) as [n|] eqn:Hlen; [|discriminate].
    destruct (ResumeProgress.checkpoint_record clk description state _)
      as [checkpoint0|] eqn:Hrec; [|discriminate].
    destruct (ResumeProgress.save_body _ _ _ _ _ _ _) as [[u|e] fs2]; [|discriminate].
    intros H; inversion H; subst; clear H.
    exists state, entries, n. repeat split; try assumption.
    exact (manual_record_id _ _ _ _ _ Hrec).
  - intros n. rewrite fmt03_length. lia.
  - intros n Hn. rewrite fmt03_length. pose proof (digits_short n Hn). lia.
Qed.

Lemma checkpoint_ids_are_count_plus_one_witness :
  exists fs' checkpoint,
    ResumeProgress.checkpoint_save Examples.progress_manager Examples.fs_checkpointed
      Examples.clk0 "first manual"
    = Ok (fs', ResumeProgress.SaveSuccess "CP002" checkpoint) /\
    CheckpointRecovery.field1 checkpoint "checkpoint_id" = Some (JStr "CP002").
Proof.
  destruct checkpoint_ids_are_count_plus_one as (_ & Hmanual & _).
  destruct (ResumeProgress.checkpoint_save Examples.progress_manager
              Examples.fs_checkpointed Examples.clk0 "first manual")
    as [[fs' [id checkpoint|msg]]|e] eqn:Hsave;
    try (vm_compute in Hsave; discriminate).
  destruct (Hmanual _ _ _ _ _ _ _ Hsave)
    as (state & entries & n & Hload & Hget & Hlen & Hid & Hfield).
  vm_compute in Hload. inversion Hload; subst state; clear Hload.
  vm_compute in Hget. inversion Hget; subst entries; clear Hget.
  vm_compute in Hlen. inversion Hlen; subst n; clear Hlen.
  subst id. exists fs', checkpoint.
  split; [reflexivity|exact Hfield].
Defined.

(** The claim C7 as the specification states it fails for manual
    checkpoints: with one automatic checkpoint on record and no manual one,
    the first manual checkpoint is numbered [CP002], not [CP001]. *)
Lemma manual_id_counts_automatic_entries :
  glob Examples.fs_checkpointed
    (ResumeProgress.checkpoints_dir Examples.progress_manager) "CP" ".json" = [] /\
  map snd (CheckpointRecovery.stored_ids Examples.manager Examples.fs_checkpointed)
  = [JStr "AUTO_CP001"] /\
  exists fs' checkpoint,
    ResumeProgress.checkpoint_save Examples.progress_manager Examples.fs_checkpointed
      Examples.clk0 "first manual"
    = Ok (fs', ResumeProgress.SaveSuccess "CP002" checkpoint).
Proof.
  split; [reflexivity|]. split; [reflexivity|].
  eexists. eexists. vm_compute. reflexivity.
Qed.

(** C2 on the code: with the default retention of 50, the 52nd checkpoint
    the daemon creates is given the id of the 51st, and both files are in the
    checkpoint directory afterwards. *)
Lemma auto_checkpoint_id_is_reused :
  let ids := CheckpointRecovery.stored_ids Examples.manager
               (Examples.after_creations 52) in
  In ("proj/progress-state/checkpoints/AUTO_CP051_20260101_m51_time_based.json",
      JStr "AUTO_CP051") ids /\
  In ("proj/progress-state/checkpoints/AUTO_CP051_20260101_m52_time_based.json",
      JStr "AUTO_CP051") ids.
Proof.
  cbv zeta.
  assert (H : existsb
                (fun e => String.eqb (fst e)
                  "proj/progress-state/checkpoints/AUTO_CP051_20260101_m51_time_based.json"
                  && Py.eq (snd e) (JStr "AUTO_CP051"))
                (CheckpointRecovery.stored_ids Examples.manager
                   (Examples.after_creations 52)) = true /\
              existsb
                (fun e => String.eqb (fst e)
                  "proj/progress-state/checkpoints/AUTO_CP051_20260101_m52_time_based.json"
                  && Py.eq (snd e) (JStr "AUTO_CP051"))
                (CheckpointRecovery.stored_ids Examples.manager
                   (Examples.after_creations 52)) = true)
    by (vm_compute; split; reflexivity).
  destruct H as [H1 H2].
  assert (Hin : forall name l,
            existsb (fun e : string * json =>
                       String.eqb (fst e) name && Py.eq (snd e) (JStr "AUTO_CP051")) l = true ->
            In (name, JStr "AUTO_CP051") l).
  { intros name l. induction l as [|[f v] l IH]; simpl; [discriminate|].
    destruct (String.eqb f name) eqn:E; simpl.
    - destruct v; simpl; auto.
      destruct (String.eqb s "AUTO_CP051") eqn:E2; simpl; auto.
      intros _. left. apply String.eqb_eq in E, E2. subst. reflexivity.
    - auto. }
  split; apply Hin; assumption.
Qed.

End Identifiers.

(** ** The shared change counter under interleaving *)

Section ThreadProperties.
Import TriggerThreads.

Lemma run_app (a b : list action) (s : state) :
  run (a ++ b) s = match run a s with Some s' => run b s' | None => None end.
Proof.
  revert s. induction a as [|x a IH]; intros s; simpl; [reflexivity|].
  destruct (step x s); [apply IH|reflexivity].
Qed.

Lemma cycle_preserves (c : cycle) (s : state) :
  quiescent s -> nothing_lost s ->
  exists s', run (actions_of c) s = Some s' /\ quiescent s' /\ nothing_lost s'.
Proof.
  intros [Hm Hd] Hn. destruct s as [count m d det cov]. simpl in *. subst m d.
  unfold nothing_lost in *. simpl in *.
  destruct c as [[|n]|]; simpl.
  - eexists. split; [reflexivity|]. split; [split; reflexivity|]. exact Hn.
  - eexists. split; [reflexivity|]. split; [split; reflexivity|]. simpl. lia.
  - eexists. split; [reflexivity|]. split; [split; reflexivity|]. simpl. lia.
Qed.

(** C9, as the code has it.  The daemon takes no lock around its accesses to
    [file_change_count].  In executions where the loops take turns, each
    cycle's accesses to the counter running without the other loop in
    between, every change the scan loop added is still in the counter or was
    seen by the decision cycle that reset it. *)
Theorem serial_cycles_lose_nothing (cycles : list cycle) :
  exists s,
    run (serial cycles) initial = Some s /\ quiescent s /\ nothing_lost s.
Proof.
  assert (H : forall s0, quiescent s0 -> nothing_lost s0 ->
            exists s, run (serial cycles) s0 = Some s /\ quiescent s /\ nothing_lost s).
  { induction cycles as [|c cycles IH]; intros s0 Hq Hn.
    - exists s0. repeat split; try assumption; apply Hq.
    - destruct (cycle_preserves c s0 Hq Hn) as (s1 & Hrun & Hq1 & Hn1).
      destruct (IH s1 Hq1 Hn1) as (s & Hrun' & Hq' & Hn').
      exists s. split; [|split; assumption].
      unfold serial in *. simpl. rewrite run_app, Hrun. exact Hrun'. }
  apply H; [split; reflexivity|reflexivity].
Qed.

(** The claim C9 as the specification states it fails: the scan loop stores
    two changes while the decision loop, which has fired, is creating its
    checkpoint; the reset that follows wipes them, and they were never seen
    by a decision cycle. *)
Lemma interleaved_reset_loses_increment :
  exists s,
    run [DecisionFire; MonitorLoad 2; MonitorStore; DecisionReset] initial = Some s /\
    quiescent s /\
    detected s = 2 /\ file_change_count s = 0 /\ covered s = 0 /\
    ~ nothing_lost s.
Proof.
  eexists. split; [reflexivity|]. split; [split; reflexivity|].
  repeat split. unfold nothing_lost. simpl. discriminate.
Qed.

End ThreadProperties.


(** ** Retention of automatic checkpoints *)

Section Retention.
Import Py FS AutoCheckpoint.

Lemma In_insert_by_mtime (fs : filesystem) (x y : string) (l : list string) :
  In y (insert_by_mtime fs x l) <-> y = x \/ In y l.
Proof.
  induction l as [|z l IH]; simpl.
  - intuition.
  - destruct (mtime_of fs z <? mtime_of fs x)%Z; simpl; [rewrite IH|]; intuition.
Qed.

Lemma In_sort_by_mtime (fs : filesystem) (y : string) (l : list string) :
  In y (sort_by_mtime fs l) <-> In y l.
Proof.
  induction l as [|x l IH]; simpl; [tauto|].
  rewrite In_insert_by_mtime, IH. intuition.
Qed.

Lemma insert_by_mtime_length (fs : filesystem) (x : string) (l : list string) :
  List.length (insert_by_mtime fs x l) = S (List.length l).
Proof.
  induction l as [|z l IH]; simpl; [reflexivity|].
  destruct (_ <? _)%Z; simpl; [rewrite IH|]; reflexivity.
Qed.

Lemma sort_by_mtime_length (fs : filesystem) (l : list string) :
  List.length (sort_by_mtime fs l) = List.length l.
Proof.
  induction l as [|x l IH]; simpl; [reflexivity|].
  rewrite insert_by_mtime_length, IH. reflexivity.
Qed.

Lemma insert_by_mtime_NoDup (fs : filesystem) (x : string) (l : list string) :
  ~ In x l -> NoDup l -> NoDup (insert_by_mtime fs x l).
Proof.
  induction l as [|z l IH]; simpl; intros Hx Hl.
  - constructor; [tauto|constructor].
  - destruct (_ <? _)%Z.
    + inversion Hl; subst. constructor.
      * rewrite In_insert_by_mtime. intuition.
      * apply IH; [tauto|assumption].
    + constructor; [simpl; tauto|assumption].
Qed.

Lemma sort_by_mtime_NoDup (fs : filesystem) (l : list string) :
  NoDup l -> NoDup (sort_by_mtime fs l).
Proof.
  induction 1 as [|x l Hx Hl IH]; simpl; [constructor|].
  apply insert_by_mtime_NoDup; [rewrite In_sort_by_mtime; exact Hx|exact IH].
Qed.

Lemma insert_by_mtime_sorted (fs : filesystem) (x : string) (l : list string) :
  StronglySorted (fun a b => (mtime_of fs a <= mtime_of fs b)%Z) l ->
  StronglySorted (fun a b => (mtime_of fs a <= mtime_of fs b)%Z)
    (insert_by_mtime fs x l).
Proof.
  induction l as [|z l IH]; simpl; intros H.
  - constructor; constructor.
  - apply StronglySorted_inv in H. destruct H as [Hl Hz].
    destruct (mtime_of fs z <? mtime_of fs x)%Z eqn:E.
    + constructor; [apply IH; exact Hl|].
      rewrite Forall_forall in *. intros y Hy.
      apply In_insert_by_mtime in Hy. destruct Hy as [->|Hy]; [lia|auto].
    + constructor; [constructor; assumption|].
      rewrite Forall_forall in *. intros y [<-|Hy]; [lia|].
      specialize (Hz y Hy). cbv beta in Hz. lia.
Qed.

Lemma sort_by_mtime_sorted (fs : filesystem) (l : list string) :
  StronglySorted (fun a b => (mtime_of fs a <= mtime_of fs b)%Z) (sort_by_mtime fs l).
Proof.
  induction l as [|x l IH]; simpl; [constructor|].
  apply insert_by_mtime_sorted. exact IH.
Qed.

Lemma skipn_In (A : Type) (k : nat) (l : list A) (y : A) :
  In y (skipn k l) -> In y l.
Proof.
  revert l. induction k as [|k IH]; intros [|z l]; simpl; auto.
Qed.

Lemma firstn_In (A : Type) (k : nat) (l : list A) (y : A) :
  In y (firstn k l) -> In y l.
Proof.
  revert l. induction k as [|k IH]; intros [|z l]; simpl; intuition.
Qed.

Lemma sorted_split (R : string -> string -> Prop) (k : nat) (l : list string) :
  StronglySorted R l ->
  forall x y, In x (firstn k l) -> In y (skipn k l) -> R x y.
Proof.
  revert k. induction l as [|z l IH]; intros [|k] H x y Hx Hy; simpl in *;
    try contradiction.
  apply StronglySorted_inv in H. destruct H as [Hl Hz]. destruct Hx as [<-|Hx].
  - rewrite Forall_forall in Hz. apply Hz. eapply skipn_In. exact Hy.
  - eapply IH; eassumption.
Qed.

Lemma firstn_NoDup (k : nat) (l : list string) : NoDup l -> NoDup (firstn k l).
Proof.
  revert k. induction l as [|z l IH]; intros [|k] H; simpl; try constructor.
  - inversion H; subst. intros Hin. apply firstn_In in Hin. contradiction.
  - inversion H; subst. apply IH; assumption.
Qed.

Lemma split_In (k : nat) (l : list string) (y : string) :
  In y l -> In y (firstn k l) \/ In y (skipn k l).
Proof.
  intros H. rewrite <- (firstn_skipn k l) in H. apply in_app_or in H. exact H.
Qed.

(** *** Unlinking *)

Lemma filter_all (A : Type) (f : A -> bool) (l : list A) :
  (forall x, In x l -> f x = true) -> filter f l = l.
Proof.
  induction l as [|x l IH]; simpl; intros H; [reflexivity|].
  rewrite (H x) by auto. rewrite IH; auto.
Qed.

Lemma filter_filter (A : Type) (f g : A -> bool) (l : list A) :
  filter f (filter g l) = filter (fun x => g x && f x) l.
Proof.
  induction l as [|x l IH]; simpl; [reflexivity|].
  destruct (g x); simpl; [destruct (f x)|]; rewrite IH; reflexivity.
Qed.

Lemma remove_file_filter (p : string) (l : list (string * file)) :
  NoDup (map fst l) ->
  remove_file p l = filter (fun e => negb (String.eqb (fst e) p)) l.
Proof.
  induction l as [|[q g] l IH]; simpl; intros H; [reflexivity|].
  inversion H as [|? ? Hq Hl]; subst.
  destruct (String.eqb q p) eqn:E; simpl.
  - apply String.eqb_eq in E; subst q. symmetry. apply filter_all.
    intros [q g'] Hin. simpl. destruct (String.eqb q p) eqn:E; [|reflexivity].
    apply String.eqb_eq in E; subst q. exfalso. apply Hq.
    apply (in_map fst) in Hin. exact Hin.
  - rewrite IH by assumption. reflexivity.
Qed.

Lemma find_file_In (p : string) (l : list (string * file)) :
  In p (map fst l) -> find_file p l <> None.
Proof.
  induction l as [|[q g] l IH]; simpl; [tauto|].
  destruct (String.eqb q p) eqn:E; [discriminate|].
  intros [->|H]; [rewrite String.eqb_refl in E; discriminate|auto].
Qed.

Lemma find_file_filter (f : string * file -> bool) (q : string)
  (l : list (string * file)) :
  (forall e, In e l -> fst e = q -> f e = true) ->
  find_file q (filter f l) = find_file q l.
Proof.
  induction l as [|[a g] l IH]; simpl; intros H; [reflexivity|].
  destruct (String.eqb a q) eqn:E.
  - apply String.eqb_eq in E; subst a. rewrite (H (q, g)); auto.
    simpl. rewrite String.eqb_refl. reflexivity.
  - destruct (f (a, g)); simpl; [rewrite E|]; apply IH; auto.
Qed.

(** Unlinking distinct existing files, none of them protected, removes
    exactly these. *)
Lemma unlink_all_files (l : list string) :
  forall fs,
    NoDup (map fst (fs_files fs)) ->
    NoDup l ->
    (forall p, In p l -> In p (map fst (fs_files fs)) /\ is_denied fs p = false) ->
    fs_files (unlink_all fs l)
    = filter (fun e => negb (existsb (String.eqb (fst e)) l)) (fs_files fs) /\
    fs_denied (unlink_all fs l) = fs_denied fs.
Proof.
  induction l as [|p l IH]; intros fs Hfs Hl Hin; simpl.
  - split; [|reflexivity]. symmetry. apply filter_all. reflexivity.
  - destruct (Hin p (or_introl eq_refl)) as [Hp Hd].
    unfold unlink, exists_, lookup_file.
    pose proof (find_file_In _ _ Hp) as Hex.
    destruct (find_file p (fs_files fs)); [|congruence]. simpl. rewrite Hd.
    inversion Hl as [|? ? Hpl Hl']; subst.
    rewrite (remove_file_filter _ _ Hfs).
    set (fs1 := mkFS _ _).
    destruct (IH fs1) as [A B].
    + subst fs1. simpl.
      rewrite <- (filter_map_swap (fun q => negb (String.eqb q p)) fst).
      apply NoDup_filter. exact Hfs.
    + exact Hl'.
    + intros q Hq. destruct (Hin q (or_intror Hq)) as [Hq1 Hq2]. split; [|exact Hq2].
      subst fs1. simpl.
      rewrite <- (filter_map_swap (fun q => negb (String.eqb q p)) fst).
      apply filter_In. split; [exact Hq1|].
      destruct (String.eqb q p) eqn:E; [|reflexivity].
      apply String.eqb_eq in E; subst q. contradiction.
    + rewrite A, B. subst fs1. simpl. split; [|reflexivity].
      rewrite filter_filter. apply filter_ext. intros e.
      rewrite negb_orb. reflexivity.
Qed.

Lemma glob_NoDup (fs : filesystem) (dir prefix suffix : string) :
  NoDup (map fst (fs_files fs)) -> NoDup (glob fs dir prefix suffix).
Proof. intros H. unfold glob. apply NoDup_filter. exact H. Qed.

Lemma glob_In (fs : filesystem) (dir prefix suffix p : string) :
  In p (glob fs dir prefix suffix) -> In p (map fst (fs_files fs)).
Proof. unfold glob. intros H. apply filter_In in H. tauto. Qed.

Lemma existsb_eqb_In (q : string) (l : list string) :
  existsb (String.eqb q) l = true <-> In q l.
Proof.
  rewrite existsb_exists. split.
  - intros (x & Hx & E). apply String.eqb_eq in E. subst. exact Hx.
  - intros H. exists q. split; [exact H|apply String.eqb_refl].
Qed.

Lemma filter_out_length (D L : list string) :
  NoDup L -> NoDup D -> (forall p, In p D -> In p L) ->
  List.length (filter (fun q => negb (existsb (String.eqb q) D)) L)
  = List.length L - List.length D.
Proof.
  intros HL HD Hsub.
  pose proof (filter_length (fun q => existsb (String.eqb q) D) L) as Hsum.
  assert (Hperm : Permutation (filter (fun q => existsb (String.eqb q) D) L) D).
  { apply NoDup_Permutation; [apply NoDup_filter; exact HL|exact HD|].
    intros x. rewrite filter_In, existsb_eqb_In. split; [tauto|auto]. }
  apply Permutation_length in Hperm. cbv beta in Hsum. lia.
Qed.

(** What the clean-up pass deletes: nothing when at most [max_checkpoints]
    automatic checkpoints exist or when [max_checkpoints] is 0, otherwise the
    oldest ones beyond [max_checkpoints]. *)
Lemma cleanup_deletes (d : AutoCheckpointDaemon) (fs : filesystem) :
  NoDup (map fst (fs_files fs)) ->
  (forall p, In p (glob fs (checkpoints_dir d) "AUTO_CP" ".json") ->
             is_denied fs p = false) ->
  exists deleted,
    NoDup deleted /\
    (forall p, In p deleted -> In p (glob fs (checkpoints_dir d) "AUTO_CP" ".json")) /\
    List.length deleted
    = (if Nat.eqb (max_checkpoints d) 0 then 0
       else List.length (glob fs (checkpoints_dir d) "AUTO_CP" ".json")
            - max_checkpoints d) /\
    (forall gone kept,
        In gone deleted ->
        In kept (glob fs (checkpoints_dir d) "AUTO_CP" ".json") ->
        ~ In kept deleted ->
        (mtime_of fs gone <= mtime_of fs kept)%Z) /\
    fs_files (cleanup_old_checkpoints d fs)
    = filter (fun e => negb (existsb (String.eqb (fst e)) deleted)) (fs_files fs) /\
    fs_denied (cleanup_old_checkpoints d fs) = fs_denied fs.
Proof.
  intros Hfs Hden. unfold cleanup_old_checkpoints.
  set (L := glob fs (checkpoints_dir d) "AUTO_CP" ".json") in *.
  set (sorted := sort_by_mtime fs L).
  assert (Hlen : List.length sorted = List.length L) by apply sort_by_mtime_length.
  assert (HLnd : NoDup L) by (apply glob_NoDup; exact Hfs).
  assert (Hsnd : NoDup sorted) by (apply sort_by_mtime_NoDup; exact HLnd).
  destruct (max_checkpoints d <? List.length sorted)%nat eqn:E.
  - apply Nat.ltb_lt in E. unfold drop_last.
    destruct (Nat.eqb (max_checkpoints d) 0) eqn:E0.
    + exists []. simpl. repeat split; try constructor; try tauto.
      symmetry. apply filter_all. reflexivity.
    + set (k := List.length sorted - max_checkpoints d).
      exists (firstn k sorted).
      assert (Hin : forall p, In p (firstn k sorted) -> In p L).
      { intros p Hp. apply firstn_In in Hp. apply In_sort_by_mtime in Hp. exact Hp. }
      split; [apply firstn_NoDup; exact Hsnd|]. split; [exact Hin|].
      split; [rewrite length_firstn; subst k; lia|]. split.
      * intros gone kept Hg Hk Hnk.
        apply (In_sort_by_mtime fs) in Hk. fold sorted in Hk.
        destruct (split_In k _ _ Hk) as [Hk'|Hk']; [contradiction|].
        exact (sorted_split _ k sorted (sort_by_mtime_sorted fs L) gone kept Hg Hk').
      * apply unlink_all_files; [exact Hfs|apply firstn_NoDup; exact Hsnd|].
        intros p Hp. specialize (Hin p Hp). split; [|auto].
        eapply glob_In. exact Hin.
  - apply Nat.ltb_ge in E. exists []. simpl.
    split; [constructor|]. split; [tauto|]. split.
    + destruct (Nat.eqb (max_checkpoints d) 0); lia.
    + split; [tauto|]. split; [|reflexivity].
      symmetry. apply filter_all. reflexivity.
Qed.

Lemma glob_after_cleanup (d : AutoCheckpointDaemon) (fs : filesystem)
  (deleted : list string) (dir prefix suffix : string) :
  fs_files (cleanup_old_checkpoints d fs)
  = filter (fun e => negb (existsb (String.eqb (fst e)) deleted)) (fs_files fs) ->
  glob (cleanup_old_checkpoints d fs) dir prefix suffix
  = filter (fun q => negb (existsb (String.eqb q) deleted)) (glob fs dir prefix suffix).
Proof.
  intros H. unfold glob. rewrite H.
  rewrite <- (filter_map_swap (fun q => negb (existsb (String.eqb q) deleted)) fst).
  rewrite !filter_filter. apply filter_ext. intros q. apply andb_comm.
Qed.

(** X1.  In a file system where every path names one file and the automatic
    checkpoint files can be unlinked, [_cleanup_old_checkpoints] leaves
    [min(n, max_checkpoints)] of the [n] files matching [AUTO_CP*.json]
    (all [n] of them when [max_checkpoints] is 0, since then the slice
    [[:-0]] is empty); every file it deleted is at most as recent as every
    automatic checkpoint it kept; the kept ones and all other files, manual
    checkpoints included, are as they were. *)
Theorem cleanup_keeps_the_newest (d : AutoCheckpointDaemon) (fs : filesystem) :
  let before := glob fs (checkpoints_dir d) "AUTO_CP" ".json" in
  let fs' := cleanup_old_checkpoints d fs in
  let after := glob fs' (checkpoints_dir d) "AUTO_CP" ".json" in
  NoDup (map fst (fs_files fs)) ->
  (forall p, In p before -> is_denied fs p = false) ->
  List.length after
  = (if Nat.eqb (max_checkpoints d) 0 then List.length before
     else Nat.min (List.length before) (max_checkpoints d)) /\
  (forall p, In p after -> In p before) /\
  (forall gone kept,
      In gone before -> ~ In gone after -> In kept after ->
      (mtime_of fs gone <= mtime_of fs kept)%Z) /\
  (forall q, In q after \/ ~ In q before -> lookup_file fs' q = lookup_file fs q).
Proof.
  cbv zeta. intros Hfs Hden.
  destruct (cleanup_deletes d fs Hfs Hden)
    as (deleted & Hnd & Hsub & Hlen & Hold & Hfiles & _).
  rewrite (glob_after_cleanup d fs deleted _ _ _ Hfiles).
  set (before := glob fs (checkpoints_dir d) "AUTO_CP" ".json") in *.
  assert (Hafter : forall p,
             In p (filter (fun q => negb (existsb (String.eqb q) deleted)) before)
             <-> In p before /\ ~ In p deleted).
  { intros p. rewrite filter_In, negb_true_iff. split; intros [H1 H2]; (split; [exact H1|]).
    - intros Hin. apply existsb_eqb_In in Hin. congruence.
    - destruct (existsb (String.eqb p) deleted) eqn:E; [|reflexivity].
      apply existsb_eqb_In in E. contradiction. }
  split; [|split; [|split]].
  - rewrite filter_out_length; [|apply glob_NoDup; exact Hfs|exact Hnd|exact Hsub].
    rewrite Hlen. destruct (Nat.eqb (max_checkpoints d) 0); lia.
  - intros p Hp. apply Hafter in Hp. tauto.
  - intros gone kept Hg Hng Hk. apply Hafter in Hk. destruct Hk as [Hk1 Hk2].
    apply Hold; [|assumption..].
    destruct (existsb (String.eqb gone) deleted) eqn:E;
      [apply existsb_eqb_In; exact E|].
    exfalso. apply Hng. apply Hafter. split; [exact Hg|].
    rewrite <- existsb_eqb_In, E. discriminate.
  - intros q Hq. unfold lookup_file. rewrite Hfiles. apply find_file_filter.
    intros e _ He. rewrite He. apply negb_true_iff.
    destruct (existsb (String.eqb q) deleted) eqn:E; [|reflexivity].
    apply existsb_eqb_In in E. exfalso.
    destruct Hq as [Hq|Hq]; [apply Hafter in Hq; tauto|auto].
Qed.

Lemma cleanup_keeps_the_newest_witness :
  let d := Examples.daemon_keeping_two in
  let fs := Examples.fs_three_automatic in
  List.length (glob fs (checkpoints_dir d) "AUTO_CP" ".json") = 3%nat /\
  glob (cleanup_old_checkpoints d fs) (checkpoints_dir d) "AUTO_CP" ".json"
  = ["proj/progress-state/checkpoints/AUTO_CP003_20260101_0005_time_based.json";
     "proj/progress-state/checkpoints/AUTO_CP002_20260101_0003_time_based.json"] /\
  List.length (glob (cleanup_old_checkpoints d fs) (checkpoints_dir d) "AUTO_CP" ".json")
  = 2%nat.
Proof.
  cbv zeta. split; [reflexivity|]. split; [reflexivity|].
  refine (proj1 (cleanup_keeps_the_newest Examples.daemon_keeping_two
                   Examples.fs_three_automatic _ _)).
  - vm_compute. repeat constructor; simpl; intuition discriminate.
  - intros p _. reflexivity.
Defined.

(** X2.  A second clean-up pass right after the first deletes nothing. *)
Theorem cleanup_is_idempotent (d : AutoCheckpointDaemon) (fs : filesystem) :
  NoDup (map fst (fs_files fs)) ->
  (forall p, In p (glob fs (checkpoints_dir d) "AUTO_CP" ".json") ->
             is_denied fs p = false) ->
  cleanup_old_checkpoints d (cleanup_old_checkpoints d fs)
  = cleanup_old_checkpoints d fs.
Proof.
  intros Hfs Hden.
  destruct (cleanup_deletes d fs Hfs Hden)
    as (deleted & Hnd & Hsub & Hlen & _ & Hfiles & _).
  pose proof (glob_after_cleanup d fs deleted (checkpoints_dir d) "AUTO_CP" ".json"
                Hfiles) as Hglob.
  assert (Hcount :
            List.length (glob (cleanup_old_checkpoints d fs) (checkpoints_dir d)
                           "AUTO_CP" ".json")
            = List.length (glob fs (checkpoints_dir d) "AUTO_CP" ".json")
              - List.length deleted).
  { rewrite Hglob. apply filter_out_length; [apply glob_NoDup|..]; assumption. }
  set (fs' := cleanup_old_checkpoints d fs) in *.
  unfold cleanup_old_checkpoints at 1. rewrite sort_by_mtime_length, Hcount, Hlen.
  unfold drop_last.
  destruct (Nat.eqb (max_checkpoints d) 0) eqn:E0.
  - destruct (_ <? _)%nat; reflexivity.
  - destruct (_ <? _)%nat eqn:E; [|reflexivity].
    apply Nat.ltb_lt in E. lia.
Qed.

Lemma cleanup_is_idempotent_witness :
  cleanup_old_checkpoints Examples.daemon_keeping_two
    (cleanup_old_checkpoints Examples.daemon_keeping_two Examples.fs_three_automatic)
  = cleanup_old_checkpoints Examples.daemon_keeping_two Examples.fs_three_automatic.
Proof.
  apply cleanup_is_idempotent.
  - vm_compute. repeat constructor; simpl; intuition discriminate.
  - intros p _. reflexivity.
Defined.

End Retention.

(** ** What the daemon's scans see *)

Section Scanning.
Import Py FS AutoCheckpoint.

Lemma split_on_cons (c : ascii) (s : string) :
  exists h t, split_on c s = h :: t.
Proof.
  destruct s as [|a s]; simpl; [eauto|].
  destruct (Ascii.eqb a c); [eauto|]. destruct (split_on c s); eauto.
Qed.

Lemma split_on_app (c : ascii) (a b : string) :
  split_on c (a ++ String c b) = split_on c a ++ split_on c b.
Proof.
  induction a as [|x a IH]; simpl.
  - rewrite Ascii.eqb_refl. reflexivity.
  - rewrite IH. destruct (Ascii.eqb x c); [reflexivity|].
    destruct (split_on_cons c a) as (h & t & ->). reflexivity.
Qed.

Lemma parts_app (a b : string) : parts (a ++ "/" ++ b) = parts a ++ parts b.
Proof.
  unfold parts. change (a ++ "/" ++ b)%string with (a ++ String "/" b)%string.
  rewrite split_on_app, filter_app. reflexivity.
Qed.

Lemma is_excluded_path_app (a b : string) :
  is_excluded_path (a ++ "/" ++ b) = is_excluded_path a || is_excluded_path b.
Proof. unfold is_excluded_path. rewrite parts_app, existsb_app. reflexivity. Qed.

(** Everything stored below a directory whose name is on the exclusion list
    is excluded. *)
Lemma excluded_below (a dir name : string) :
  is_excluded_path dir = true ->
  starts_with "/" name = false ->
  is_excluded_path (path_join (a ++ "/" ++ dir) name) = true.
Proof.
  intros Hdir Hname. unfold path_join. rewrite Hname.
  destruct (String.eqb name "").
  - rewrite is_excluded_path_app, Hdir. apply orb_true_r.
  - rewrite !is_excluded_path_app, Hdir, orb_true_r. reflexivity.
Qed.

Lemma filter_put_file (g : string * file -> bool) (p : string) (f : file)
  (l : list (string * file)) :
  (forall f', g (p, f') = false) ->
  filter g (put_file p f l) = filter g l.
Proof.
  intros Hg. induction l as [|[q f'] l IH]; simpl.
  - rewrite Hg. reflexivity.
  - destruct (String.eqb q p) eqn:E; simpl.
    + apply String.eqb_eq in E; subst q. rewrite !Hg. reflexivity.
    + rewrite IH. reflexivity.
Qed.

Lemma modified_after_excluded (d : AutoCheckpointDaemon) (fs : filesystem)
  (p : string) (f : file) (since : Z) :
  is_excluded_path p = true ->
  modified_after d (set_file fs p f) since = modified_after d fs since.
Proof.
  intros Hp. unfold modified_after, set_file. cbn [fs_files].
  rewrite filter_put_file; [reflexivity|].
  intros f'. cbn [fst snd]. rewrite Hp. cbn [negb].
  rewrite andb_false_r. reflexivity.
Qed.

(** X3.  Files written below the checkpoint directory or the snapshot
    directory are invisible to the daemon's scans: neither
    [_scan_for_changes] nor [_get_recently_modified_files] reports them,
    whatever their name, extension and modification time, so the checkpoint
    files the daemon writes never count as project activity. *)
Theorem scans_ignore_checkpoint_storage
  (root : string) (t0 : Z) (fs : filesystem) (name : string) (f : file)
  (since : Z) (clk : clock) :
  let d := init root t0 in
  starts_with "/" name = false ->
  forall dir, dir = checkpoints_dir d \/ dir = snapshots_dir d ->
    scan_for_changes d (set_file fs (path_join dir name) f) since
    = scan_for_changes d fs since /\
    get_recently_modified_files d (set_file fs (path_join dir name) f) clk
    = get_recently_modified_files d fs clk.
Proof.
  cbv zeta. intros Hname dir Hdir.
  assert (Hex : is_excluded_path (path_join dir name) = true).
  { destruct Hdir as [-> | ->]; cbn [init checkpoints_dir snapshots_dir].
    - apply (excluded_below (path_join root "progress-state") "checkpoints" name);
        [reflexivity|exact Hname].
    - apply (excluded_below (path_join root "progress-state") "snapshots" name);
        [reflexivity|exact Hname]. }
  unfold scan_for_changes, get_recently_modified_files.
  rewrite !modified_after_excluded by exact Hex. split; reflexivity.
Qed.

Lemma scans_ignore_checkpoint_storage_witness :
  scan_for_changes Examples.daemon
    (set_file Examples.fs_start
       "proj/progress-state/checkpoints/AUTO_CP001_20260101_0030_time_based.json"
       (mkFile [Json (JObj [])] 1800 true)) (-1)
  = ["progress-state/PROGRESS_STATE.json"; "src/app.py"]
  /\ scan_for_changes Examples.daemon Examples.fs_start (-1)
     = ["progress-state/PROGRESS_STATE.json"; "src/app.py"].
Proof.
  assert (H : scan_for_changes Examples.daemon Examples.fs_start (-1)
              = ["progress-state/PROGRESS_STATE.json"; "src/app.py"]).
  { vm_compute. reflexivity. }
  split; [|exact H].
  rewrite <- H.
  exact (proj1 (scans_ignore_checkpoint_storage "proj" 0 Examples.fs_start
                  "AUTO_CP001_20260101_0030_time_based.json"
                  (mkFile [Json (JObj [])] 1800 true) (-1) Examples.clk0 eq_refl
                  _ (or_introl eq_refl))).
Defined.

End Scanning.

(** ** The daemon's triggers and what a creation records *)

Section DaemonCycles.
Import Py FS AutoCheckpoint.

Section Triggers.
Variable md5 : list chunk -> string.

Lemma state_changed_paths (d : AutoCheckpointDaemon) (fs : filesystem) :
  state_file (snd (state_changed md5 d fs)) = state_file d.
Proof.
  unfold state_changed. destruct (negb _); [reflexivity|].
  destruct (open_read fs (state_file d)); [|reflexivity].
  destruct (last_state_hash d); [|reflexivity].
  destruct (negb _); reflexivity.
Qed.

Lemma decide_paths (d : AutoCheckpointDaemon) (fs : filesystem) (t : Z) :
  state_file (snd (decide md5 d fs t)) = state_file d.
Proof.
  unfold decide. destruct (_ <=? _)%Z; [reflexivity|].
  destruct (_ <=? _)%nat; [reflexivity|].
  pose proof (state_changed_paths d fs) as H.
  destruct (state_changed md5 d fs) as [[|] d']; exact H.
Qed.

(** X4.  The state-change trigger reports a given content of the
    ProgressRecord at most once: asked again about the same file system, with
    the daemon as the first call left it, [_state_changed] answers no.  The
    first reading after start-up only sets the baseline. *)
Theorem state_change_is_reported_once (d : AutoCheckpointDaemon) (fs : filesystem) :
  fst (state_changed md5 (snd (state_changed md5 d fs)) fs) = false /\
  (last_state_hash d = None -> fst (state_changed md5 d fs) = false).
Proof.
  unfold state_changed.
  destruct (negb (exists_ fs (state_file d))) eqn:Hex.
  - cbn [fst snd]. rewrite Hex. auto.
  - destruct (open_read fs (state_file d)) as [current|e] eqn:Hread.
    + destruct (last_state_hash d) as [h|] eqn:Hh.
      * destruct (negb (String.eqb (md5 current) h)) eqn:E; cbn [fst snd].
        -- cbn [state_file set_last_state_hash last_state_hash].
           rewrite Hex, Hread, String.eqb_refl. split; [reflexivity|discriminate].
        -- rewrite Hex, Hread, Hh, E. split; [reflexivity|discriminate].
      * cbn [fst snd]. cbn [state_file set_last_state_hash last_state_hash].
        rewrite Hex, Hread, String.eqb_refl. auto.
    + cbn [fst snd]. rewrite Hex, Hread. auto.
Qed.

(** X5.  The scan loop adds the number of changed files it found to the
    change counter and moves its watermark to the clock reading of the scan.
    Before the interval has elapsed, the next decision cycle fires
    ACTIVITY_BASED exactly when the counter has reached the threshold, and
    then sets the counter to 0 and the timer to its own clock reading. *)
Theorem activity_fires_at_threshold
  (h : host) (d : AutoCheckpointDaemon) (fs fs' : filesystem) (last_check : Z)
  (clk_scan clk : clock) :
  let found := List.length (scan_for_changes d fs last_check) in
  let d1 := fst (monitor_cycle d fs last_check clk_scan) in
  let cycle := checkpoint_cycle md5 h d1 fs' clk in
  (now clk - last_checkpoint_time d < checkpoint_interval d)%Z ->
  file_change_count d1 = file_change_count d + found /\
  snd (monitor_cycle d fs last_check clk_scan) = now clk_scan /\
  (snd cycle = Some "ACTIVITY_BASED"
   <-> activity_threshold d <= file_change_count d + found) /\
  (activity_threshold d <= file_change_count d + found ->
   file_change_count (fst (fst cycle)) = 0 /\
   last_checkpoint_time (fst (fst cycle)) = now clk).
Proof.
  cbv zeta. intros Htime.
  set (d1 := fst (monitor_cycle d fs last_check clk_scan)).
  assert (Hd1 : file_change_count d1
                = file_change_count d + List.length (scan_for_changes d fs last_check)
                /\ last_checkpoint_time d1 = last_checkpoint_time d
                /\ checkpoint_interval d1 = checkpoint_interval d
                /\ activity_threshold d1 = activity_threshold d).
  { subst d1. unfold monitor_cycle. cbn [fst].
    destruct (scan_for_changes d fs last_check); cbn; auto. }
  destruct Hd1 as (Hcount & Hlast & Hint & Hthr).
  split; [exact Hcount|]. split; [reflexivity|].
  unfold checkpoint_cycle, decide. rewrite Hlast, Hint, Hthr, Hcount.
  destruct (checkpoint_interval d <=? now clk - last_checkpoint_time d)%Z eqn:E;
    [apply Z.leb_le in E; lia|].
  destruct (activity_threshold d
            <=? file_change_count d + List.length (scan_for_changes d fs last_check))%nat
    eqn:Ea.
  - apply Nat.leb_le in Ea. cbn. tauto.
  - apply Nat.leb_gt in Ea.
    destruct (state_changed md5 d1 fs') as [[|] d2]; cbn;
      (split; [split; [discriminate|lia]|lia]).
Qed.

(** X6.  While the ProgressRecord is missing, unreadable or not a JSON
    document, [_create_auto_checkpoint] writes nothing, whatever the reason
    it is called with; a decision cycle that fires in this situation still
    sets the change counter to 0 and the timer to its clock reading, so the
    changes counted so far are dropped without a checkpoint. *)
Theorem unreadable_record_blocks_creation
  (h : host) (d : AutoCheckpointDaemon) (fs : filesystem) (clk : clock) (e : exn) :
  let cycle := checkpoint_cycle md5 h d fs clk in
  load_json fs (state_file d) = Raise e ->
  (forall reason, create_auto_checkpoint h d fs clk reason = fs) /\
  snd (fst cycle) = fs /\
  (snd cycle <> None ->
   file_change_count (fst (fst cycle)) = 0 /\
   last_checkpoint_time (fst (fst cycle)) = now clk).
Proof.
  cbv zeta. intros Hload.
  assert (Hcreate : forall d', state_file d' = state_file d ->
                    forall reason, create_auto_checkpoint h d' fs clk reason = fs).
  { intros d' Hp reason. unfold create_auto_checkpoint. rewrite Hp.
    destruct (negb (exists_ fs (state_file d))); [reflexivity|].
    unfold create_body, write_checkpoint, mbind, reading.
    rewrite Hp, Hload. reflexivity. }
  split; [apply Hcreate; reflexivity|].
  unfold checkpoint_cycle.
  pose proof (decide_paths d fs (now clk)) as Hp.
  destruct (decide md5 d fs (now clk)) as [[reason|] d1]; cbn [fst snd] in *.
  - rewrite (Hcreate d1 Hp reason). auto.
  - split; [reflexivity|]. intros H; contradiction.
Qed.

End Triggers.

Lemma activity_fires_at_threshold_witness :
  let fs := set_file Examples.fs_start "proj/src/lib.py" (mkFile [Text "x = 1"] 0 true) in
  snd (checkpoint_cycle Examples.digest Examples.this_host
         (fst (monitor_cycle Examples.daemon fs (-1) Examples.clk0)) fs Examples.clk0)
  = Some "ACTIVITY_BASED".
Proof.
  cbv zeta.
  destruct (activity_fires_at_threshold Examples.digest Examples.this_host
              Examples.daemon
              (set_file Examples.fs_start "proj/src/lib.py" (mkFile [Text "x = 1"] 0 true))
              (set_file Examples.fs_start "proj/src/lib.py" (mkFile [Text "x = 1"] 0 true))
              (-1) Examples.clk0 Examples.clk0 eq_refl) as (_ & _ & [_ H] & _).
  apply H. vm_compute. lia.
Defined.

Lemma unreadable_record_blocks_creation_witness :
  let fs := mkFS [("proj/progress-state/PROGRESS_STATE.json", Examples.blob "{ truncated");
                  ("proj/src/app.py", Examples.blob "print('v1')")] [] in
  snd (checkpoint_cycle Examples.digest Examples.this_host Examples.daemon fs
         Examples.clk_interval) = Some "TIME_BASED" /\
  snd (fst (checkpoint_cycle Examples.digest Examples.this_host Examples.daemon fs
              Examples.clk_interval)) = fs.
Proof.
  cbv zeta. split; [reflexivity|].
  exact (proj1 (proj2 (unreadable_record_blocks_creation Examples.digest
                         Examples.this_host Examples.daemon
                         (mkFS [("proj/progress-state/PROGRESS_STATE.json",
                                 Examples.blob "{ truncated");
                                ("proj/src/app.py", Examples.blob "print('v1')")] [])
                         Examples.clk_interval JSONDecodeError eq_refl))).
Defined.

End DaemonCycles.

(** ** What a successful automatic checkpoint leaves behind *)

Section CreationRecords.
Import Py FS AutoCheckpoint.

Lemma setdefault_obj (o : list (string * json)) (k : string) (v : json) :
  setdefault (JObj o) k v = Ok (JObj (if has_key k o then o else update k v o)).
Proof. unfold setdefault, bind; simpl. destruct (has_key k o); reflexivity. Qed.

Lemma append_at_shape (d d' : json) (k : string) (v : json) :
  append_at d k v = Ok d' ->
  exists o items,
    d = JObj o /\ lookup k o = Some (JArr items) /\
    d' = JObj (update k (JArr (items ++ [v])) o).
Proof.
  unfold append_at, bind, getitem, setitem.
  destruct d as [| | | | |o]; try discriminate.
  destruct (lookup k o) as [l|] eqn:Hl; [|discriminate].
  destruct l; try discriminate. intros H; inversion H; subst. eauto.
Qed.

Lemma setitem3_shape (d d' : json) (k1 k2 k3 : string) (v : json) :
  setitem3 d k1 k2 k3 v = Ok d' ->
  exists o i1 i2,
    d = JObj o /\ lookup k1 o = Some (JObj i1) /\ lookup k2 i1 = Some (JObj i2) /\
    d' = JObj (update k1 (JObj (update k2 (JObj (update k3 v i2)) i1)) o).
Proof.
  unfold setitem3, bind, getitem.
  destruct d as [| | | | |o]; try discriminate.
  destruct (lookup k1 o) as [inner|] eqn:Hl; [|discriminate].
  destruct (setitem2 inner k2 k3 v) as [inner'|] eqn:E; [|discriminate].
  destruct (setitem2_shape _ _ _ _ _ E) as (i1 & i2 & -> & L & ->).
  simpl. intros H; inversion H; subst. exists o, i1, i2. auto.
Qed.

Lemma lookup_update_other (k k' : string) (v : json) (o : list (string * json)) :
  k' <> k -> lookup k (update k' v o) = lookup k o.
Proof.
  intros H. rewrite lookup_update.
  destruct (String.eqb k' k) eqn:E; [apply String.eqb_eq in E; contradiction|reflexivity].
Qed.

Lemma lookup_update_same (k : string) (v : json) (o : list (string * json)) :
  lookup k (update k v o) = Some v.
Proof. rewrite lookup_update, String.eqb_refl. reflexivity. Qed.

Lemma has_key_lookup (k : string) (o : list (string * json)) :
  has_key k o = false -> lookup k o = None.
Proof. unfold has_key. destruct (lookup k o); [discriminate|reflexivity]. Qed.

(** The live record after lines 266-284. *)
Lemma note_checkpoint_effects (cp : json) (id : string) (n : nat) (ts state state' : json) :
  note_checkpoint cp id n ts state = Ok state' ->
  exists earlier auto_checkpoint,
    (CheckpointRecovery.field1 state "checkpoints" = Some (JArr earlier)
     \/ CheckpointRecovery.field1 state "checkpoints" = None /\ earlier = []) /\
    CheckpointRecovery.field1 state' "checkpoints" = Some (JArr (earlier ++ [cp])) /\
    CheckpointRecovery.field2 state' "recovery" "last_known_good_state" = Some (JStr id) /\
    CheckpointRecovery.field2 state' "recovery" "rollback_available" = Some (JBool true) /\
    CheckpointRecovery.field2 state' "automation" "auto_checkpoint" = Some auto_checkpoint /\
    CheckpointRecovery.field1 auto_checkpoint "last_auto_checkpoint" = Some ts /\
    CheckpointRecovery.field1 auto_checkpoint "total_auto_checkpoints" = Some (JNum (Z.of_nat n)) /\
    (forall k, k <> "checkpoints" -> k <> "automation" -> k <> "recovery" ->
               CheckpointRecovery.field1 state' k = CheckpointRecovery.field1 state k).
Proof.
  unfold note_checkpoint, bind.
  destruct (setdefault state "checkpoints" (JArr [])) as [s1|] eqn:E1; [|discriminate].
  destruct (append_at s1 "checkpoints" cp) as [s2|] eqn:E2; [|discriminate].
  destruct (append_at_shape _ _ _ _ E2) as (o1 & earlier & -> & L1 & ->).
  assert (Hstate : exists o, state = JObj o /\
                             (forall k, k <> "checkpoints" -> lookup k o1 = lookup k o) /\
                             (lookup "checkpoints" o = Some (JArr earlier)
                              \/ lookup "checkpoints" o = None /\ earlier = [])).
  { destruct state as [|b|z|s|l|o]; try discriminate.
    - unfold setdefault, bind in E1. simpl in E1.
      destruct (is_substring "checkpoints" s); discriminate E1.
    - unfold setdefault, bind in E1. simpl in E1.
      destruct (existsb _ l); discriminate E1.
    - rewrite setdefault_obj in E1. injection E1 as <-.
      exists o. destruct (has_key "checkpoints" o) eqn:Hk.
      + split; [reflexivity|]. split; [reflexivity|]. left. exact L1.
      + split; [reflexivity|]. split.
        * intros k Hne. apply lookup_update_other. congruence.
        * right. split; [apply has_key_lookup; exact Hk|].
          rewrite lookup_update_same in L1. injection L1 as <-. reflexivity. }
  destruct Hstate as (o & -> & Ho1 & Hearlier).
  set (o2 := update "checkpoints" (JArr (earlier ++ [cp])) o1).
  rewrite setdefault_obj.
  set (o3 := if has_key "automation" o2 then o2 else update "automation" (JObj []) o2).
  assert (Ho3 : forall k, k <> "automation" -> lookup k o3 = lookup k o2).
  { intros k Hk. subst o3. destruct (has_key "automation" o2); [reflexivity|].
    apply lookup_update_other. congruence. }
  destruct (getitem (JObj o3) "automation") as [automation|]; [|discriminate].
  destruct (contains "auto_checkpoint" automation) as [present|]; [|discriminate].
  destruct (if present then Ok (JObj o3)
            else setitem2 (JObj o3) "automation" "auto_checkpoint" (JObj []))
    as [s4|] eqn:E4; [|discriminate].
  assert (Hs4 : exists o4, s4 = JObj o4 /\
                           forall k, k <> "automation" -> lookup k o4 = lookup k o3).
  { destruct present.
    - injection E4 as <-. exists o3. auto.
    - destruct (setitem2_shape _ _ _ _ _ E4) as (o' & i & Heq & _ & ->).
      injection Heq as <-. eexists. split; [reflexivity|].
      intros k Hk. apply lookup_update_other. congruence. }
  destruct Hs4 as (o4 & -> & Ho4).
  destruct (setitem3 (JObj o4) _ _ _ ts) as [s5|] eqn:E5; [|discriminate].
  destruct (setitem3_shape _ _ _ _ _ _ E5) as (o4' & a5 & c5 & Heq & _ & _ & ->).
  injection Heq as <-.
  set (o5 := update "automation" _ o4) in *.
  destruct (setitem3 (JObj o5) _ _ _ _) as [s6|] eqn:E6; [|discriminate].
  destruct (setitem3_shape _ _ _ _ _ _ E6) as (o5' & a6 & c6 & Heq & La6 & Lc6 & ->).
  injection Heq as <-.
  assert (Hc6 : c6 = update "last_auto_checkpoint" ts c5).
  { subst o5. rewrite lookup_update_same in La6. injection La6 as <-.
    rewrite lookup_update_same in Lc6. injection Lc6 as <-. reflexivity. }
  set (o6 := update "automation" _ o5) in *.
  rewrite setdefault_obj.
  set (o7 := if has_key "recovery" o6 then o6 else update "recovery" (JObj []) o6).
  assert (Ho7 : forall k, k <> "recovery" -> lookup k o7 = lookup k o6).
  { intros k Hk. subst o7. destruct (has_key "recovery" o6); [reflexivity|].
    apply lookup_update_other. congruence. }
  destruct (setitem2 (JObj o7) _ _ _) as [s8|] eqn:E8; [|discriminate].
  destruct (setitem2_shape _ _ _ _ _ E8) as (o7' & r7 & Heq & _ & ->).
  injection Heq as <-.
  set (o8 := update "recovery" _ o7) in *.
  intros E9.
  destruct (setitem2_shape _ _ _ _ _ E9) as (o8' & r8 & Heq & Lr8 & ->).
  injection Heq as <-.
  assert (Hr8 : r8 = update "last_known_good_state" (JStr id) r7).
  { subst o8. rewrite lookup_update_same in Lr8. injection Lr8 as <-. reflexivity. }
  exists earlier, (JObj (update "total_auto_checkpoints" (JNum (Z.of_nat n)) c6)).
  split; [exact Hearlier|].
  assert (Hframe : forall k, k <> "automation" -> k <> "recovery" ->
                             lookup k (update "recovery"
                                         (JObj (update "rollback_available" (JBool true) r8))
                                         o8)
                             = lookup k o2).
  { intros k Ha Hr. rewrite lookup_update_other by congruence. subst o8.
    rewrite lookup_update_other by congruence. rewrite Ho7 by exact Hr. subst o6.
    rewrite lookup_update_other by congruence. subst o5.
    rewrite lookup_update_other by congruence.
    rewrite Ho4 by exact Ha. apply Ho3. exact Ha. }
  split.
  { cbn [CheckpointRecovery.field1]. rewrite Hframe by discriminate. subst o2.
    apply lookup_update_same. }
  split.
  { unfold CheckpointRecovery.field2. rewrite lookup_update_same, Hr8.
    rewrite lookup_update_other by discriminate. apply lookup_update_same. }
  split.
  { unfold CheckpointRecovery.field2. rewrite lookup_update_same. apply lookup_update_same. }
  split.
  { unfold CheckpointRecovery.field2. rewrite lookup_update_other by discriminate. subst o8.
    rewrite lookup_update_other by discriminate. rewrite Ho7 by discriminate.
    subst o6. rewrite lookup_update_same. apply lookup_update_same. }
  split.
  { cbn [CheckpointRecovery.field1]. rewrite lookup_update_other by discriminate. rewrite Hc6.
    apply lookup_update_same. }
  split.
  { cbn [CheckpointRecovery.field1]. apply lookup_update_same. }
  intros k Hc Ha Hr. cbn [CheckpointRecovery.field1]. rewrite Hframe by assumption. subst o2.
  rewrite lookup_update_other by congruence. apply Ho1. exact Hc.
Qed.

Lemma find_file_remove_other (p q : string) (l : list (string * file)) :
  p <> q -> find_file q (remove_file p l) = find_file q l.
Proof.
  intros Hne. induction l as [|[a g] l IH]; simpl; [reflexivity|].
  destruct (String.eqb a p) eqn:E; simpl.
  - apply String.eqb_eq in E; subst a.
    destruct (String.eqb p q) eqn:E'; [apply String.eqb_eq in E'; contradiction|].
    reflexivity.
  - rewrite IH. reflexivity.
Qed.

Lemma unlink_all_elsewhere (q : string) (l : list string) :
  forall fs, ~ In q l -> lookup_file (unlink_all fs l) q = lookup_file fs q.
Proof.
  induction l as [|p l IH]; intros fs Hq; simpl; [reflexivity|].
  unfold unlink. destruct (negb (exists_ fs p)); [reflexivity|].
  destruct (is_denied fs p); [reflexivity|].
  rewrite IH by (simpl in Hq; tauto).
  unfold lookup_file. simpl. apply find_file_remove_other.
  simpl in Hq. tauto.
Qed.

(** The clean-up pass touches nothing but files matching [AUTO_CP*.json]
    in the checkpoint directory. *)
Lemma cleanup_elsewhere (d : AutoCheckpointDaemon) (fs : filesystem) (q : string) :
  ~ In q (glob fs (checkpoints_dir d) "AUTO_CP" ".json") ->
  lookup_file (cleanup_old_checkpoints d fs) q = lookup_file fs q.
Proof.
  intros Hq. unfold cleanup_old_checkpoints.
  destruct (_ <? _)%nat; [|reflexivity].
  apply unlink_all_elsewhere. intros Hin. apply Hq.
  unfold drop_last in Hin. destruct (Nat.eqb _ 0); [contradiction|].
  apply firstn_In in Hin. apply In_sort_by_mtime in Hin. exact Hin.
Qed.

Lemma prefix_app (a b c : string) :
  String.prefix (a ++ b) (a ++ c) = String.prefix b c.
Proof.
  induction a as [|x a IH]; simpl; [reflexivity|].
  destruct (ascii_dec x x) as [_|Hne]; [exact IH|contradiction].
Qed.

Lemma record_is_no_checkpoint (root : string) (t0 : Z) (fs : filesystem)
  (prefix suffix : string) :
  ~ In (state_file (init root t0))
       (glob fs (checkpoints_dir (init root t0)) prefix suffix).
Proof.
  unfold glob. rewrite filter_In. intros [_ H].
  unfold name_in, starts_with in H.
  replace (String.prefix _ _) with false in H; [discriminate|].
  symmetry. cbn. rewrite !string_app_assoc. rewrite !prefix_app. reflexivity.
Qed.

Lemma set_file_denied (fs : filesystem) (p q : string) (f : file) :
  is_denied (set_file fs p f) q = is_denied fs q.
Proof. reflexivity. Qed.

(** X7.  A call of [_create_auto_checkpoint] that gets through (the
    ProgressRecord loads, the record's containers have the expected types,
    both files can be written) leaves as live ProgressRecord the loaded one
    with the new checkpoint appended to its [checkpoints] list,
    [recovery.last_known_good_state] set to the new id,
    [recovery.rollback_available] set to true, and the automation counters
    set to the call's timestamp and count; no other top-level section differs.
    Unless the retention limit is exceeded, the checkpoint file holds the new
    checkpoint together with the record as it was loaded. *)
Theorem automatic_checkpoint_is_recorded
  (h : host) (d : AutoCheckpointDaemon) (root : string) (t0 : Z) (fs : filesystem)
  (clk : clock) (reason : string) (state cp state' : json) :
  let n := next_checkpoint_count d fs in
  let id := auto_checkpoint_id n in
  let checkpoint_file :=
    path_join (checkpoints_dir d) (checkpoint_file_name clk reason id) in
  let fs' := create_auto_checkpoint h d fs clk reason in
  state_file d = state_file (init root t0) ->
  checkpoints_dir d = checkpoints_dir (init root t0) ->
  load_json fs (state_file d) = Ok state ->
  checkpoint_record d fs clk reason state id = Ok cp ->
  note_checkpoint cp id n (JStr (utc_iso clk)) state = Ok state' ->
  is_denied fs checkpoint_file = false ->
  is_denied fs (state_file d) = false ->
  data_of fs' (state_file d) = [Json state'] /\
  (n <= max_checkpoints d ->
   data_of fs' checkpoint_file = [Json (checkpoint_document h cp state)]) /\
  (exists earlier,
      (CheckpointRecovery.field1 state "checkpoints" = Some (JArr earlier)
       \/ CheckpointRecovery.field1 state "checkpoints" = None /\ earlier = []) /\
      CheckpointRecovery.field1 state' "checkpoints" = Some (JArr (earlier ++ [cp]))) /\
  CheckpointRecovery.field2 state' "recovery" "last_known_good_state" = Some (JStr id) /\
  CheckpointRecovery.field2 state' "recovery" "rollback_available" = Some (JBool true) /\
  (exists auto_checkpoint,
      CheckpointRecovery.field2 state' "automation" "auto_checkpoint"
      = Some auto_checkpoint /\
      CheckpointRecovery.field1 auto_checkpoint "last_auto_checkpoint"
      = Some (JStr (utc_iso clk)) /\
      CheckpointRecovery.field1 auto_checkpoint "total_auto_checkpoints"
      = Some (JNum (Z.of_nat n))) /\
  (forall k, k <> "checkpoints" -> k <> "automation" -> k <> "recovery" ->
             CheckpointRecovery.field1 state' k = CheckpointRecovery.field1 state k).
Proof.
  cbv zeta. intros Hstate Hdir Hload Hrec Hnote Hden1 Hden2.
  set (n := next_checkpoint_count d fs) in *.
  set (id := auto_checkpoint_id n) in *.
  set (checkpoint_file := path_join (checkpoints_dir d) (checkpoint_file_name clk reason id))
    in *.
  destruct (note_checkpoint_effects _ _ _ _ _ _ Hnote)
    as (earlier & auto & He & Hcps & Hgood & Hroll & Hauto & Hlast & Htotal & Hframe).
  assert (Hex : exists_ fs (state_file d) = true).
  { unfold load_json, bind, open_read in Hload. unfold exists_.
    destruct (lookup_file fs (state_file d)); [reflexivity|discriminate]. }
  assert (Hne : checkpoint_file <> state_file d).
  { subst checkpoint_file. rewrite Hdir, Hstate. subst id.
    unfold checkpoint_file_name, auto_checkpoint_id. cbn.
    rewrite !string_app_assoc. intros H. do 2 apply append_same_prefix in H.
    discriminate. }
  set (fs1 := set_file fs checkpoint_file
                (mkFile [Json (checkpoint_document h cp state)] (now clk)
                   match lookup_file fs checkpoint_file with
                   | Some f => f_readable f
                   | None => true
                   end)).
  assert (Hw1 : write_file fs checkpoint_file [Json (checkpoint_document h cp state)]
                  (now clk) = Ok fs1).
  { unfold write_file. rewrite Hden1. reflexivity. }
  assert (Hex1 : exists_ fs1 (state_file d) = true)
    by (eapply write_file_exists; eassumption).
  set (fs2 := set_file fs1 (state_file d)
                (mkFile [Json state'] (now clk)
                   match lookup_file fs1 (state_file d) with
                   | Some f => f_readable f
                   | None => true
                   end)).
  assert (Hw2 : write_file fs1 (state_file d) [Json state'] (now clk) = Ok fs2).
  { unfold write_file. subst fs1. rewrite set_file_denied, Hden2. reflexivity. }
  assert (Hcreate : create_auto_checkpoint h d fs clk reason
                    = cleanup_old_checkpoints d fs2).
  { unfold create_auto_checkpoint. rewrite Hex. cbn [negb].
    unfold create_body, write_checkpoint, record_checkpoint,
      mbind, reading, updating, lift, modify, mret, dump_json.
    rewrite Hload. fold n. fold id. rewrite Hrec. fold checkpoint_file.
    rewrite Hw1. fold id. rewrite Hnote, Hw2. reflexivity. }
  rewrite Hcreate.
  destruct (write_file_data _ _ _ _ _ Hw1) as [Hd1 Hd1'].
  destruct (write_file_data _ _ _ _ _ Hw2) as [Hd2 Hd2'].
  split.
  { unfold data_of. rewrite cleanup_elsewhere; [exact Hd2|].
    rewrite Hstate, Hdir. apply record_is_no_checkpoint. }
  split.
  { intros Hn.
    assert (Hsame : cleanup_old_checkpoints d fs2 = fs2).
    { unfold cleanup_old_checkpoints. rewrite sort_by_mtime_length.
      destruct (_ <? _)%nat eqn:E; [|reflexivity]. exfalso.
      apply Nat.ltb_lt in E. unfold glob in E. subst fs2. cbn [set_file fs_files] in E.
      rewrite names_put_existing in E.
      - subst fs1. cbn [set_file fs_files] in E.
        pose proof (names_put_file
                      (fun p => match name_in (checkpoints_dir d) p with
                                | Some name => name_matches "AUTO_CP" ".json" name
                                | None => false
                                end)
                      checkpoint_file
                      (mkFile [Json (checkpoint_document h cp state)] (now clk)
                         match lookup_file fs checkpoint_file with
                         | Some f => f_readable f
                         | None => true
                         end) (fs_files fs)) as Hle.
        subst n. unfold next_checkpoint_count, glob in Hn. lia.
      - unfold exists_, lookup_file in Hex1.
        destruct (find_file (state_file d) (fs_files fs1)); congruence. }
    rewrite Hsame, Hd2' by (intros E; apply Hne; symmetry; exact E). exact Hd1. }
  split; [exists earlier; auto|]. split; [exact Hgood|]. split; [exact Hroll|].
  split; [exists auto; auto|]. exact Hframe.
Qed.

Lemma automatic_checkpoint_is_recorded_witness :
  let fs' := create_auto_checkpoint Examples.this_host Examples.daemon
               Examples.fs_start Examples.clk_capture "TIME_BASED" in
  exists state',
    data_of fs' "proj/progress-state/PROGRESS_STATE.json" = [Json state'] /\
    CheckpointRecovery.field2 state' "recovery" "last_known_good_state"
    = Some (JStr "AUTO_CP001") /\
    CheckpointRecovery.field2 state' "recovery" "rollback_available"
    = Some (JBool true).
Proof.
  cbv zeta.
  destruct (note_checkpoint
              match checkpoint_record Examples.daemon Examples.fs_start
                      Examples.clk_capture "TIME_BASED"
                      (Examples.progress_record 2 "P2.1" 40) "AUTO_CP001" with
              | Ok cp => cp
              | Raise _ => JNull
              end
              "AUTO_CP001" 1 (JStr (utc_iso Examples.clk_capture))
              (Examples.progress_record 2 "P2.1" 40)) as [state'|] eqn:Hnote;
    [|vm_compute in Hnote; discriminate].
  exists state'.
  destruct (automatic_checkpoint_is_recorded Examples.this_host Examples.daemon
              "proj" 0 Examples.fs_start Examples.clk_capture "TIME_BASED"
              (Examples.progress_record 2 "P2.1" 40) _ state'
              eq_refl eq_refl eq_refl eq_refl Hnote eq_refl eq_refl)
    as (Hdata & _ & _ & Hgood & Hroll & _).
  split; [exact Hdata|]. split; [exact Hgood|exact Hroll].
Defined.

End CreationRecords.

(** ** Checkpoints written by the daemon, as the validator sees them *)

Section WrittenCheckpoints.
Import Py FS CheckpointRecovery.

Lemma forallb_referenced_strings (m : CheckpointRecoveryManager) (fs : filesystem)
  (l : list string) :
  forallb (referenced_exists m fs) (map JStr l)
  = forallb (fun p => exists_ fs (path_join (project_root m) p)) l.
Proof. induction l as [|p l IH]; simpl; [reflexivity|]. rewrite IH. reflexivity. Qed.

Lemma forallb_is_str_strings (l : list string) : forallb is_str (map JStr l) = true.
Proof. induction l as [|p l IH]; simpl; auto. Qed.

(** X8.  A checkpoint document written by [_create_auto_checkpoint] always
    passes the validator: whatever the ProgressRecord held and wherever the
    document is found, [validate_checkpoint] reports no issue,
    [data_integrity] and [valid]; recovery from it is feasible exactly when
    every file the daemon listed as recently modified still exists. *)
Theorem daemon_checkpoints_validate
  (m : CheckpointRecoveryManager) (fs : filesystem) (h : AutoCheckpoint.host)
  (d : AutoCheckpoint.AutoCheckpointDaemon) (fs0 : filesystem) (clk : clock)
  (reason : string) (state cp : json) (id : string) (wanted : json)
  (checkpoint_file : string) :
  let v := validate_checkpoint m fs wanted in
  AutoCheckpoint.checkpoint_record d fs0 clk reason state id = Ok cp ->
  find_checkpoint_file m fs wanted = Some checkpoint_file ->
  load_json fs checkpoint_file = Ok (AutoCheckpoint.checkpoint_document h cp state) ->
  issues v = [] /\ data_integrity v = true /\ valid v = true /\
  recovery_feasible v
  = forallb (fun p => exists_ fs (path_join (project_root m) p))
      (AutoCheckpoint.get_recently_modified_files d fs0 clk).
Proof.
  cbv zeta. intros Hrec Hfind Hload.
  assert (Hshape : exists so info,
             state = JObj so /\ cp = JObj info /\
             forallb (fun k => has_key k info) required_fields = true /\
             files_to_restore (JObj info)
             = Ok (map JStr (AutoCheckpoint.get_recently_modified_files d fs0 clk) ++ [])).
  { unfold AutoCheckpoint.checkpoint_record, bind in Hrec.
    destruct state as [|b|z|s|l|so]; try discriminate Hrec.
    repeat match type of Hrec with
           | context [match ?x with Ok _ => _ | Raise _ => _ end] =>
               destruct x; try discriminate Hrec
           end.
    injection Hrec as <-. eexists. eexists.
    split; [reflexivity|]. split; [reflexivity|]. split; reflexivity. }
  destruct Hshape as (so & info & -> & -> & Hfields & Hfiles).
  unfold AutoCheckpoint.checkpoint_document in Hload.
  pose proof (verdict_of_found m fs wanted checkpoint_file _ info Hfind Hload eq_refl)
    as (Hdi & Hvalid & Hfeasible & _).
  pose proof (validate_issues_found m fs wanted checkpoint_file _ info Hfind Hload eq_refl)
    as Hissues.
  cbv zeta in Hissues. cbn [lookup String.eqb Ascii.eqb Bool.eqb] in Hissues.
  rewrite missing_from_obj, Hfiles in Hissues.
  rewrite app_nil_r, forallb_is_str_strings in Hissues.
  pose proof (filter_missing_nil (fun k => has_key k info) required_fields) as Hnil.
  rewrite Hfields in Hnil.
  destruct (filter (fun k => negb (has_key k info)) required_fields);
    [|discriminate Hnil].
  cbn in Hissues.
  rewrite Hissues in Hvalid. rewrite Hfields in Hdi. rewrite Hdi in Hvalid.
  cbn in Hvalid. rewrite Hvalid, Hfiles, app_nil_r in Hfeasible. cbn [andb] in Hfeasible.
  rewrite forallb_referenced_strings in Hfeasible. auto.
Qed.

Lemma daemon_checkpoints_validate_witness :
  let v := validate_checkpoint Examples.manager Examples.fs_later (JStr "AUTO_CP001") in
  issues v = [] /\ data_integrity v = true /\ valid v = true.
Proof.
  cbv zeta.
  destruct (AutoCheckpoint.checkpoint_record Examples.daemon Examples.fs_start
              Examples.clk_capture "TIME_BASED" (Examples.progress_record 2 "P2.1" 40)
              "AUTO_CP001") as [cp|] eqn:Hrec; [|vm_compute in Hrec; discriminate].
  destruct (daemon_checkpoints_validate Examples.manager Examples.fs_later
              Examples.this_host Examples.daemon Examples.fs_start Examples.clk_capture
              "TIME_BASED" (Examples.progress_record 2 "P2.1" 40) cp "AUTO_CP001"
              (JStr "AUTO_CP001")
              "proj/progress-state/checkpoints/AUTO_CP001_20251231_2200_time_based.json"
              Hrec eq_refl)
    as (Hi & Hd & Hv & _).
  - vm_compute in Hrec. injection Hrec as <-. reflexivity.
  - auto.
Defined.

End WrittenCheckpoints.

(** ** More on the recovery manager *)

Section RecoveryOutcomes.
Import Py FS CheckpointRecovery.

Lemma try_candidates_outcome (m : CheckpointRecoveryManager) (fs fs' : filesystem)
  (clk : clock) (cs : list checkpoint_summary) (outcome : emergency_result) :
  try_candidates m fs clk cs = (fs', outcome) ->
  match outcome with
  | NoCheckpointsAvailable => False
  | NoValidCheckpoint =>
      fs' = fs /\
      forall c, In c cs ->
                recovery_feasible (validate_checkpoint m fs (cs_id c)) = false
  | Recovered r =>
      exists newer c older,
        cs = newer ++ c :: older /\
        (forall c', In c' newer ->
                    recovery_feasible (validate_checkpoint m fs (cs_id c')) = false) /\
        recovery_feasible (validate_checkpoint m fs (cs_id c)) = true /\
        recover_from_checkpoint m fs (cs_id c) clk = (fs', r)
  end.
Proof.
  induction cs as [|c cs IH]; simpl.
  - intros H; inversion H; subst. split; [reflexivity|]. intros c [].
  - destruct (recovery_feasible (validate_checkpoint m fs (cs_id c))) eqn:Hf.
    + destruct (recover_from_checkpoint m fs (cs_id c) clk) as [fs1 r1] eqn:Hr.
      intros H; inversion H; subst. exists [], c, cs.
      split; [reflexivity|]. split; [intros c' []|]. auto.
    + intros H. specialize (IH H). destruct outcome as [| |r]; [exact IH| |].
      * destruct IH as [-> Hall]. split; [reflexivity|].
        intros c' [<-|Hin]; auto.
      * destruct IH as (newer & c0 & older & -> & Hnewer & Hc0 & Hrec).
        exists (c :: newer), c0, older. split; [reflexivity|].
        split; [|auto]. intros c' [<-|Hin]; auto.
Qed.

(** X9.  [emergency_recovery] recovers from the first checkpoint of the
    newest-first listing that the validator finds recovery-feasible, and
    from that one only: every checkpoint listed before it was infeasible,
    and the result is that of [recover_from_checkpoint] on it.  When nothing
    is listed, or nothing listed is feasible, it reports so and leaves the
    file system as it was. *)
Theorem emergency_recovery_takes_first_feasible
  (m : CheckpointRecoveryManager) (fs fs' : filesystem) (clk : clock)
  (outcome : emergency_result) :
  emergency_recovery m fs clk = Ok (fs', outcome) ->
  exists listed,
    list_checkpoints m fs = Ok listed /\
    match outcome with
    | NoCheckpointsAvailable => listed = [] /\ fs' = fs
    | NoValidCheckpoint =>
        listed <> [] /\ fs' = fs /\
        forall c, In c listed ->
                  recovery_feasible (validate_checkpoint m fs (cs_id c)) = false
    | Recovered r =>
        exists newer c older,
          listed = newer ++ c :: older /\
          (forall c', In c' newer ->
                      recovery_feasible (validate_checkpoint m fs (cs_id c')) = false) /\
          recovery_feasible (validate_checkpoint m fs (cs_id c)) = true /\
          recover_from_checkpoint m fs (cs_id c) clk = (fs', r)
    end.
Proof.
  unfold emergency_recovery, bind.
  destruct (list_checkpoints m fs) as [listed|e]; [|discriminate].
  intros H. exists listed. split; [reflexivity|].
  destruct listed as [|c cs].
  - inversion H; subst. auto.
  - assert (Ht : try_candidates m fs clk (c :: cs) = (fs', outcome)) by congruence.
    pose proof (try_candidates_outcome _ _ _ _ _ _ Ht) as Ho.
    destruct outcome as [| |r]; [contradiction| |exact Ho].
    destruct Ho as [-> Hall]. split; [discriminate|]. auto.
Qed.

Lemma emergency_recovery_takes_first_feasible_witness :
  exists r,
    snd (match emergency_recovery Examples.manager Examples.fs_feasible Examples.clk0 with
         | Ok result => result
         | Raise _ => (Examples.fs_feasible, NoCheckpointsAvailable)
         end) = Recovered r /\
    r_checkpoint_id r = JStr "CP001".
Proof.
  destruct (emergency_recovery Examples.manager Examples.fs_feasible Examples.clk0)
    as [[fs' outcome]|e] eqn:He; [|vm_compute in He; discriminate].
  destruct (emergency_recovery_takes_first_feasible _ _ _ _ _ He) as (listed & Hl & Ho).
  destruct outcome as [| |r].
  - vm_compute in He. discriminate.
  - vm_compute in He. discriminate.
  - exists r. split; [reflexivity|].
    vm_compute in He. injection He as _ <-. reflexivity.
Defined.

(** X10.  Asking for a checkpoint that no file of the checkpoint directory
    holds changes nothing: the validator reports the single issue
    "Checkpoint file not found for <id>", and [recover_from_checkpoint]
    returns the file system as it was, with exactly the rejection notice and
    that issue as messages. *)
Theorem unknown_checkpoint_is_rejected
  (m : CheckpointRecoveryManager) (fs : filesystem) (id : json) (clk : clock) :
  find_checkpoint_file m fs id = None ->
  let v := validate_checkpoint m fs id in
  let r := snd (recover_from_checkpoint m fs id clk) in
  issues v = [("Checkpoint file not found for " ++ Py.str id)%string] /\
  valid v = false /\ recovery_feasible v = false /\
  fst (recover_from_checkpoint m fs id clk) = fs /\
  success r = false /\
  messages r = ["Checkpoint validation failed";
                ("Checkpoint file not found for " ++ Py.str id)%string].
Proof.
  intros Hfind. cbv zeta.
  assert (Hv : validate_checkpoint m fs id
               = add_issue ("Checkpoint file not found for " ++ Py.str id)
                   (initial_validation id)).
  { unfold validate_checkpoint, validate_body. rewrite Hfind. reflexivity. }
  rewrite (recover_rejected m fs id clk) by (rewrite Hv; reflexivity).
  rewrite Hv. repeat split.
Qed.

Lemma unknown_checkpoint_is_rejected_witness :
  messages (snd (recover_from_checkpoint Examples.manager Examples.fs_feasible
                   (JStr "CP999") Examples.clk0))
  = ["Checkpoint validation failed"; "Checkpoint file not found for CP999"].
Proof.
  exact (proj2 (proj2 (proj2 (proj2 (proj2
           (unknown_checkpoint_is_rejected Examples.manager Examples.fs_feasible
              (JStr "CP999") Examples.clk0 eq_refl)))))).
Defined.

End RecoveryOutcomes.

(** ** The restore step of a recovery: history, backup, failure *)

Section RestoreDetails.
Import Py FS CheckpointRecovery.

Lemma init_backup_not_state (root stamp : string) :
  path_join (backup_dir (init root)) ("pre_recovery_" ++ stamp ++ ".json")
  <> state_file (init root).
Proof.
  cbn. rewrite !string_app_assoc. intros H.
  do 2 apply append_same_prefix in H. discriminate.
Qed.

Lemma replay_all_keeps_backup (m : CheckpointRecoveryManager) (id : json)
  (files : list json) (st : filesystem * recovery_result) :
  backup_created (snd (replay_all m id files st)) = backup_created (snd st).
Proof.
  revert st. induction files as [|p files IH]; intros [fs r]; simpl; [reflexivity|].
  unfold replay_all in *. simpl. rewrite IH.
  destruct (try_replay m id fs p) as [[fs'|]|e]; reflexivity.
Qed.

Lemma copy2_data_same (fs fs' : filesystem) (src dst : string) :
  copy2 fs src dst = Ok fs' -> data_of fs' dst = data_of fs src.
Proof.
  unfold copy2, data_of. destruct (lookup_file fs src) as [f|]; [|discriminate].
  destruct (negb (f_readable f)); [discriminate|].
  destruct (String.eqb src dst); [discriminate|].
  destruct (is_denied fs dst); [discriminate|].
  intros H; inversion H; subst. unfold lookup_file, set_file. simpl.
  rewrite find_file_put, String.eqb_refl. reflexivity.
Qed.

(** What lines 178-210 leave behind, by the flags they set. *)
Lemma backup_and_restore_outcome (root : string) (fs : filesystem) (clk : clock)
  (id full_state : json) (r : recovery_result) :
  let m := init root in
  let backup_path :=
    path_join (backup_dir m) ("pre_recovery_" ++ local_second clk ++ ".json") in
  let fs2 := fst (backup_and_restore m fs clk id full_state r) in
  let r2 := snd (backup_and_restore m fs clk id full_state r) in
  state_restored r = false ->
  (state_restored r2 = true ->
   exists stamped,
     stamp_recovery clk id (recovery_time r) (backup_created r2) full_state = Ok stamped /\
     data_of fs2 (state_file m) = [Json stamped]) /\
  (state_restored r2 = false ->
   data_of fs2 (state_file m) = data_of fs (state_file m) /\
   exists e, In ("Failed to restore progress state: " ++ exn_text e)%string (messages r2)) /\
  (exists_ fs (state_file m) = true -> backup_created r2 = true ->
   data_of fs2 backup_path = data_of fs (state_file m)).
Proof.
  cbv zeta. intros Hr. unfold backup_and_restore.
  set (m := init root).
  set (backup_path := path_join (backup_dir m)
                        ("pre_recovery_" ++ local_second clk ++ ".json")).
  assert (Hbackup :
            data_of (fst (create_recovery_backup m fs clk)) (state_file m)
            = data_of fs (state_file m) /\
            (exists_ fs (state_file m) = true ->
             snd (create_recovery_backup m fs clk) = true ->
             data_of (fst (create_recovery_backup m fs clk)) backup_path
             = data_of fs (state_file m))).
  { unfold create_recovery_backup. fold backup_path.
    destruct (negb (exists_ fs (state_file m))) eqn:Hex.
    - split; [reflexivity|]. intros He. rewrite He in Hex. discriminate.
    - destruct (copy2 fs (state_file m) backup_path) as [fs1|e] eqn:Hc; cbn [fst snd].
      + split.
        * eapply copy2_data_other; [exact Hc|]. apply init_backup_not_state.
        * intros _ _. eapply copy2_data_same. exact Hc.
      + split; [reflexivity|]. discriminate. }
  destruct (create_recovery_backup m fs clk) as [fs1 b]. cbn [fst snd] in Hbackup.
  destruct Hbackup as [Hstate Hcopy].
  unfold restore_progress_state, bind, dump_json.
  destruct (stamp_recovery clk id (recovery_time r) b full_state) as [stamped|e] eqn:Hs.
  - destruct (write_file fs1 (state_file m) [Json stamped] (now clk)) as [fs2|e] eqn:Hw.
    + destruct (write_file_data _ _ _ _ _ Hw) as [Hsame Hother]. cbn [fst snd].
      split; [|split].
      * intros _. exists stamped. split; [|exact Hsame].
        destruct b; cbn; exact Hs.
      * destruct b; cbn; discriminate.
      * intros Hex Hb. rewrite Hother.
        -- apply Hcopy; [exact Hex|]. destruct b; [reflexivity|discriminate Hb].
        -- intros E. apply (init_backup_not_state root (local_second clk)).
           symmetry. exact E.
    + cbn [fst snd]. split; [|split].
      * intros H. destruct b; cbn in H; congruence.
      * intros _. split; [exact Hstate|]. exists e.
        destruct b; cbn; apply in_or_app; right; left; reflexivity.
      * intros Hex Hb. apply Hcopy; [exact Hex|].
        destruct b; [reflexivity|discriminate Hb].
  - cbn [fst snd]. split; [|split].
    + intros H. destruct b; cbn in H; congruence.
    + intros _. split; [exact Hstate|]. exists e.
      destruct b; cbn; apply in_or_app; right; left; reflexivity.
    + intros Hex Hb. apply Hcopy; [exact Hex|].
      destruct b; [reflexivity|discriminate Hb].
Qed.

Lemma stamp_recovery_marks (clk : clock) (id : json) (t : string) (b : bool)
  (captured stamped : json) :
  stamp_recovery clk id t b captured = Ok stamped ->
  exists earlier,
    (field1 captured "recovery_history" = Some (JArr earlier)
     \/ field1 captured "recovery_history" = None /\ earlier = []) /\
    field1 stamped "recovery_history"
    = Some (JArr (earlier ++ [JObj [("recovered_from", id);
                                    ("recovery_time", JStr t);
                                    ("previous_state_backed_up", JBool b)]])) /\
    field2 stamped "metadata" "last_updated" = Some (JStr (utc_iso clk)) /\
    field2 stamped "current_session" "session_id"
    = Some (JStr ("recovery_" ++ local_minute clk)) /\
    field2 stamped "current_session" "last_activity" = Some (JStr (utc_iso clk)).
Proof.
  unfold stamp_recovery, bind.
  destruct (setitem2 captured _ _ _) as [s1|] eqn:E1; [|discriminate].
  destruct (setitem2 s1 _ _ _) as [s2|] eqn:E2; [|discriminate].
  destruct (setitem2 s2 _ _ _) as [s3|] eqn:E3; [|discriminate].
  destruct (setitem2_shape _ _ _ _ _ E1) as (o0 & i0 & -> & L0 & ->).
  destruct (setitem2_shape _ _ _ _ _ E2) as (o1 & i1 & H1 & L1 & ->).
  destruct (setitem2_shape _ _ _ _ _ E3) as (o2 & i2 & H2 & L2 & ->).
  injection H1 as <-. injection H2 as <-.
  assert (Hi2 : i2 = update "session_id" (JStr ("recovery_" ++ local_minute clk)) i1).
  { rewrite lookup_update, String.eqb_refl in L2. injection L2 as L2.
    symmetry. exact L2. }
  set (o3 := update "current_session" _ (update "current_session" _ _)) in *.
  assert (Hh3 : lookup "recovery_history" o3 = lookup "recovery_history" o0).
  { subst o3. rewrite !lookup_update. reflexivity. }
  assert (Hm3 : lookup "metadata" o3
                = Some (JObj (update "last_updated" (JStr (utc_iso clk)) i0))).
  { subst o3. rewrite !lookup_update. reflexivity. }
  assert (Hc3 : lookup "current_session" o3
                = Some (JObj (update "last_activity" (JStr (utc_iso clk)) i2))).
  { subst o3. rewrite lookup_update, String.eqb_refl. reflexivity. }
  cbn [contains].
  destruct (if has_key "recovery_history" o3 then Ok (JObj o3)
            else setitem (JObj o3) "recovery_history" (JArr [])) as [s4|] eqn:E4;
    [|discriminate].
  intros Ha. destruct (append_at_shape _ _ _ _ Ha) as (o4 & items & -> & L4 & ->).
  assert (Ho4 : (forall k, k <> "recovery_history" -> lookup k o4 = lookup k o3) /\
                (lookup "recovery_history" o0 = Some (JArr items)
                 \/ lookup "recovery_history" o0 = None /\ items = [])).
  { destruct (has_key "recovery_history" o3) eqn:Hk.
    - injection E4 as <-. split; [reflexivity|]. left. congruence.
    - cbn in E4. injection E4 as <-. split.
      + intros k Hne. apply lookup_update_other. congruence.
      + right. rewrite <- Hh3. split; [apply has_key_lookup; exact Hk|].
        rewrite lookup_update_same in L4. injection L4 as <-. reflexivity. }
  destruct Ho4 as [Hframe Hitems].
  exists items. split; [exact Hitems|]. split.
  { cbn [field1]. apply lookup_update_same. }
  split.
  { unfold field2. rewrite lookup_update_other by discriminate.
    rewrite Hframe by discriminate. rewrite Hm3. apply lookup_update_same. }
  split.
  { unfold field2. rewrite lookup_update_other by discriminate.
    rewrite Hframe by discriminate. rewrite Hc3, Hi2.
    rewrite lookup_update_other by discriminate. apply lookup_update_same. }
  unfold field2. rewrite lookup_update_other by discriminate.
  rewrite Hframe by discriminate. rewrite Hc3. apply lookup_update_same.
Qed.

(** The flags and the live record at the end of a feasible recovery, in
    terms of the restore step. *)
Lemma recover_feasible_flags (root : string) (fs : filesystem) (id : json) (clk : clock) :
  let m := init root in
  recovery_feasible (validate_checkpoint m fs id) = true ->
  exists o,
    stored_document m fs id = Some (JObj o) /\
    let st2 := backup_and_restore m fs clk id
                 (match lookup "full_state" o with Some s => s | None => JObj [] end)
                 (initial_recovery id clk) in
    let r := snd (recover_from_checkpoint m fs id clk) in
    state_restored r = state_restored (snd st2) /\
    backup_created r = backup_created (snd st2) /\
    (forall msg, In msg (messages (snd st2)) -> In msg (messages r)) /\
    forall q,
      q <> recovery_log m ->
      (forall p, In p (files_restored r) -> join_value root p <> Ok q) ->
      data_of (fst (recover_from_checkpoint m fs id clk)) q = data_of (fst st2) q.
Proof.
  cbv zeta. intros Hfeasible.
  destruct (recover_feasible_steps (init root) fs id clk Hfeasible)
    as (o & info & files & Hdoc & _ & _ & Hsteps).
  exists o. split; [exact Hdoc|]. rewrite Hsteps. cbv zeta. cbn [fst snd].
  set (full_state := match lookup "full_state" o with Some s => s | None => JObj [] end).
  destruct (backup_and_restore_effects (init root) fs clk id full_state
              (initial_recovery id clk)) as (_ & Hrest2 & _ & _).
  pose proof (replay_all_keeps_backup (init root) id files
                (backup_and_restore (init root) fs clk id full_state
                   (initial_recovery id clk))) as Hb3.
  destruct (backup_and_restore (init root) fs clk id full_state (initial_recovery id clk))
    as [fs2 r2]. cbn [fst snd] in *.
  destruct (replay_all_trace (init root) id files fs2 r2) as (Hrest3 & _ & Hsr3 & _ & Hmsg3).
  destruct (log_recovery_operation_effects (init root)
              (fst (replay_all (init root) id files (fs2, r2))) clk id
              (snd (replay_all (init root) id files (fs2, r2)))) as [Hlog _].
  cbn [finish state_restored backup_created add_message set_success messages files_restored].
  split; [exact Hsr3|]. split; [exact Hb3|]. split.
  { intros msg Hin. apply in_or_app. left. apply Hmsg3. exact Hin. }
  intros q Hq Htargets. rewrite Hlog by exact Hq.
  destruct (replay_all_elsewhere (init root) id q files fs2 r2) as [Hdata3 _];
    [|exact Hdata3].
  intros p Hin. apply Htargets. rewrite Hrest3, Hrest2. cbn. exact Hin.
Qed.

(** X11.  A recovery that reports [state_restored] has written a live
    ProgressRecord whose [recovery_history] is the history embedded in the
    checkpoint (empty when there was none) followed by exactly one new entry
    naming the checkpoint, the time the recovery started and whether the
    previous record was backed up; its [metadata.last_updated] and
    [current_session.last_activity] are the time of the recovery and its
    session id is [recovery_<minute>]. *)
Theorem recovery_is_entered_in_history
  (root : string) (fs : filesystem) (id : json) (clk : clock) (doc captured : json) :
  let m := init root in
  let fs' := fst (recover_from_checkpoint m fs id clk) in
  let r := snd (recover_from_checkpoint m fs id clk) in
  stored_document m fs id = Some doc ->
  field1 doc "full_state" = Some captured ->
  state_restored r = true ->
  (forall p, In p (files_restored r) -> join_value root p <> Ok (state_file m)) ->
  exists restored earlier,
    data_of fs' (state_file m) = [Json restored] /\
    (field1 captured "recovery_history" = Some (JArr earlier)
     \/ field1 captured "recovery_history" = None /\ earlier = []) /\
    field1 restored "recovery_history"
    = Some (JArr (earlier
                  ++ [JObj [("recovered_from", id);
                            ("recovery_time", JStr (utc_iso clk));
                            ("previous_state_backed_up", JBool (backup_created r))]])) /\
    field2 restored "metadata" "last_updated" = Some (JStr (utc_iso clk)) /\
    field2 restored "current_session" "session_id"
    = Some (JStr ("recovery_" ++ local_minute clk)) /\
    field2 restored "current_session" "last_activity" = Some (JStr (utc_iso clk)).
Proof.
  cbv zeta. intros Hdoc Hcaptured Hrestored Htargets.
  destruct (recovery_feasible (validate_checkpoint (init root) fs id)) eqn:Hfeasible.
  2:{ rewrite (recover_rejected (init root) fs id clk Hfeasible) in Hrestored.
      cbn in Hrestored. congruence. }
  destruct (recover_feasible_flags root fs id clk Hfeasible)
    as (o & Hdoc' & Hsr & Hbc & _ & Hdata).
  rewrite Hdoc in Hdoc'. injection Hdoc' as ->. cbn [field1] in Hcaptured.
  rewrite Hcaptured in *.
  destruct (backup_and_restore_outcome root fs clk id captured (initial_recovery id clk)
              eq_refl) as (Hok & _ & _).
  rewrite Hsr in Hrestored. destruct (Hok Hrestored) as (stamped & Hstamp & Hlive).
  destruct (stamp_recovery_marks _ _ _ _ _ _ Hstamp)
    as (earlier & He & Hh & Hlu & Hsid & Hla).
  exists stamped, earlier. rewrite Hbc.
  split; [|repeat split; assumption].
  rewrite Hdata; [exact Hlive|apply init_log_not_state|exact Htargets].
Qed.

Lemma recovery_is_entered_in_history_witness :
  exists restored,
    data_of (fst (recover_from_checkpoint Examples.manager Examples.fs_later
                    (JStr "AUTO_CP001") Examples.clk0))
      (state_file Examples.manager) = [Json restored] /\
    field1 restored "recovery_history"
    = Some (JArr [JObj [("recovered_from", JStr "AUTO_CP001");
                        ("recovery_time", JStr "2026-01-01T00:00:00+00:00");
                        ("previous_state_backed_up", JBool true)]]).
Proof.
  destruct (recovery_is_entered_in_history Examples.root Examples.fs_later
              (JStr "AUTO_CP001") Examples.clk0 Examples.stored_later
              (Examples.progress_record 2 "P2.1" 40))
    as (restored & earlier & Hlive & He & Hh & _).
  - vm_compute. reflexivity.
  - vm_compute. reflexivity.
  - vm_compute. reflexivity.
  - intros p Hin. vm_compute in Hin. tauto.
  - exists restored. split; [exact Hlive|].
    destruct He as [He|[_ ->]]; [vm_compute in He; discriminate|].
    exact Hh.
Defined.

(** X12.  A recovery that does not report [state_restored] has left the
    live ProgressRecord as it was (unless a replayed snapshot was copied over
    it) and reports failure; when the checkpoint had passed validation, the
    messages tell why the restore step failed. *)
Theorem failed_restore_keeps_live_record
  (root : string) (fs : filesystem) (id : json) (clk : clock) :
  let m := init root in
  let fs' := fst (recover_from_checkpoint m fs id clk) in
  let r := snd (recover_from_checkpoint m fs id clk) in
  state_restored r = false ->
  (forall p, In p (files_restored r) -> join_value root p <> Ok (state_file m)) ->
  data_of fs' (state_file m) = data_of fs (state_file m) /\
  success r = false /\
  (recovery_feasible (validate_checkpoint m fs id) = true ->
   exists e, In ("Failed to restore progress state: " ++ exn_text e)%string (messages r)).
Proof.
  cbv zeta. intros Hsr Htargets.
  destruct (recovery_feasible (validate_checkpoint (init root) fs id)) eqn:Hfeasible.
  2:{ rewrite (recover_rejected (init root) fs id clk Hfeasible).
      split; [reflexivity|]. split; [reflexivity|discriminate]. }
  destruct (recover_feasible_flags root fs id clk Hfeasible)
    as (o & _ & Hsr' & _ & Hmsg & Hdata).
  destruct (backup_and_restore_outcome root fs clk id
              (match lookup "full_state" o with Some s => s | None => JObj [] end)
              (initial_recovery id clk) eq_refl) as (_ & Hfail & _).
  rewrite Hsr' in Hsr. destruct (Hfail Hsr) as (Hlive & e & He).
  split; [|split].
  - rewrite Hdata; [exact Hlive|apply init_log_not_state|exact Htargets].
  - destruct (recover_feasible_steps (init root) fs id clk Hfeasible)
      as (o' & info & files & _ & _ & _ & Hsteps).
    rewrite Hsteps in Hsr' |- *. cbv zeta in *. cbn [snd] in *.
    cbn [finish success add_message set_success state_restored] in *.
    rewrite Hsr', Hsr. reflexivity.
  - intros _. exists e. apply Hmsg. exact He.
Qed.

Lemma failed_restore_keeps_live_record_witness :
  let result := recover_from_checkpoint Examples.manager Examples.fs_partial
                  (JStr "CP007") Examples.clk0 in
  data_of (fst result) (state_file Examples.manager)
  = [Json (Examples.progress_record 3 "P3.1" 60)] /\
  success (snd result) = false /\
  In "Failed to restore progress state: 'metadata'" (messages (snd result)).
Proof.
  cbv zeta.
  destruct (failed_restore_keeps_live_record Examples.root Examples.fs_partial
              (JStr "CP007") Examples.clk0) as (Hlive & Hs & Hmsg).
  - vm_compute. reflexivity.
  - intros p Hin. vm_compute in Hin.
    destruct Hin as [<-|[]]. vm_compute. discriminate.
  - split; [exact Hlive|]. split; [exact Hs|].
    vm_compute. tauto.
Defined.

(** X13.  When a recovery reports [backup_created] and a live ProgressRecord
    existed, the file [backups/pre_recovery_<second>.json] holds that record
    as it was before the recovery overwrote it (unless a replayed snapshot
    was copied over the backup). *)
Theorem backup_holds_previous_record
  (root : string) (fs : filesystem) (id : json) (clk : clock) :
  let m := init root in
  let backup_path :=
    path_join (backup_dir m) ("pre_recovery_" ++ local_second clk ++ ".json") in
  let fs' := fst (recover_from_checkpoint m fs id clk) in
  let r := snd (recover_from_checkpoint m fs id clk) in
  exists_ fs (state_file m) = true ->
  backup_created r = true ->
  (forall p, In p (files_restored r) -> join_value root p <> Ok backup_path) ->
  data_of fs' backup_path = data_of fs (state_file m).
Proof.
  cbv zeta. intros Hex Hbc Htargets.
  destruct (recovery_feasible (validate_checkpoint (init root) fs id)) eqn:Hfeasible.
  2:{ rewrite (recover_rejected (init root) fs id clk Hfeasible) in Hbc.
      cbn in Hbc. discriminate. }
  destruct (recover_feasible_flags root fs id clk Hfeasible)
    as (o & _ & _ & Hbc' & _ & Hdata).
  destruct (backup_and_restore_outcome root fs clk id
              (match lookup "full_state" o with Some s => s | None => JObj [] end)
              (initial_recovery id clk) eq_refl) as (_ & _ & Hcopy).
  rewrite Hbc' in Hbc.
  rewrite Hdata; [exact (Hcopy Hex Hbc)|apply init_log_not_backup|exact Htargets].
Qed.

Lemma backup_holds_previous_record_witness :
  data_of (fst (recover_from_checkpoint Examples.manager Examples.fs_later
                  (JStr "AUTO_CP001") Examples.clk0))
    "proj/progress-state/backups/pre_recovery_20260101_000000.json"
  = [Json (Examples.progress_record 3 "P3.1" 60)].
Proof.
  refine (eq_trans (backup_holds_previous_record Examples.root Examples.fs_later
                      (JStr "AUTO_CP001") Examples.clk0 _ _ _) _).
  - vm_compute. reflexivity.
  - vm_compute. reflexivity.
  - intros p Hin. vm_compute in Hin. tauto.
  - vm_compute. reflexivity.
Defined.

End RestoreDetails.
